(** * sprout-track: authentication resolver, device tokens and kiosk routes

    A shallow embedding of
      - app/api/utils/auth.ts          (getAuthenticatedUser, withAuth,
                                        withAdminAuth, withAuthContext,
                                        validateDeviceToken, invalidateToken,
                                        the blacklist cleanup timer)
      - app/api/device-tokens/route.ts (POST / GET / DELETE)
      - app/api/auth/magic-link        (POST)
      - app/api/voice/log/route.ts     (POST)
      - app/api/kindle/log             (POST)

    Conventions.
      - An instant ([Date], [Date.now()]) is a [Z], milliseconds since the
        epoch; a nullable column is an [option]; [null] and [undefined] are
        both [None].
      - The relational store is a record of tables, each a list of rows in
        insertion order.  A Prisma query is a total function on that record:
        a query that the driver rejects (lost connection) has no counterpart
        here, so a [catch] survives only where data can reach it: a row
        whose relation is missing, a write that the store refuses, a body
        that does not parse, a string method called on a value that is no
        string.  The [catch] blocks that only a failing store can enter
        are named where the function they belong to is defined.
      - One request observes one instant [now].
      - [jsonwebtoken] is an external collaborator: its three entry points
        are the fields of [JwtLib].
      - A string is the sequence of its UTF-8 bytes.  What the platform
        computes from the Unicode tables or from the URL standard -
        [String.prototype.toLowerCase], the store's case-insensitive
        comparison, the serialisation [String(new URL(s))] that
        [NextResponse.redirect] sends as [Location] - is a field of
        [Runtime], like the random bytes and the readings of dates and
        numbers. *)

From Stdlib Require Import ZArith String Ascii List Bool Lia DecimalString.
From stdpp Require Import base tactics option list sorting gmap strings.

Local Open Scope string_scope.
Local Open Scope Z_scope.

(** ** JavaScript idioms *)

Module Js.

(** [!!s] for a string: the empty string is the only falsy one. *)
Definition truthy (s : string) : bool := negb (String.eqb s "").

(** [!!x] for [x : string | null | undefined]. *)
Definition truthyO (o : option string) : bool :=
  match o with Some s => truthy s | None => false end.

(** [x || null]. *)
Definition orNull (o : option string) : option string :=
  match o with
  | Some s => if truthy s then Some s else None
  | None => None
  end.

(** [x || d] for a string default [d]. *)
Definition orElse (o : option string) (d : string) : string :=
  match o with
  | Some s => if truthy s then s else d
  | None => d
  end.

(** [!!d] for [d : Date | null]: every [Date] object is truthy. *)
Definition isSet {A} (o : option A) : bool :=
  match o with Some _ => true | None => false end.

(** [s.startsWith(p)]. *)
Definition startsWith (s p : string) : bool := String.prefix p s.

(** [s.substring(n)] / [s.slice(n)] for [0 <= n]. *)
Definition substringFrom (n : nat) (s : string) : string :=
  String.substring n (String.length s - n) s.

(** [s.substring(0, n)]. *)
Definition substringTo (n : nat) (s : string) : string :=
  String.substring 0 n s.

(** [a > b] on instants. *)
Definition after (a b : Z) : bool := Z.ltb b a.

End Js.

(** ** Rows of the relational store *)

(** The Prisma schema is not among the sources at hand, the migration of
    [DeviceToken] apart: every other row has the columns that the queries
    of the routes select or filter on. *)

Record Family := {
  fam_id : string;
  fam_slug : string;
}.

Record Caretaker := {
  ct_id : string;
  ct_loginId : string;
  ct_name : string;
  ct_type : option string;
  ct_role : string;
  ct_familyId : option string;
  ct_deletedAt : option Z;
}.

(** The one-to-one relations Account-Family and Account-Caretaker are kept
    on the account row. *)
Record Account := {
  acct_id : string;
  acct_closed : bool;
  acct_verified : bool;
  acct_betaparticipant : bool;
  acct_trialEnds : option Z;
  acct_planExpires : option Z;
  acct_planType : option string;
  acct_familyId : option string;
  acct_caretakerId : option string;
}.

(** The columns of the [DeviceToken] table of the migration. *)
Record DeviceToken := {
  dt_id : string;
  dt_token : string;
  dt_name : string;
  dt_familyId : string;
  dt_caretakerId : string;
  dt_expiresAt : option Z;
  dt_revokedAt : option Z;
  dt_lastUsedAt : option Z;
  dt_createdAt : Z;
}.

Record FamilySetup := {
  fs_token : string;
  fs_familyId : option string;
}.

(** ** The resolver's vocabulary *)

(** The claims of a decoded token ([decoded as any] in the source): the
    fields the resolver reads, each at the type the issuers write it. *)
Record JwtPayload := {
  jp_id : option string;
  jp_name : option string;
  jp_type : option string;
  jp_role : option string;
  jp_familyId : option string;
  jp_familySlug : option string;
  jp_isSysAdmin : bool;
  jp_authType : option string;
  jp_isSetupAuth : bool;
  jp_setupToken : option string;
  jp_isAccountAuth : bool;
  jp_accountId : option string;
  jp_accountEmail : option string;
  jp_exp : option Z;          (* seconds since the epoch *)
}.

(** [jsonwebtoken]: [verify] returns the payload or throws ([None]);
    [decode] returns the payload or [null]; [sign] produces the token. *)
Record JwtLib := {
  jwt_verify : string -> Z -> string -> option JwtPayload; (* secret, now, token *)
  jwt_decode : string -> option JwtPayload;
  jwt_sign : JwtPayload -> string -> string;               (* payload, secret *)
}.

(** [process.env]. *)
Record Env := {
  JWT_SECRET : option string;
  DEPLOYMENT_MODE : option string;
}.

(** [interface AuthResult]. *)
Record AuthResult := {
  authenticated : bool;
  caretakerId : option string;
  caretakerType : option string;
  caretakerRole : option string;
  familyId : option string;
  familySlug : option string;
  isSysAdmin : option bool;
  isSetupAuth : option bool;
  setupToken : option string;
  authType : option string;
  isAccountAuth : option bool;
  accountId : option string;
  accountEmail : option string;
  isAccountOwner : option bool;
  verified : option bool;
  betaparticipant : option bool;
  isExpired : option bool;
  trialEnds : option Z;       (* the instant [toISOString] renders *)
  planExpires : option Z;
  planType : option string;
  error : option string;
}.

(** [{ authenticated: false, error }]. *)
Definition rejected (msg : string) : AuthResult :=
  {| authenticated := false;
     caretakerId := None; caretakerType := None; caretakerRole := None;
     familyId := None; familySlug := None; isSysAdmin := None;
     isSetupAuth := None; setupToken := None; authType := None;
     isAccountAuth := None; accountId := None; accountEmail := None;
     isAccountOwner := None; verified := None; betaparticipant := None;
     isExpired := None; trialEnds := None; planExpires := None;
     planType := None; error := Some msg |}.

(** [{ ...authResult, familyId }]. *)
Definition withFamilyId (a : AuthResult) (fid : option string) : AuthResult :=
  {| authenticated := authenticated a;
     caretakerId := caretakerId a; caretakerType := caretakerType a;
     caretakerRole := caretakerRole a;
     familyId := fid; familySlug := familySlug a;
     isSysAdmin := isSysAdmin a; isSetupAuth := isSetupAuth a;
     setupToken := setupToken a; authType := authType a;
     isAccountAuth := isAccountAuth a; accountId := accountId a;
     accountEmail := accountEmail a; isAccountOwner := isAccountOwner a;
     verified := verified a; betaparticipant := betaparticipant a;
     isExpired := isExpired a; trialEnds := trialEnds a;
     planExpires := planExpires a; planType := planType a;
     error := error a |}.

(** ** Requests and responses *)

(** A JSON number is an IEEE double, [mantissa * 2 ^ exponent]; the
    routes tell [NaN], zero and the rest apart and do no arithmetic. *)
Inductive JsNumber :=
| NaN
| Num (mantissa : Z) (exponent : Z).

Definition numTruthy (n : JsNumber) : bool :=
  match n with NaN => false | Num m _ => negb (m =? 0) end.

#[local] Set Warnings "-register-all".

Inductive Json :=
| JNull
| JBool (b : bool)
| JNum (n : JsNumber)
| JStr (s : string)
| JArr (items : list Json)
| JObj (fields : list (string * Json)).

(** [!!v]. *)
Definition jsonTruthy (v : option Json) : bool :=
  match v with
  | None | Some JNull => false
  | Some (JBool b) => b
  | Some (JNum n) => numTruthy n
  | Some (JStr s) => Js.truthy s
  | Some (JArr _) | Some (JObj _) => true
  end.

(** The last binding of a key wins, as [JSON.parse] has it. *)
Fixpoint lastField (k : string) (fields : list (string * Json)) : option Json :=
  match fields with
  | [] => None
  | (k', v) :: rest =>
      match lastField k rest with
      | Some v' => Some v'
      | None => if String.eqb k k' then Some v else None
      end
  end.

(** [const { k } = body]: reading a property of [null] throws (outer
    [None]); a primitive or an array has no such property. *)
Definition property (body : Json) (k : string) : option (option Json) :=
  match body with
  | JNull => None
  | JObj fields => Some (lastField k fields)
  | _ => Some None
  end.

Inductive Body :=
| NoBody                                   (* absent or unparsable *)
| JsonBody (j : Json)
| FormBody (fields : list (string * string)).

Inductive Referer :=
| NoReferer                                (* header absent or empty *)
| BadReferer                               (* [new URL(referer)] throws *)
| RefererPath (segments : list string).    (* [pathname.split('/').filter(Boolean)] *)

(** A [NextRequest], with its URL already taken apart. *)
Record Request := {
  req_Authorization : option string;
  req_cookieCaretakerId : option string;
  req_referer : Referer;
  req_origin : string;
  req_path : list string;                  (* non-empty path segments *)
  req_query : list (string * string);
  req_body : Body;
}.

(** [searchParams.get(k)]: the first value of the key. *)
Fixpoint searchParam (k : string) (q : list (string * string)) : option string :=
  match q with
  | [] => None
  | (k', v) :: rest => if String.eqb k k' then Some v else searchParam k rest
  end.

(** [interface ApiResponse<T>]. *)
Record ApiResponse (T : Type) := {
  success : bool;
  data : option T;
  error_ : option string;
}.
Arguments success {T} _.
Arguments data {T} _.
Arguments error_ {T} _.

Inductive NextResponse (T : Type) :=
| JsonResponse (status : Z) (body : ApiResponse T)
| RedirectResponse (status : Z) (url : string).
Arguments JsonResponse {T} _ _.
Arguments RedirectResponse {T} _ _.

(** [NextResponse.json({ success: false, error }, { status })]. *)
Definition failure {T} (status : Z) (msg : string) : NextResponse T :=
  JsonResponse status {| success := false; data := None; error_ := Some msg |}.

(** [NextResponse.json({ success: true, data })], status 200. *)
Definition ok {T} (d : option T) : NextResponse T :=
  JsonResponse 200 {| success := true; data := d; error_ := None |}.

Definition statusOf {T} (r : NextResponse T) : Z :=
  match r with JsonResponse s _ | RedirectResponse s _ => s end.

(** ** The remaining tables *)

Record Baby := {
  baby_id : string;
  baby_firstName : string;
  baby_familyId : string;
  baby_inactive : bool;
}.

Record Medicine := {
  med_id : string;
  med_name : string;
  med_familyId : string;
  med_active : bool;
  med_typicalDoseSize : option JsNumber;
  med_unitAbbr : option string;
}.

Record Settings := {
  set_familyId : string;
  set_defaultBottleUnit : option string;
}.

Record SleepLog := {
  sl_id : string;
  sl_babyId : string;
  sl_familyId : string;
  sl_caretakerId : option string;
  sl_type : string;
  sl_startTime : Z;
  sl_endTime : option Z;
  sl_duration : option Z;
}.

(** What the routes hand to [prisma.feedLog.create], [diaperLog.create]
    and [medicineLog.create]. *)
Inductive ActivityLog :=
| FeedLog (babyId : string) (time : Z) (type : string)
    (amount : option JsNumber) (unitAbbr bottleType side : option string)
    (caretakerId : option string) (familyId : string)
| DiaperLog (babyId : string) (time : Z) (type : string)
    (caretakerId : option string) (familyId : string)
| MedicineLog (babyId medicineId : string) (time : Z)
    (doseAmount : JsNumber) (unitAbbr : option string)
    (caretakerId : option string) (familyId : string).

Record Db := {
  accounts : list Account;
  families : list Family;
  caretakers : list Caretaker;
  deviceTokens : list DeviceToken;
  familySetups : list FamilySetup;
  babies : list Baby;
  medicines : list Medicine;
  settings : list Settings;
  sleepLogs : list SleepLog;
  activityLogs : list ActivityLog;
}.

Definition setDeviceTokens (db : Db) (dts : list DeviceToken) : Db :=
  {| accounts := accounts db; families := families db;
     caretakers := caretakers db; deviceTokens := dts;
     familySetups := familySetups db; babies := babies db;
     medicines := medicines db; settings := settings db;
     sleepLogs := sleepLogs db; activityLogs := activityLogs db |}.

Definition setSleepLogs (db : Db) (sls : list SleepLog) : Db :=
  {| accounts := accounts db; families := families db;
     caretakers := caretakers db; deviceTokens := deviceTokens db;
     familySetups := familySetups db; babies := babies db;
     medicines := medicines db; settings := settings db;
     sleepLogs := sls; activityLogs := activityLogs db |}.

Definition setActivityLogs (db : Db) (als : list ActivityLog) : Db :=
  {| accounts := accounts db; families := families db;
     caretakers := caretakers db; deviceTokens := deviceTokens db;
     familySetups := familySetups db; babies := babies db;
     medicines := medicines db; settings := settings db;
     sleepLogs := sleepLogs db; activityLogs := als |}.

(** The process: the module-level [tokenBlacklist], the store, and how
    many values have been drawn from the outside ([crypto.randomBytes],
    generated keys) so far. *)
Record World := {
  tokenBlacklist : gmap string Z;
  db : Db;
  drawn : nat;
}.

Definition setDb (w : World) (d : Db) : World :=
  {| tokenBlacklist := tokenBlacklist w; db := d; drawn := drawn w |}.

Definition setBlacklist (w : World) (bl : gmap string Z) : World :=
  {| tokenBlacklist := bl; db := db w; drawn := drawn w |}.

Definition draw (w : World) : World :=
  {| tokenBlacklist := tokenBlacklist w; db := db w; drawn := S (drawn w) |}.

(** ** Queries *)

Module Prisma.

(** [findFirst] / [findUnique]: the first row that satisfies [where]. *)
Definition findFirst {A} (where_ : A -> bool) (table : list A) : option A :=
  List.find where_ table.

(** [findMany({ where })]. *)
Definition findMany {A} (where_ : A -> bool) (table : list A) : list A :=
  List.filter where_ table.

(** [update({ where, data })]: the rows that satisfy [where] are
    rewritten by [data]. *)
Definition update {A} (where_ : A -> bool) (data_ : A -> A) (table : list A)
  : list A :=
  List.map (fun row => if where_ row then data_ row else row) table.

Definition familyById (d : Db) (id : string) : option Family :=
  findFirst (fun f => String.eqb (fam_id f) id) (families d).

Definition familyBySlug (d : Db) (slug : string) : option Family :=
  findFirst (fun f => String.eqb (fam_slug f) slug) (families d).

Definition caretakerById (d : Db) (id : string) : option Caretaker :=
  findFirst (fun c => String.eqb (ct_id c) id) (caretakers d).

Definition accountById (d : Db) (id : string) : option Account :=
  findFirst (fun a => String.eqb (acct_id a) id) (accounts d).

(** [include: { account }] on a family. *)
Definition accountOfFamily (d : Db) (fid : string) : option Account :=
  findFirst
    (fun a => match acct_familyId a with
              | Some f => String.eqb f fid
              | None => false
              end)
    (accounts d).

(** [include: { family }] through a nullable foreign key. *)
Definition familyOf (d : Db) (fk : option string) : option Family :=
  match fk with Some id => familyById d id | None => None end.

Definition caretakerOf (d : Db) (fk : option string) : option Caretaker :=
  match fk with Some id => caretakerById d id | None => None end.

Definition deviceTokenByToken (d : Db) (token : string) : option DeviceToken :=
  findFirst (fun t => String.eqb (dt_token t) token) (deviceTokens d).

End Prisma.

(** ** app/api/utils/auth.ts *)

(** The return sites of [getAuthenticatedUser], by the credential that
    leads to them. *)
Inductive AuthBranch :=
| BlacklistedToken      (* bearer token found in the blacklist *)
| SetupToken            (* [decoded.isSetupAuth && decoded.setupToken] *)
| AccountToken          (* [decoded.isAccountAuth] *)
| RegularToken          (* any other verified token *)
| UnverifiableToken     (* [jwt.verify] threw *)
| LegacyCookie          (* no bearer token, [caretakerId] cookie *)
| NoCredential.

Section Resolver.

Variable jwt : JwtLib.
Variable env : Env.

Definition getJwtSecret : string :=
  Js.orElse (JWT_SECRET env) "baby-tracker-jwt-secret".

(** [process.env.DEPLOYMENT_MODE === 'saas']. *)
Definition isSaasMode : bool :=
  match DEPLOYMENT_MODE env with
  | Some mode => String.eqb mode "saas"
  | None => false
  end.

(** The [if / else if / else if] chain on trial and plan dates, written
    three times in the source; [isExpired] starts out [false]. *)
Definition expirationChain (now : Z) (account : Account) : bool :=
  match acct_trialEnds account with
  | Some trialEndDate => Js.after now trialEndDate
  | None =>
      match acct_planExpires account with
      | Some planEndDate => Js.after now planEndDate
      | None => negb (Js.truthyO (acct_planType account))
      end
  end.

(** The fields the three account-token results share. *)
Definition accountAuth (decoded : JwtPayload) (account : Account)
    (expired : bool) (cId cType cRole fId fSlug : option string) : AuthResult :=
  {| authenticated := true;
     caretakerId := cId; caretakerType := cType; caretakerRole := cRole;
     familyId := fId; familySlug := fSlug;
     isSysAdmin := None; isSetupAuth := None; setupToken := None;
     authType := None;
     isAccountAuth := Some true;
     accountId := jp_accountId decoded;
     accountEmail := jp_accountEmail decoded;
     isAccountOwner := Some true;
     verified := Some (acct_verified account);
     betaparticipant := Some (acct_betaparticipant account);
     isExpired := Some expired;
     trialEnds := acct_trialEnds account;
     planExpires := acct_planExpires account;
     planType := acct_planType account;
     error := None |}.

(** Lines 119-239: the account-token branch.  A token without
    [accountId] makes [findUnique] throw, which the inner [catch] turns
    into a rejection. *)
Definition resolveAccountToken (d : Db) (now : Z) (decoded : JwtPayload)
  : AuthResult :=
  match jp_accountId decoded with
  | None => rejected "Failed to verify account status"
  | Some accountId_ =>
      match Prisma.accountById d accountId_ with
      | None => rejected "Account not found"
      | Some account =>
          if acct_closed account then rejected "Account is closed"
          else
            let family := Prisma.familyOf d (acct_familyId account) in
            let caretaker := Prisma.caretakerOf d (acct_caretakerId account) in
            let expired :=
              if isSaasMode && Js.isSet family
                 && negb (acct_betaparticipant account)
              then expirationChain now account
              else false in
            match caretaker with
            | Some c =>
                accountAuth decoded account expired
                  (Some (ct_id c))
                  (Some (Js.orElse (ct_type c) "Account Owner"))
                  (Some (ct_role c))
                  (Js.orNull (fam_id <$> family))
                  (Js.orNull (fam_slug <$> family))
            | None =>
                match family with
                | None =>
                    accountAuth decoded account expired
                      (Some accountId_) (Some "ACCOUNT") (Some "OWNER")
                      None None
                | Some f =>
                    accountAuth decoded account expired
                      (Some accountId_) (Some "ACCOUNT") (Some "OWNER")
                      (Some (fam_id f)) (Some (fam_slug f))
                end
            end
      end
  end.

(** The result of the regular-token and of the cookie branch. *)
Definition caretakerAuth (cId cType cRole fId fSlug : option string)
    (sysAdmin : bool) (aType : string) (account : option Account)
    (expired : bool) : AuthResult :=
  {| authenticated := true;
     caretakerId := cId; caretakerType := cType; caretakerRole := cRole;
     familyId := fId; familySlug := fSlug;
     isSysAdmin := Some sysAdmin;
     isSetupAuth := None; setupToken := None;
     authType := Some aType;
     isAccountAuth := None; accountId := None; accountEmail := None;
     isAccountOwner := None; verified := None;
     betaparticipant :=
       Some (match account with
             | Some a => acct_betaparticipant a
             | None => false
             end);
     isExpired := Some expired;
     trialEnds := account ≫= acct_trialEnds;
     planExpires := account ≫= acct_planExpires;
     planType := account ≫= acct_planType;
     error := None |}.

(** Lines 286-310 and 383-407: the flag for a family's account. *)
Definition familyAccountExpired (now : Z) (account : Account) : bool :=
  if isSaasMode && negb (acct_betaparticipant account)
  then expirationChain now account
  else false.

(** Lines 241-333: the regular (PIN-based) token branch.  (Were the
    family lookup to fail, its [catch] would let the request through
    without account data.) *)
Definition resolveRegularToken (d : Db) (now : Z) (decoded : JwtPayload)
  : AuthResult :=
  let account :=
    if Js.truthyO (jp_familyId decoded) && negb (jp_isSysAdmin decoded)
    then
      match Prisma.familyOf d (jp_familyId decoded) with
      | Some family => Prisma.accountOfFamily d (fam_id family)
      | None => None
      end
    else None in
  let authed (acc : option Account) (expired : bool) :=
    caretakerAuth
      (if jp_isSysAdmin decoded then None else jp_id decoded)
      (jp_type decoded) (jp_role decoded)
      (jp_familyId decoded) (jp_familySlug decoded)
      (jp_isSysAdmin decoded)
      (Js.orElse (jp_authType decoded) "CARETAKER")
      acc expired in
  match account with
  | Some a =>
      if acct_closed a then rejected "Family account is closed"
      else authed (Some a) (familyAccountExpired now a)
  | None => authed None false
  end.

(** Lines 340-427: the legacy cookie; [None] when no live caretaker has
    the id, so that the caller falls through. *)
Definition resolveCookie (d : Db) (now : Z) (cookie : string)
  : option AuthResult :=
  match Prisma.findFirst
          (fun c => String.eqb (ct_id c) cookie
                    && negb (Js.isSet (ct_deletedAt c)))
          (caretakers d) with
  | None => None
  | Some caretaker =>
      let family := Prisma.familyOf d (ct_familyId caretaker) in
      let account :=
        match family with
        | Some f => Prisma.accountOfFamily d (fam_id f)
        | None => None
        end in
      let authed (acc : option Account) (expired : bool) :=
        caretakerAuth
          (Some (ct_id caretaker)) (ct_type caretaker)
          (Some (Js.orElse (Some (ct_role caretaker)) "USER"))
          (ct_familyId caretaker) (fam_slug <$> family)
          false "CARETAKER" acc expired in
      match account with
      | Some a =>
          if acct_closed a then Some (rejected "Family account is closed")
          else Some (authed (Some a) (familyAccountExpired now a))
      | None => Some (authed None false)
      end
  end.

(** [authHeader.substring(7)] when the header starts with ['Bearer ']. *)
Definition bearerToken (req : Request) : option string :=
  match req_Authorization req with
  | Some authHeader =>
      if Js.truthy authHeader && Js.startsWith authHeader "Bearer "
      then Some (Js.substringFrom 7 authHeader)
      else None
  | None => None
  end.

Definition setupAuth (decoded : JwtPayload) : AuthResult :=
  {| authenticated := true;
     caretakerId := None; caretakerType := Some "Setup";
     caretakerRole := Some "ADMIN";
     familyId := None; familySlug := None;
     isSysAdmin := Some false;
     isSetupAuth := Some true; setupToken := jp_setupToken decoded;
     authType := None;
     isAccountAuth := None; accountId := None; accountEmail := None;
     isAccountOwner := None; verified := None; betaparticipant := None;
     isExpired := None; trialEnds := None; planExpires := None;
     planType := None; error := None |}.

(** Lines 340-429: what is left when no bearer token was presented. *)
Definition resolveLegacy (d : Db) (now : Z) (req : Request)
  : AuthBranch * AuthResult :=
  let fallthrough :=
    (NoCredential, rejected "No valid authentication found") in
  match req_cookieCaretakerId req with
  | Some cookie =>
      if Js.truthy cookie then
        match resolveCookie d now cookie with
        | Some r => (LegacyCookie, r)
        | None => fallthrough
        end
      else fallthrough
  | None => fallthrough
  end.

(** Lines 94-338: a bearer token was presented. *)
Definition resolveBearer (w : World) (now : Z) (token : string)
  : AuthBranch * AuthResult :=
  if bool_decide (is_Some (tokenBlacklist w !! token))
  then (BlacklistedToken, rejected "Token has been invalidated")
  else
    match jwt_verify jwt getJwtSecret now token with
    | None => (UnverifiableToken, rejected "Invalid or expired token")
    | Some decoded =>
        if jp_isSetupAuth decoded && Js.truthyO (jp_setupToken decoded)
        then (SetupToken, setupAuth decoded)
        else if jp_isAccountAuth decoded
        then (AccountToken, resolveAccountToken (db w) now decoded)
        else (RegularToken, resolveRegularToken (db w) now decoded)
    end.

(** [getAuthenticatedUser], each return site labelled with its branch.
    The outermost [catch] ('Authentication verification failed') can be
    reached from the cookie lookup only, and only when the store fails. *)
Definition resolve (w : World) (now : Z) (req : Request)
  : AuthBranch * AuthResult :=
  match bearerToken req with
  | Some token =>
      if Js.truthy token then resolveBearer w now token
      else resolveLegacy (db w) now req
  | None => resolveLegacy (db w) now req
  end.

Definition getAuthenticatedUser (w : World) (now : Z) (req : Request)
  : AuthResult :=
  snd (resolve w now req).

Definition verifyAuthentication (w : World) (now : Z) (req : Request) : bool :=
  authenticated (getAuthenticatedUser w now req).

End Resolver.

(** A route handler, and one that receives the authentication context. *)
Definition Handler (T : Type) : Type :=
  World -> Z -> Request -> NextResponse T * World.

Definition ContextHandler (T : Type) : Type :=
  World -> Z -> Request -> AuthResult -> NextResponse T * World.

Section Middleware.

Variable jwt : JwtLib.
Variable env : Env.

Definition withAuth {T} (handler : Handler T) : Handler T :=
  fun w now req =>
    let authResult := getAuthenticatedUser jwt env w now req in
    if negb (authenticated authResult)
    then (failure 401 "Authentication required", w)
    else handler w now req.

(** [findFirst({ where: { id, loginId: '00', deletedAt: null } })].
    (Were the lookup to fail, its [catch] would leave [isSystemCaretaker]
    false.) *)
Definition systemCaretaker (d : Db) (id : string) : option Caretaker :=
  Prisma.findFirst
    (fun c => String.eqb (ct_id c) id
              && String.eqb (ct_loginId c) "00"
              && negb (Js.isSet (ct_deletedAt c)))
    (caretakers d).

Definition withAdminAuth {T} (handler : Handler T) : Handler T :=
  fun w now req =>
    let authResult := getAuthenticatedUser jwt env w now req in
    if negb (authenticated authResult)
    then (failure 401 "Authentication required", w)
    else
      let isSystemCaretaker :=
        match caretakerId authResult with
        | Some id =>
            if Js.truthy id then Js.isSet (systemCaretaker (db w) id)
            else false
        | None => false
        end in
      if negb (bool_decide (caretakerRole authResult = Some "ADMIN"))
         && negb isSystemCaretaker
         && negb (bool_decide (isSysAdmin authResult = Some true))
      then (failure 403 "Admin access required", w)
      else handler w now req.

Definition withSysAdminAuth {T} (handler : Handler T) : Handler T :=
  fun w now req =>
    let authResult := getAuthenticatedUser jwt env w now req in
    if negb (authenticated authResult)
    then (failure 401 "Authentication required", w)
    else if negb (bool_decide (isSysAdmin authResult = Some true))
    then (failure 403 "System administrator access required", w)
    else handler w now req.

(** Does the first path segment name a family page? *)
Definition familyRoute (segments : list string) : option string :=
  match segments with
  | first :: _ =>
      if negb (Js.startsWith first "api")
         && negb (Js.startsWith first "family-manager")
         && negb (Js.startsWith first "setup")
      then Some first
      else None
  | [] => None
  end.

(** [family.id] of the family whose slug heads the path, if any. *)
Definition familyIdOfPath (d : Db) (segments : list string) : option string :=
  match familyRoute segments with
  | Some familySlug_ => fam_id <$> Prisma.familyBySlug d familySlug_
  | None => None
  end.

(** (Were the [familySetup] lookup to fail, its [catch] would answer 500
    'Failed to validate setup authorization'; a failing family lookup
    and a referer that is no URL leave [familyId] as it is.) *)
Definition withAuthContext {T} (handler : ContextHandler T) : Handler T :=
  fun w now req =>
    let authResult := getAuthenticatedUser jwt env w now req in
    if negb (authenticated authResult)
    then (failure 401 "Authentication required", w)
    else if bool_decide (isSetupAuth authResult = Some true)
            && Js.truthyO (setupToken authResult)
    then
      let familyId_ := searchParam "familyId" (req_query req) in
      if Js.truthyO familyId_ then
        match Prisma.findFirst
                (fun s => bool_decide (Some (fs_token s) = setupToken authResult))
                (familySetups (db w)) with
        | Some setup =>
            if bool_decide (fs_familyId setup = familyId_)
               || negb (Js.truthyO (fs_familyId setup))
            then handler w now req (withFamilyId authResult familyId_)
            else (failure 403 "Setup token is not authorized for this family", w)
        | None =>
            (failure 403 "Setup token is not authorized for this family", w)
        end
      else handler w now req authResult
    else if bool_decide (isSysAdmin authResult = Some true)
    then
      let familyId0 := searchParam "familyId" (req_query req) in
      let familyId1 :=
        if Js.truthyO familyId0 then familyId0
        else
          match familyIdOfPath (db w) (req_path req) with
          | Some id => Some id
          | None => familyId0
          end in
      let familyId2 :=
        if Js.truthyO familyId1 then familyId1
        else
          match req_referer req with
          | RefererPath segments =>
              match familyIdOfPath (db w) segments with
              | Some id => Some id
              | None => familyId1
              end
          | BadReferer | NoReferer => familyId1
          end in
      handler w now req
        (withFamilyId authResult
           (if Js.truthyO familyId2 then familyId2 else familyId authResult))
    else handler w now req authResult.

End Middleware.

Section AccountOwner.

Variable jwt : JwtLib.
Variable env : Env.

(** [withAccountOwner]: the handler receives the authentication result. *)
Definition withAccountOwner {T} (handler : ContextHandler T) : Handler T :=
  fun w now req =>
    let authResult := getAuthenticatedUser jwt env w now req in
    if negb (authenticated authResult)
    then (failure 401 "Authentication required", w)
    else if negb (bool_decide (isAccountOwner authResult = Some true))
            && negb (bool_decide (isSysAdmin authResult = Some true))
    then (failure 403 "Account owner access required", w)
    else handler w now req authResult.

End AccountOwner.

(** ** Device tokens and the blacklist (auth.ts, lines 14-25 and 724-795) *)

(** [prisma.deviceToken.update({ where: { id }, data: { lastUsedAt } })]. *)
Definition touchDeviceToken (id : string) (now : Z) (d : Db) : Db :=
  setDeviceTokens d
    (Prisma.update
       (fun t => String.eqb (dt_id t) id)
       (fun t =>
          {| dt_id := dt_id t; dt_token := dt_token t; dt_name := dt_name t;
             dt_familyId := dt_familyId t; dt_caretakerId := dt_caretakerId t;
             dt_expiresAt := dt_expiresAt t; dt_revokedAt := dt_revokedAt t;
             dt_lastUsedAt := Some now; dt_createdAt := dt_createdAt t |})
       (deviceTokens d)).

Definition deviceAuth (t : DeviceToken) (c : Caretaker) (f : option Family)
  : AuthResult :=
  {| authenticated := true;
     caretakerId := Some (dt_caretakerId t);
     caretakerType := ct_type c;
     caretakerRole := Some (ct_role c);
     familyId := Some (dt_familyId t);
     familySlug := Js.orNull (fam_slug <$> f);
     isSysAdmin := Some false;
     isSetupAuth := None; setupToken := None;
     authType := Some "DEVICE_TOKEN";
     isAccountAuth := None; accountId := None; accountEmail := None;
     isAccountOwner := None; verified := None; betaparticipant := None;
     isExpired := None; trialEnds := None; planExpires := None;
     planType := None; error := None |}.

(** [validateDeviceToken].  The [lastUsedAt] write is fired before the
    result is built and is taken to land at once.  Building the result
    reads [deviceToken.caretaker.type]: a row whose caretaker is missing
    makes that read throw, which the [catch] turns into a rejection. *)
Definition validateDeviceToken (w : World) (now : Z) (token : string)
  : AuthResult * World :=
  match Prisma.deviceTokenByToken (db w) token with
  | None => (rejected "Invalid device token", w)
  | Some deviceToken =>
      if Js.isSet (dt_revokedAt deviceToken)
      then (rejected "Device token has been revoked", w)
      else if match dt_expiresAt deviceToken with
              | Some expiresAt => Js.after now expiresAt
              | None => false
              end
      then (rejected "Device token has expired", w)
      else
        let w' := setDb w (touchDeviceToken (dt_id deviceToken) now (db w)) in
        match Prisma.caretakerById (db w) (dt_caretakerId deviceToken) with
        | None => (rejected "Device token validation failed", w')
        | Some caretaker =>
            (deviceAuth deviceToken caretaker
               (Prisma.familyById (db w) (dt_familyId deviceToken)),
             w')
        end
  end.

Section Blacklist.

Variable jwt : JwtLib.

(** [invalidateToken]: the token is stored under its expiry in
    milliseconds when the decoded payload has a truthy [exp]. *)
Definition invalidateToken (w : World) (token : string) : bool * World :=
  match jwt_decode jwt token with
  | Some decoded =>
      match jp_exp decoded with
      | Some exp =>
          if negb (exp =? 0)
          then (true, setBlacklist w (<[token := exp * 1000]> (tokenBlacklist w)))
          else (false, w)
      | None => (false, w)
      end
  | None => (false, w)
  end.

(** [expiryOf t]: what [invalidateToken] stores for [t], if anything. *)
Definition expiryOf (t : string) : option Z :=
  match jwt_decode jwt t with
  | Some decoded =>
      match jp_exp decoded with
      | Some exp => if negb (exp =? 0) then Some (exp * 1000) else None
      | None => None
      end
  | None => None
  end.

End Blacklist.

(** The hourly timer: every entry of the snapshot
    [Array.from(tokenBlacklist.entries())] whose expiry lies before [now]
    is deleted. *)
Definition cleanupStep (now : Z) (bl : gmap string Z) (entry : string * Z)
  : gmap string Z :=
  let '(token, expiry) := entry in
  if Js.after now expiry then delete token bl else bl.

Definition cleanupBlacklist (now : Z) (bl : gmap string Z) : gmap string Z :=
  fold_left (cleanupStep now) (map_to_list bl) bl.

Definition cleanupTick (now : Z) (w : World) : World :=
  setBlacklist w (cleanupBlacklist now (tokenBlacklist w)).

(** ** More string idioms *)

Module Str.

(** [WhiteSpace] and [LineTerminator] of ECMAScript, which [trim]
    strips: the code points of one byte (TAB, LF, VT, FF, CR, SP), of
    two (U+00A0) and of three (U+1680, U+2000 to U+200A, U+2028, U+2029,
    U+202F, U+205F, U+3000, U+FEFF), each by the bytes of its
    encoding. *)
Definition space1 (a : nat) : bool :=
  ((Nat.leb 9 a && Nat.leb a 13) || Nat.eqb a 32)%bool.

Definition space2 (a b : nat) : bool :=
  (Nat.eqb a 194 && Nat.eqb b 160)%bool.

Definition space3 (a b c : nat) : bool :=
  ((Nat.eqb a 225 && Nat.eqb b 154 && Nat.eqb c 128)
   || (Nat.eqb a 226 && Nat.eqb b 128
       && ((Nat.leb 128 c && Nat.leb c 138)
           || Nat.eqb c 168 || Nat.eqb c 169 || Nat.eqb c 175))
   || (Nat.eqb a 226 && Nat.eqb b 129 && Nat.eqb c 159)
   || (Nat.eqb a 227 && Nat.eqb b 128 && Nat.eqb c 128)
   || (Nat.eqb a 239 && Nat.eqb b 187 && Nat.eqb c 191))%bool.

(** The string without the white space at its head; [backwards] when
    the bytes are those of a string read from its end. *)
Fixpoint dropSpace (backwards : bool) (s : string) : string :=
  match s with
  | EmptyString => EmptyString
  | String a r1 =>
      if space1 (nat_of_ascii a) then dropSpace backwards r1
      else
        match r1 with
        | EmptyString => s
        | String b r2 =>
            if (if backwards
                then space2 (nat_of_ascii b) (nat_of_ascii a)
                else space2 (nat_of_ascii a) (nat_of_ascii b))
            then dropSpace backwards r2
            else
              match r2 with
              | EmptyString => s
              | String c r3 =>
                  if (if backwards
                      then space3 (nat_of_ascii c) (nat_of_ascii b)
                             (nat_of_ascii a)
                      else space3 (nat_of_ascii a) (nat_of_ascii b)
                             (nat_of_ascii c))
                  then dropSpace backwards r3
                  else s
              end
        end
  end.

Fixpoint reverseOnto (s acc : string) : string :=
  match s with
  | EmptyString => acc
  | String c rest => reverseOnto rest (String c acc)
  end.

Definition reverse (s : string) : string := reverseOnto s EmptyString.

Definition trimStart (s : string) : string := dropSpace false s.

Definition trimEnd (s : string) : string :=
  reverse (dropSpace true (reverse s)).

(** [s.trim()]. *)
Definition trim (s : string) : string := trimEnd (trimStart s).

(** [xs.join(', ')]. *)
Fixpoint join (sep : string) (xs : list string) : string :=
  match xs with
  | [] => ""
  | [x] => x
  | x :: rest => x ++ sep ++ join sep rest
  end.

(** [[a, b, ...].includes(s)]. *)
Definition includes (xs : list string) (s : string) : bool :=
  existsb (String.eqb s) xs.

(** The one-character string holding a double quote. *)
Definition dquote : string := String (ascii_of_nat 34) EmptyString.

Definition hexDigit (n : N) : ascii :=
  match String.get (N.to_nat n) "0123456789abcdef" with
  | Some c => c
  | None => "0"%char
  end.

(** [buffer.toString('hex')]. *)
Fixpoint hex (bytes : list Byte.byte) : string :=
  match bytes with
  | [] => ""
  | b :: rest =>
      let n := Byte.to_N b in
      String (hexDigit (n / 16)) (String (hexDigit (n mod 16)) (hex rest))
  end.

(** [A-Z a-z 0-9 - _ . ! ~ * ' ( )]: what [encodeURIComponent] leaves
    as it is. *)
Definition unreserved (c : ascii) : bool :=
  let n := nat_of_ascii c in
  (Nat.leb 65 n && Nat.leb n 90)%bool
  || (Nat.leb 97 n && Nat.leb n 122)%bool
  || (Nat.leb 48 n && Nat.leb n 57)%bool
  || existsb (Nat.eqb n) [45; 95; 46; 33; 126; 42; 39; 40; 41]%nat.

Definition hexDigitUpper (n : nat) : ascii :=
  match String.get n "0123456789ABCDEF" with
  | Some c => c
  | None => "0"%char
  end.

(** [encodeURIComponent(s)], a string being the sequence of its UTF-8
    bytes. *)
Fixpoint encodeURIComponent (s : string) : string :=
  match s with
  | EmptyString => EmptyString
  | String c rest =>
      if unreserved c then String c (encodeURIComponent rest)
      else
        let n := nat_of_ascii c in
        String "%"%char
          (String (hexDigitUpper (n / 16))
             (String (hexDigitUpper (n mod 16)) (encodeURIComponent rest)))
  end.

End Str.

(** ** app/api/device-tokens/route.ts *)

(** An entry of the GET listing. *)
Record MaskedToken := {
  mt_id : string;
  mt_tokenPreview : string;
  mt_name : string;
  mt_caretakerName : string;
  mt_expiresAt : option Z;
  mt_revokedAt : option Z;
  mt_lastUsedAt : option Z;
  mt_createdAt : Z;
  mt_isActive : bool;
}.

Inductive DeviceTokenData :=
| CreatedToken (id token name : string) (createdAt : Z) (expiresAt : option Z)
| TokenList (tokens : list MaskedToken).

(** What the process draws from outside: [crypto.randomBytes], the keys
    the store generates for new rows, the readings the runtime gives of
    a date and of a number, its case mapping and its serialisation of a
    URL. *)
Record Runtime := {
  randomBytes : nat -> nat -> list Byte.byte; (* number of the draw, size *)
  cuid : nat -> string;                       (* number of the draw *)
  parseDate : Json -> option Z;               (* [new Date(v)]; [None]: Invalid Date *)
  parseFloat : Json -> JsNumber;
  numToString : JsNumber -> string;
  toLowerCase : string -> string;             (* [s.toLowerCase()] *)
  (** the store's reading of [{ equals: b, mode: 'insensitive' }] *)
  insensitiveEquals : string -> string -> bool;
  (** [String(new URL(s))], which [NextResponse.redirect(s, 303)] sends
      as [Location]; the URLs at hand extend the origin of the request
      by a path, and every such string parses *)
  href : string -> string;
  (** the store's check of a new activity row: column types, enums and
      foreign keys of tables whose schema the routes do not show *)
  acceptsActivity : Db -> ActivityLog -> bool;
  acceptsSleep : Db -> SleepLog -> bool;
}.

(** [caretakerRole !== 'ADMIN' && !isSysAdmin]. *)
Definition notAdmin (authContext : AuthResult) : bool :=
  negb (bool_decide (caretakerRole authContext = Some "ADMIN"))
  && negb (bool_decide (isSysAdmin authContext = Some true)).

(** [req.json()] followed by the destructuring of the listed keys. *)
Definition jsonBody (req : Request) : option Json :=
  match req_body req with
  | JsonBody JNull => None
  | JsonBody j => Some j
  | NoBody | FormBody _ => None
  end.

Definition field (body : Json) (k : string) : option Json :=
  match property body k with
  | Some v => v
  | None => None
  end.

Definition revoke (now : Z) (t : DeviceToken) : DeviceToken :=
  {| dt_id := dt_id t; dt_token := dt_token t; dt_name := dt_name t;
     dt_familyId := dt_familyId t; dt_caretakerId := dt_caretakerId t;
     dt_expiresAt := dt_expiresAt t; dt_revokedAt := Some now;
     dt_lastUsedAt := dt_lastUsedAt t; dt_createdAt := dt_createdAt t |}.

(** [orderBy: { createdAt: 'desc' }]. *)
Definition newestFirst (a b : DeviceToken) : Prop :=
  dt_createdAt b <= dt_createdAt a.

#[local] Instance newestFirst_dec : RelDecision newestFirst.
Proof. intros a b. unfold newestFirst. apply _. Defined.

Module DeviceTokens.
Section Route.

Variable rt : Runtime.

(** [prisma.deviceToken.create]: rejected (a throw) when the family or
  the caretaker to connect does not exist, when the key or the token
  is taken, or when [expiresAt] is an Invalid Date. *)
Definition createDeviceToken (d : Db) (now : Z) (id token name_ : string)
  (familyId_ : string) (caretakerId_ : option string)
  (expiresAt : option (option Z)) : option (DeviceToken * Db) :=
match caretakerId_, expiresAt with
| Some cid, Some expires =>
    if Js.isSet (Prisma.familyById d familyId_)
       && Js.isSet (Prisma.caretakerById d cid)
       && negb (Js.isSet (Prisma.deviceTokenByToken d token))
       && negb (existsb (fun t => String.eqb (dt_id t) id) (deviceTokens d))
    then
      let row :=
        {| dt_id := id; dt_token := token; dt_name := name_;
           dt_familyId := familyId_; dt_caretakerId := cid;
           dt_expiresAt := expires; dt_revokedAt := None;
           dt_lastUsedAt := None; dt_createdAt := now |} in
      Some (row, setDeviceTokens d (deviceTokens d ++ [row]))
    else None
| _, _ => None
end.

Definition handlePost : ContextHandler DeviceTokenData :=
fun w now req authContext =>
  if notAdmin authContext
  then (failure 403 "Admin access required to manage device tokens", w)
  else if negb (Js.truthyO (familyId authContext))
  then (failure 403 "User is not associated with a family.", w)
  else
    match jsonBody req with
    | None => (failure 500 "Failed to create device token", w)
    | Some body =>
        let name_ := field body "name" in
        let expiresAt := field body "expiresAt" in
        match name_ with
        | Some (JStr name_) =>
            if negb (Js.truthy name_) || negb (Js.truthy (Str.trim name_))
            then (failure 400 "Device name is required", w)
            else
              let token := Str.hex (randomBytes rt (drawn w) 32) in
              let w := draw w in
              let id := cuid rt (drawn w) in
              let w := draw w in
              match createDeviceToken (db w) now id token (Str.trim name_)
                      (default "" (familyId authContext))
                      (caretakerId authContext)
                      (if jsonTruthy expiresAt
                       then match parseDate rt (default JNull expiresAt) with
                            | Some e => Some (Some e)
                            | None => None
                            end
                       else Some None) with
              | Some (row, d') =>
                  (ok (Some (CreatedToken (dt_id row) (dt_token row)
                               (dt_name row) (dt_createdAt row)
                               (dt_expiresAt row))),
                   setDb w d')
              | None => (failure 500 "Failed to create device token", w)
              end
        | _ => (failure 400 "Device name is required", w)
        end
    end.

Definition maskToken (d : Db) (now : Z) (t : DeviceToken) : option MaskedToken :=
match Prisma.caretakerById d (dt_caretakerId t) with
| Some caretaker =>
    Some {| mt_id := dt_id t;
            mt_tokenPreview := Js.substringTo 8 (dt_token t) ++ "...";
            mt_name := dt_name t;
            mt_caretakerName := ct_name caretaker;
            mt_expiresAt := dt_expiresAt t;
            mt_revokedAt := dt_revokedAt t;
            mt_lastUsedAt := dt_lastUsedAt t;
            mt_createdAt := dt_createdAt t;
            mt_isActive :=
              negb (Js.isSet (dt_revokedAt t))
              && match dt_expiresAt t with
                 | None => true
                 | Some expiresAt => Js.after expiresAt now
                 end |}
| None => None                     (* [t.caretaker.name] throws *)
end.

Definition handleGet : ContextHandler DeviceTokenData :=
fun w now req authContext =>
  if notAdmin authContext
  then (failure 403 "Admin access required", w)
  else if negb (Js.truthyO (familyId authContext))
  then (failure 403 "User is not associated with a family.", w)
  else
    let tokens :=
      merge_sort newestFirst
        (Prisma.findMany
           (fun t => bool_decide (Some (dt_familyId t) = familyId authContext))
           (deviceTokens (db w))) in
    match mapM (maskToken (db w) now) tokens with
    | Some maskedTokens => (ok (Some (TokenList maskedTokens)), w)
    | None => (failure 500 "Failed to list device tokens", w)
    end.

Definition handleDelete : ContextHandler DeviceTokenData :=
fun w now req authContext =>
  if notAdmin authContext
  then (failure 403 "Admin access required", w)
  else if negb (Js.truthyO (familyId authContext))
  then (failure 403 "User is not associated with a family.", w)
  else
    let id := searchParam "id" (req_query req) in
    if negb (Js.truthyO id)
    then (failure 400 "Device token ID is required", w)
    else
      let id := default "" id in
      match Prisma.findFirst
              (fun t => String.eqb (dt_id t) id
                        && bool_decide (Some (dt_familyId t) = familyId authContext))
              (deviceTokens (db w)) with
      | None => (failure 404 "Device token not found", w)
      | Some existing =>
          (ok None,
           setDb w
             (setDeviceTokens (db w)
                (Prisma.update (fun t => String.eqb (dt_id t) id)
                   (revoke now) (deviceTokens (db w)))))
      end.

Variable jwt : JwtLib.
Variable env : Env.

Definition GET : Handler DeviceTokenData := withAuthContext jwt env handleGet.
Definition POST : Handler DeviceTokenData := withAuthContext jwt env handlePost.
Definition DELETE : Handler DeviceTokenData := withAuthContext jwt env handleDelete.

End Route.
End DeviceTokens.

(** ** app/api/auth/magic-link/route.ts *)

Module MagicLink.

Record Data := {
  token : string;
  familySlug_ : option string;
  caretakerId_ : option string;
  caretakerName : string;
}.

Section Route.

Variable jwt : JwtLib.
Variable env : Env.

(** The object handed to [jwt.sign]; no [expiresIn] option is given,
    so no [exp] claim is written. *)
Definition payload (authResult : AuthResult) (caretaker : option Caretaker)
  : JwtPayload :=
  {| jp_id := Some (Js.orElse (caretakerId authResult) "device");
     jp_name := Some (match caretaker with
                      | Some c => ct_name c
                      | None => "User"
                      end);
     jp_type := caretaker ≫= ct_type;
     jp_role := Some (match caretaker with
                      | Some c => ct_role c
                      | None => "USER"
                      end);
     jp_familyId := familyId authResult;
     jp_familySlug := familySlug authResult;
     jp_isSysAdmin := false;
     jp_authType := Some "DEVICE_TOKEN";
     jp_isSetupAuth := false;
     jp_setupToken := None;
     jp_isAccountAuth := false;
     jp_accountId := None;
     jp_accountEmail := None;
     jp_exp := None |}.

Definition POST : Handler Data :=
  fun w now req =>
    match jsonBody req with
    | None => (failure 500 "Authentication failed", w)
    | Some body =>
        match field body "token" with
        | Some (JStr token_) =>
            if negb (Js.truthy token_)
            then (failure 400 "Device token is required", w)
            else
              let '(authResult, w) := validateDeviceToken w now token_ in
              if negb (authenticated authResult)
                 || negb (Js.truthyO (familyId authResult))
              then (failure 401
                      (Js.orElse (error authResult)
                         "Invalid or expired device token"), w)
              else
                let caretaker :=
                  if Js.truthyO (caretakerId authResult)
                  then Prisma.caretakerOf (db w) (caretakerId authResult)
                  else None in
                let jwtToken :=
                  jwt_sign jwt (payload authResult caretaker)
                    (getJwtSecret env) in
                (ok (Some {| token := jwtToken;
                             familySlug_ := Js.orNull (familySlug authResult);
                             caretakerId_ := Js.orNull (caretakerId authResult);
                             caretakerName :=
                               match caretaker with
                               | Some c => ct_name c
                               | None => "User"
                               end |}), w)
        | _ => (failure 400 "Device token is required", w)
        end
    end.

End Route.

End MagicLink.

(** ** Writes shared by the two logging routes *)

Section Logging.

Variable rt : Runtime.

(** [prisma.feedLog.create] and its siblings: [None] when the store
    rejects the row. *)
Definition createActivity (w : World) (row : ActivityLog) : option World :=
  if acceptsActivity rt (db w) row
  then Some (setDb w (setActivityLogs (db w) (activityLogs (db w) ++ [row])))
  else None.

Definition createSleep (w : World) (babyId familyId_ type_ : string)
    (caretakerId_ : option string) (now : Z) : option World :=
  let row :=
    {| sl_id := cuid rt (drawn w); sl_babyId := babyId;
       sl_familyId := familyId_; sl_caretakerId := caretakerId_;
       sl_type := type_; sl_startTime := now;
       sl_endTime := None; sl_duration := None |} in
  if acceptsSleep rt (db w) row
  then Some (draw (setDb w (setSleepLogs (db w) (sleepLogs (db w) ++ [row]))))
  else None.

(** [Math.round((now - startTime) / 60000)]. *)
Definition durationMinutes (now startTime : Z) : Z :=
  (now - startTime + 30000) / 60000.

(** [sleepLog.update({ where: { id }, data: { endTime, duration } })]. *)
Definition endSleep (w : World) (id : string) (now : Z) (startTime : Z) : World :=
  setDb w
    (setSleepLogs (db w)
       (Prisma.update (fun s => String.eqb (sl_id s) id)
          (fun s =>
             {| sl_id := sl_id s; sl_babyId := sl_babyId s;
                sl_familyId := sl_familyId s;
                sl_caretakerId := sl_caretakerId s; sl_type := sl_type s;
                sl_startTime := sl_startTime s; sl_endTime := Some now;
                sl_duration := Some (durationMinutes now startTime) |})
          (sleepLogs (db w)))).

End Logging.

(** ** app/api/voice/log/route.ts *)

Module VoiceLog.

(** A body field as the route uses it: falsy, a non-empty string, or a
    truthy value that is no string (on which a string method throws and
    which the store refuses in a string column). *)
Inductive Arg :=
| Absent
| Text (s : string)
| NotText.

Definition arg (v : option Json) : Arg :=
  if negb (jsonTruthy v) then Absent
  else match v with Some (JStr s) => Text s | _ => NotText end.

Section Route.

Variable rt : Runtime.

Definition resolveUnit (unit_ : option string) (defaultUnit : string) : string :=
  match unit_ with
  | None => defaultUnit
  | Some unit_ =>
      let u := Str.trim (toLowerCase rt unit_) in
      if Str.includes ["oz"; "ounce"; "ounces"] u then "OZ"
      else if Str.includes ["ml"; "milliliter"; "milliliters"] u then "ML"
      else if Str.includes ["tbsp"; "tablespoon"; "tablespoons"] u then "TBSP"
      else if Str.includes ["g"; "gram"; "grams"] u then "G"
      else defaultUnit
  end.

Definition resolveSide (side : option string) : option string :=
  match side with
  | None => None
  | Some side =>
      let s := Str.trim (toLowerCase rt side) in
      if Str.includes ["left"; "l"] s then Some "LEFT"
      else if Str.includes ["right"; "r"] s then Some "RIGHT"
      else if Str.includes ["both"; "b"] s then Some "BOTH"
      else None
  end.

Definition resolveDiaperType (type_ : option string) : string :=
  match type_ with
  | None => "WET"
  | Some type_ =>
      let t := Str.trim (toLowerCase rt type_) in
      if Str.includes ["wet"; "pee"] t then "WET"
      else if Str.includes ["dirty"; "poop"; "soiled"; "bm"] t then "DIRTY"
      else if Str.includes ["both"; "mixed"] t then "BOTH"
      else if Str.includes ["dry"; "clean"] t then "DRY"
      else "WET"
  end.

Definition resolveSleepType (sleepType : option string) : string :=
  match sleepType with
  | None => "NAP"
  | Some sleepType =>
      let t := Str.trim (toLowerCase rt sleepType) in
      if Str.includes ["nap"; "napping"] t then "NAP"
      else if Str.includes
                ["night"; "night_sleep"; "night-sleep"; "bedtime"; "sleep"] t
      then "NIGHT_SLEEP"
      else "NAP"
  end.

(** [{ firstName: { equals: name, mode: 'insensitive' } }]. *)
Definition sameName (a b : string) : bool := insensitiveEquals rt a b.

Definition activeBabies (d : Db) (familyId_ : string) : list Baby :=
  Prisma.findMany
    (fun b => String.eqb (baby_familyId b) familyId_ && negb (baby_inactive b))
    (babies d).

Definition resolveBaby (d : Db) (familyId_ : string) (babyName : option string)
  : option Baby :=
  match babyName with
  | Some babyName =>
      Prisma.findFirst (fun b => sameName (baby_firstName b) babyName)
        (activeBabies d familyId_)
  | None =>
      match activeBabies d familyId_ with
      | [only] => Some only
      | _ => None
      end
  end.

Definition activeMedicines (d : Db) (familyId_ : string) : list Medicine :=
  Prisma.findMany
    (fun m => String.eqb (med_familyId m) familyId_ && med_active m)
    (medicines d).

Definition latestFirst (a b : SleepLog) : Prop :=
  sl_startTime b <= sl_startTime a.

#[local] Instance latestFirst_dec : RelDecision latestFirst.
Proof. intros a b. unfold latestFirst. apply _. Defined.

(** [findFirst({ where: { babyId, familyId, endTime: null },
                 orderBy: { startTime: 'desc' } })]. *)
Definition activeSleep (d : Db) (babyId familyId_ : string) : option SleepLog :=
  head (merge_sort latestFirst
          (Prisma.findMany
             (fun s => String.eqb (sl_babyId s) babyId
                       && String.eqb (sl_familyId s) familyId_
                       && negb (Js.isSet (sl_endTime s)))
             (sleepLogs d))).

Definition succeed (message : string) (w : World)
  : NextResponse string * World :=
  (ok (Some message), w).

Definition crashed (w : World) : NextResponse string * World :=
  (failure 500 "An error occurred processing the request", w).

Definition intString (z : Z) : string := numToString rt (Num z 0).

(** The body of the [switch], one definition per group of labels. *)
Definition logBottle (w : World) (now : Z) (body : Json) (baby : Baby)
    (familyId_ : string) (caretakerId_ : option string)
  : NextResponse string * World :=
  let amount := field body "amount" in
  let feedAmount :=
    if jsonTruthy amount
    then Some (parseFloat rt (default JNull amount)) else None in
  let defaultUnit :=
    Js.orElse
      (Prisma.findFirst (fun s => String.eqb (set_familyId s) familyId_)
         (settings (db w)) ≫= set_defaultBottleUnit)
      "OZ" in
  match arg (field body "unit"), arg (field body "bottleType") with
  | NotText, _ | _, NotText => crashed w
  | unit_, bottleType =>
      let feedUnit :=
        resolveUnit (match unit_ with Text u => Some u | _ => None end)
          defaultUnit in
      match createActivity rt w
              (FeedLog (baby_id baby) now "BOTTLE" feedAmount
                 (Some feedUnit)
                 (match bottleType with Text b => Some b | _ => None end)
                 None caretakerId_ familyId_) with
      | None => crashed w
      | Some w' =>
          succeed
            (match feedAmount with
             | Some n =>
                 if numTruthy n
                 then "Logged bottle feeding for " ++ baby_firstName baby
                      ++ ": " ++ numToString rt n ++ " "
                      ++ toLowerCase rt feedUnit
                 else "Logged bottle feeding for " ++ baby_firstName baby
             | None => "Logged bottle feeding for " ++ baby_firstName baby
             end) w'
      end
  end.

Definition logBreast (w : World) (now : Z) (body : Json) (baby : Baby)
    (familyId_ : string) (caretakerId_ : option string)
  : NextResponse string * World :=
  match arg (field body "side") with
  | NotText => crashed w
  | side =>
      let breastSide :=
        resolveSide (match side with Text s => Some s | _ => None end) in
      match createActivity rt w
              (FeedLog (baby_id baby) now "BREAST" None None None
                 breastSide caretakerId_ familyId_) with
      | None => crashed w
      | Some w' =>
          succeed
            ("Logged nursing for " ++ baby_firstName baby
             ++ match breastSide with
                | Some s => " (" ++ toLowerCase rt s ++ ")"
                | None => ""
                end) w'
      end
  end.

Definition logDiaper (w : World) (now : Z) (body : Json) (baby : Baby)
    (familyId_ : string) (caretakerId_ : option string)
  : NextResponse string * World :=
  match arg (field body "type") with
  | NotText => crashed w
  | type_ =>
      let diaperType :=
        resolveDiaperType
          (match type_ with Text t => Some t | _ => None end) in
      match createActivity rt w
              (DiaperLog (baby_id baby) now diaperType caretakerId_
                 familyId_) with
      | None => crashed w
      | Some w' =>
          succeed
            ("Logged " ++ toLowerCase rt diaperType ++ " diaper for "
             ++ baby_firstName baby) w'
      end
  end.

Definition logSleepStart (w : World) (now : Z) (body : Json) (action : string)
    (baby : Baby) (familyId_ : string) (caretakerId_ : option string)
  : NextResponse string * World :=
  match arg (field body "sleepType") with
  | NotText => crashed w
  | sleepType =>
      let resolvedSleepType :=
        resolveSleepType
          (Some (match sleepType with Text t => t | _ => action end)) in
      match createSleep rt w (baby_id baby) familyId_ resolvedSleepType
              caretakerId_ now with
      | None => crashed w
      | Some w' =>
          succeed
            ("Started "
             ++ (if String.eqb resolvedSleepType "NAP" then "nap" else "sleep")
             ++ " for " ++ baby_firstName baby) w'
      end
  end.

Definition logSleepEnd (w : World) (now : Z) (baby : Baby)
    (familyId_ : string) : NextResponse string * World :=
  match activeSleep (db w) (baby_id baby) familyId_ with
  | None =>
      (failure 400
         ("No active sleep session found for " ++ baby_firstName baby), w)
  | Some sleep =>
      let minutes := durationMinutes now (sl_startTime sleep) in
      let hours := minutes / 60 in
      let mins := Z.rem minutes 60 in
      succeed
        (baby_firstName baby ++ " woke up after "
         ++ (if 0 <? hours
             then intString hours ++ "h " ++ intString mins ++ "m"
             else intString mins ++ " minutes"))
        (endSleep w (sl_id sleep) now (sl_startTime sleep))
  end.

Definition logMedicine (w : World) (now : Z) (body : Json) (baby : Baby)
    (familyId_ : string) (caretakerId_ : option string)
  : NextResponse string * World :=
  match arg (field body "medicine") with
  | Absent =>
      (failure 400
         "Missing required field: medicine (name of the medicine)", w)
  | NotText => crashed w
  | Text medicine =>
      match Prisma.findFirst (fun m => sameName (med_name m) medicine)
              (activeMedicines (db w) familyId_) with
      | None =>
          let names :=
            Str.join ", " (map med_name (activeMedicines (db w) familyId_)) in
          (failure 400
             ("Medicine " ++ Str.dquote ++ medicine ++ Str.dquote
              ++ " not found. Available: "
              ++ (if Js.truthy names then names else "none")), w)
      | Some med =>
          let amount := field body "amount" in
          let doseAmount :=
            if jsonTruthy amount then parseFloat rt (default JNull amount)
            else match med_typicalDoseSize med with
                 | Some n => if numTruthy n then n else Num 1 0
                 | None => Num 1 0
                 end in
          match arg (field body "unit") with
          | NotText => crashed w
          | unit_ =>
              let doseUnit :=
                match unit_ with
                | Text u => Some u
                | _ => med_unitAbbr med
                end in
              match createActivity rt w
                      (MedicineLog (baby_id baby) (med_id med) now
                         doseAmount doseUnit caretakerId_ familyId_) with
              | None => crashed w
              | Some w' =>
                  succeed
                    ("Logged " ++ med_name med ++ " for "
                     ++ baby_firstName baby ++ ": "
                     ++ numToString rt doseAmount ++ " "
                     ++ match doseUnit with
                        | Some u =>
                            if Js.truthy (toLowerCase rt u)
                            then toLowerCase rt u else ""
                        | None => ""
                        end) w'
              end
          end
      end
  end.

Definition dispatch (w : World) (now : Z) (body : Json) (action : string)
    (baby : Baby) (familyId_ : string) (caretakerId_ : option string)
  : NextResponse string * World :=
  let label := toLowerCase rt action in
  if Str.includes ["bottle"] label
  then logBottle w now body baby familyId_ caretakerId_
  else if Str.includes ["breast"; "nursing"] label
  then logBreast w now body baby familyId_ caretakerId_
  else if Str.includes ["diaper"] label
  then logDiaper w now body baby familyId_ caretakerId_
  else if Str.includes ["sleep-start"; "sleep_start"; "nap"; "sleep"] label
  then logSleepStart w now body action baby familyId_ caretakerId_
  else if Str.includes
            ["sleep-end"; "sleep_end"; "wake"; "woke"; "awake"] label
  then logSleepEnd w now baby familyId_
  else if Str.includes ["medicine"; "medication"; "med"; "meds"] label
  then logMedicine w now body baby familyId_ caretakerId_
  else
    (failure 400
       ("Unknown action: " ++ Str.dquote ++ action ++ Str.dquote
        ++ ". Supported: bottle, breast, diaper, sleep, wake, medicine"),
     w).

Definition POST : Handler string :=
  fun w now req =>
    match req_Authorization req with
    | Some authHeader =>
        if negb (Js.startsWith authHeader "Bearer ")
        then (failure 401
                "Missing Authorization: Bearer {device_token} header", w)
        else
          let token := Js.substringFrom 7 authHeader in
          let '(authResult, w) := validateDeviceToken w now token in
          if negb (authenticated authResult)
             || negb (Js.truthyO (familyId authResult))
          then (failure 401
                  (Js.orElse (error authResult)
                     "Invalid or expired device token"), w)
          else
            let familyId_ := default "" (familyId authResult) in
            let caretakerId_ := caretakerId authResult in
            match jsonBody req with
            | None => crashed w
            | Some body =>
                let action := field body "action" in
                if negb (jsonTruthy action)
                then (failure 400 "Missing required field: action", w)
                else
                  match arg (field body "babyName") with
                  | NotText => crashed w
                  | babyName =>
                      let babyName :=
                        match babyName with
                        | Text n => Some n
                        | _ => None
                        end in
                      match resolveBaby (db w) familyId_ babyName with
                      | None =>
                          let names :=
                            Str.join ", "
                              (map baby_firstName
                                 (activeBabies (db w) familyId_)) in
                          (failure 400
                             (match babyName with
                              | Some n =>
                                  "Baby " ++ Str.dquote ++ n ++ Str.dquote
                                  ++ " not found. Available: " ++ names
                              | None =>
                                  "Multiple babies found. Please specify babyName. Available: "
                                  ++ names
                              end), w)
                      | Some baby =>
                          match arg action with
                          | Text action =>
                              dispatch w now body action baby familyId_
                                caretakerId_
                          | _ => crashed w
                          end
                      end
                  end
            end
    | None =>
        (failure 401
           "Missing Authorization: Bearer {device_token} header", w)
    end.

End Route.

End VoiceLog.

(** ** app/api/kindle/log/route.ts *)

Module KindleLog.

(** [formData.get(k) as string]. *)
Definition formField (fields : list (string * string)) (k : string)
  : option string :=
  searchParam k fields.

Section Route.

Variable rt : Runtime.

(** [NextResponse.redirect(url, 303)]: the [Location] is the
    serialisation of the parsed [url]. *)
Definition redirect (url : string) : NextResponse unit :=
  RedirectResponse 303 (href rt url).

Definition redirectWithSuccess (origin token babyId activity : string)
  : NextResponse unit :=
  redirect
    (origin ++ "/kindle/" ++ token ++ "?success=" ++ activity
     ++ "&babyId=" ++ babyId).

Definition redirectWithError (origin token error : string)
  : NextResponse unit :=
  let path := if Js.truthy token then "/kindle/" ++ token else "/kindle" in
  redirect (origin ++ path ++ "?error=" ++ Str.encodeURIComponent error).

(** [parseFloat(formData.get(k) as string)]. *)
Definition floatField (fields : list (string * string)) (k : string)
  : JsNumber :=
  parseFloat rt (match formField fields k with
                 | Some s => JStr s
                 | None => JNull
                 end).

(** The [switch] on [action]; [None] is a throw, which [POST] catches. *)
Definition dispatch (w : World) (now : Z) (fields : list (string * string))
    (origin token babyId : string) (action : option string)
    (familyId_ : string) (caretakerId_ : option string)
  : option (NextResponse unit * World) :=
  let done_ (activity : string) (w' : World) :=
    Some (redirectWithSuccess origin token babyId activity, w') in
  let on (label : string) := bool_decide (action = Some label) in
  if on "feed-bottle" then
    let amount := floatField fields "amount" in
    w' ← createActivity rt w
           (FeedLog babyId now "BOTTLE"
              (if numTruthy amount then Some amount else None)
              (Some (Js.orElse (formField fields "unitAbbr") "OZ"))
              (Js.orNull (formField fields "bottleType"))
              None caretakerId_ familyId_);
    done_ "feed" w'
  else if on "feed-breast" then
    w' ← createActivity rt w
           (FeedLog babyId now "BREAST" None None None
              (Js.orNull (formField fields "side"))
              caretakerId_ familyId_);
    done_ "feed" w'
  else if on "diaper" then
    w' ← createActivity rt w
           (DiaperLog babyId now
              (Js.orElse (formField fields "type") "WET")
              caretakerId_ familyId_);
    done_ "diaper" w'
  else if on "sleep-start" then
    w' ← createSleep rt w babyId familyId_
           (Js.orElse (formField fields "sleepType") "NIGHT_SLEEP")
           caretakerId_ now;
    done_ "sleep-start" w'
  else if on "sleep-end" then
    match Js.orNull (formField fields "sleepLogId") with
    | Some sleepLogId =>
        match Prisma.findFirst
                (fun s => String.eqb (sl_id s) sleepLogId
                          && String.eqb (sl_familyId s) familyId_)
                (sleepLogs (db w)) with
        | Some sleepLog =>
            done_ "sleep-end"
              (endSleep w sleepLogId now (sl_startTime sleepLog))
        | None => done_ "sleep-end" w
        end
    | None => done_ "sleep-end" w
    end
  else if on "medicine" then
    let doseAmount := floatField fields "doseAmount" in
    match Js.orNull (formField fields "medicineId") with
    | None =>
        Some (redirectWithError origin token "Medicine selection required", w)
    | Some medicineId =>
        match Prisma.findFirst
                (fun m => String.eqb (med_id m) medicineId
                          && String.eqb (med_familyId m) familyId_
                          && med_active m)
                (medicines (db w)) with
        | None => Some (redirectWithError origin token "Medicine not found", w)
        | Some medicine =>
            w' ← createActivity rt w
                   (MedicineLog babyId medicineId now
                      (if numTruthy doseAmount then doseAmount
                       else match med_typicalDoseSize medicine with
                            | Some n => if numTruthy n then n else Num 1 0
                            | None => Num 1 0
                            end)
                      (match Js.orNull (formField fields "unitAbbr") with
                       | Some u => Some u
                       | None => med_unitAbbr medicine
                       end)
                      caretakerId_ familyId_);
            done_ "medicine" w'
        end
    end
  else Some (redirectWithError origin token "Unknown action", w).

(** [POST]: a missing [babyId] makes the [baby.findFirst] filter
    invalid, which throws like a refused write does. *)
Definition POST : Handler unit :=
  fun w now req =>
    let origin := req_origin req in
    match req_body req with
    | FormBody fields =>
        let token := Js.orElse (formField fields "token") "" in
        let action := formField fields "action" in
        if negb (Js.truthy token)
        then (redirectWithError origin token "Missing authentication token", w)
        else
          let '(authResult, w) := validateDeviceToken w now token in
          if negb (authenticated authResult)
             || negb (Js.truthyO (familyId authResult))
          then (redirectWithError origin token
                  (Js.orElse (error authResult) "Authentication failed"), w)
          else
            let familyId_ := default "" (familyId authResult) in
            match formField fields "babyId" with
            | None => (redirectWithError origin token "An error occurred", w)
            | Some babyId =>
                match Prisma.findFirst
                        (fun b => String.eqb (baby_id b) babyId
                                  && String.eqb (baby_familyId b) familyId_)
                        (babies (db w)) with
                | None => (redirectWithError origin token "Baby not found", w)
                | Some baby =>
                    match dispatch w now fields origin token babyId action
                            familyId_ (caretakerId authResult) with
                    | Some out => out
                    | None =>
                        (redirectWithError origin token "An error occurred", w)
                    end
                end
            end
    | JsonBody _ | NoBody =>
        (redirectWithError origin "" "An error occurred", w)
    end.

End Route.

End KindleLog.

(** ** app/kindle/[token]/page.tsx: the helpers of the kiosk page *)

Module KindlePage.

(** The template literal of an integer. *)
Definition showInt (n : Z) : string := NilZero.string_of_int (Z.to_int n).

(** [timeAgo(now, then)], on the two instants. *)
Definition timeAgo (now then_ : Z) : string :=
  let diffMs := now - then_ in
  let diffMins := diffMs / 60000 in
  if diffMins <? 1 then "just now"
  else if diffMins <? 60 then showInt diffMins ++ "m ago"
  else
    let diffHours := diffMins / 60 in
    let remainMins := Z.rem diffMins 60 in
    if diffHours <? 24 then
      if 0 <? remainMins
      then showInt diffHours ++ "h " ++ showInt remainMins ++ "m ago"
      else showInt diffHours ++ "h ago"
    else
      let diffDays := diffHours / 24 in
      showInt diffDays ++ "d ago".

(** [s.padStart(2, '0')]. *)
Definition padStart2 (s : string) : string :=
  match String.length s with
  | O => "00"
  | S O => "0" ++ s
  | _ => s
  end.

(** [formatTime(date)], on [date.getHours()] and [date.getMinutes()]. *)
Definition formatTime (hours minutes : Z) : string :=
  let ampm := if 12 <=? hours then "PM" else "AM" in
  let displayHours := if Z.rem hours 12 =? 0 then 12 else Z.rem hours 12 in
  showInt displayHours ++ ":" ++ padStart2 (showInt minutes) ++ " " ++ ampm.

(** [babies.find(b => b.id === selectedBabyId) || babies[0]], on the
    non-empty list the page has fetched. *)
Definition currentBaby (babies : list Baby) (selectedBabyId : option string)
  : option Baby :=
  match List.find
          (fun b => bool_decide (Some (baby_id b) = selectedBabyId)) babies with
  | Some b => Some b
  | None => head babies
  end.

End KindlePage.

(** ** What may happen in the process between two calls *)

Inductive Method := MGet | MPost | MDelete.

(** The entry points at hand, each with the instant at which it runs. *)
Inductive Call :=
| Tick (now : Z)                                  (* the [setInterval] callback *)
| Invalidate (token : string)                     (* [invalidateToken] *)
| Validate (now : Z) (token : string)             (* [validateDeviceToken] *)
| DeviceTokensCall (m : Method) (now : Z) (req : Request)
| MagicLinkCall (now : Z) (req : Request)
| VoiceLogCall (now : Z) (req : Request)
| KindleLogCall (now : Z) (req : Request).

Section Process.

Variable rt : Runtime.
Variable jwt : JwtLib.
Variable env : Env.

Definition exec (w : World) (c : Call) : World :=
  match c with
  | Tick now => cleanupTick now w
  | Invalidate token => snd (invalidateToken jwt w token)
  | Validate now token => snd (validateDeviceToken w now token)
  | DeviceTokensCall MGet now req => snd (DeviceTokens.GET jwt env w now req)
  | DeviceTokensCall MPost now req => snd (DeviceTokens.POST rt jwt env w now req)
  | DeviceTokensCall MDelete now req => snd (DeviceTokens.DELETE jwt env w now req)
  | MagicLinkCall now req => snd (MagicLink.POST jwt env w now req)
  | VoiceLogCall now req => snd (VoiceLog.POST rt w now req)
  | KindleLogCall now req => snd (KindleLog.POST rt w now req)
  end.

Definition run (calls : list Call) (w : World) : World :=
  fold_left exec calls w.

(** Every firing of the timer in [calls] happens no later than [limit]. *)
Definition ticksUpTo (limit : Z) (calls : list Call) : Prop :=
  Forall (fun c => match c with Tick now => now <= limit | _ => True end) calls.

End Process.

(** What the device-token table undergoes through the code at hand:
    [validateDeviceToken] stamps [lastUsedAt], the DELETE handler revokes,
    the POST handler appends a row. *)
Inductive TokenEvent :=
| Touched (id : string) (now : Z)
| Revoked (id : string) (now : Z)
| Created (row : DeviceToken).

Definition tokenStep (rows : list DeviceToken) (e : TokenEvent)
  : list DeviceToken :=
  match e with
  | Touched id now =>
      Prisma.update (fun t => String.eqb (dt_id t) id)
        (fun t =>
           {| dt_id := dt_id t; dt_token := dt_token t; dt_name := dt_name t;
              dt_familyId := dt_familyId t; dt_caretakerId := dt_caretakerId t;
              dt_expiresAt := dt_expiresAt t; dt_revokedAt := dt_revokedAt t;
              dt_lastUsedAt := Some now; dt_createdAt := dt_createdAt t |})
        rows
  | Revoked id now =>
      Prisma.update (fun t => String.eqb (dt_id t) id) (revoke now) rows
  | Created row =>
      if negb (existsb (fun t => String.eqb (dt_token t) (dt_token row)) rows)
         && negb (existsb (fun t => String.eqb (dt_id t) (dt_id row)) rows)
      then rows ++ [row]
      else rows
  end.

Definition tokenRun (events : list TokenEvent) (rows : list DeviceToken)
  : list DeviceToken :=
  fold_left tokenStep events rows.

(** The unique index [DeviceToken_token_key] of the migration. *)
Definition uniqueTokens (rows : list DeviceToken) : Prop :=
  NoDup (map dt_token rows).

(** The foreign key [DeviceToken_caretakerId_fkey] of the migration. *)
Definition caretakersPresent (d : Db) : Prop :=
  Forall (fun t => is_Some (Prisma.caretakerById d (dt_caretakerId t)))
    (deviceTokens d).

(** ** The vocabulary of the properties *)

(** An inserted row names a caretaker on record. *)
Definition connected (d : Db) (e : TokenEvent) : Prop :=
  match e with
  | Created row => is_Some (Prisma.caretakerById d (dt_caretakerId row))
  | Touched _ _ | Revoked _ _ => True
  end.

(** [evolves w w']: the blacklist and the caretakers are the same, and
    the device-token table of [w'] comes from that of [w] by stamps,
    revocations and inserts for caretakers on record. *)
Definition evolves (w w' : World) : Prop :=
  tokenBlacklist w' = tokenBlacklist w
  /\ caretakers (db w') = caretakers (db w)
  /\ exists events,
       deviceTokens (db w') = tokenRun events (deviceTokens (db w))
       /\ Forall (connected (db w)) events.

(** The caretaker [id] is a live system caretaker: login '00', not
    deleted. *)
Definition isSystemCaretaker (d : Db) (id : string) : Prop :=
  exists c, c ∈ caretakers d /\ ct_id c = id /\ ct_loginId c = "00"
            /\ ct_deletedAt c = None.

(** What the checks of [validateDeviceToken] refuse in a row. *)
Definition revokedOrExpired (now : Z) (row : DeviceToken) : Prop :=
  dt_revokedAt row <> None
  \/ exists expiresAt, dt_expiresAt row = Some expiresAt /\ expiresAt < now.

(** The three ways an account is past its term at [now]; the plan type
    counts as unset when it is null or the empty string, the two values
    [!account.planType] lets through. *)
Definition pastTerm (now : Z) (account : Account) : Prop :=
  (exists trialEnds_, acct_trialEnds account = Some trialEnds_ /\ trialEnds_ < now)
  \/ (acct_trialEnds account = None
      /\ exists planExpires_,
           acct_planExpires account = Some planExpires_ /\ planExpires_ < now)
  \/ (acct_trialEnds account = None /\ acct_planExpires account = None
      /\ (acct_planType account = None \/ acct_planType account = Some "")).

(** [standsRevoked token rows]: the token string is on record, and every
    row that carries it is revoked. *)
Definition standsRevoked (token : string) (rows : list DeviceToken) : Prop :=
  (exists row, row ∈ rows /\ dt_token row = token)
  /\ (forall row, row ∈ rows -> dt_token row = token -> dt_revokedAt row <> None).

(** A request is authenticated by virtue of a device token when it
    presents a token that [validateDeviceToken] accepts, is authenticated,
    and would be refused were the token not on record. *)
Definition authenticatedByDeviceToken (jwt : JwtLib) (env : Env) : Prop :=
  exists (w : World) (now : Z) (req : Request) (token : string),
    bearerToken req = Some token
    /\ authenticated (fst (validateDeviceToken w now token)) = true
    /\ authenticated (getAuthenticatedUser jwt env w now req) = true
    /\ authenticated
         (getAuthenticatedUser jwt env (setDb w (setDeviceTokens (db w) []))
            now req)
       = false.

Definition errorStatus (status : Z) : Prop :=
  status = 400 \/ status = 401 \/ status = 403 \/ status = 404 \/ status = 500.

(** [{ success: false, error: <string> }] under one of the five codes. *)
Definition jsonError {T} (r : NextResponse T) : Prop :=
  exists status msg,
    r = JsonResponse status
          {| success := false; data := None; error_ := Some msg |}
    /\ errorStatus status.

(** [{ success: true, ... }] under 200. *)
Definition jsonSuccess {T} (r : NextResponse T) : Prop :=
  exists d, r = JsonResponse 200 {| success := true; data := d; error_ := None |}.

Definition jsonAnswer {T} (r : NextResponse T) : Prop :=
  jsonSuccess r \/ jsonError r.

(** The value of the variable [token] of kindle/log when the route
    answers: the [token] field of the form, [''] when there is none or
    the body is no form. *)
Definition postedToken (req : Request) : string :=
  match req_body req with
  | FormBody fields => Js.orElse (KindleLog.formField fields "token") ""
  | JsonBody _ | NoBody => ""
  end.

(** What kindle/log answers [req] with: a redirect under 303 whose
    [Location] is the serialisation of a URL made of the origin of the
    request, of '/kindle/' and the posted token ('/kindle' when none was
    posted) and of a query string - [success] and the posted [babyId],
    or [error] and the encoded message. *)
Definition kindleAnswer (rt : Runtime) (req : Request) (r : NextResponse unit)
  : Prop :=
  (exists fields babyId activity,
      req_body req = FormBody fields
      /\ KindleLog.formField fields "babyId" = Some babyId
      /\ In activity ["feed"; "diaper"; "sleep-start"; "sleep-end"; "medicine"]
      /\ r = RedirectResponse 303
               (href rt (req_origin req ++ "/kindle/" ++ postedToken req
                         ++ "?success=" ++ activity ++ "&babyId=" ++ babyId)))
  \/ (exists msg,
        r = RedirectResponse 303
              (href rt (req_origin req
                        ++ (if Js.truthy (postedToken req)
                            then "/kindle/" ++ postedToken req
                            else "/kindle")
                        ++ "?error=" ++ Str.encodeURIComponent msg))).

(** The same request with another [caretakerId] cookie. *)
Definition withCookie (req : Request) (cookie : option string) : Request :=
  {| req_Authorization := req_Authorization req;
     req_cookieCaretakerId := cookie;
     req_referer := req_referer req;
     req_origin := req_origin req;
     req_path := req_path req;
     req_query := req_query req;
     req_body := req_body req |}.

(** The same request without [Authorization] header. *)
Definition withoutAuthorization (req : Request) : Request :=
  {| req_Authorization := None;
     req_cookieCaretakerId := req_cookieCaretakerId req;
     req_referer := req_referer req;
     req_origin := req_origin req;
     req_path := req_path req;
     req_query := req_query req;
     req_body := req_body req |}.

(** [presents jwt env w now req decoded]: the request carries a bearer
    token that is not blacklisted and that [jwt.verify] decodes to
    [decoded]. *)
Definition presents (jwt : JwtLib) (env : Env) (w : World) (now : Z)
    (req : Request) (decoded : JwtPayload) : Prop :=
  exists token,
    req_Authorization req = Some ("Bearer " ++ token)
    /\ token <> ""
    /\ tokenBlacklist w !! token = None
    /\ jwt_verify jwt (getJwtSecret env) now token = Some decoded.

(** The account of the family [fid], as [include: { account }] finds it. *)
Definition familyAccount (d : Db) (fid : string) : option Account :=
  match Prisma.familyById d fid with
  | Some family => Prisma.accountOfFamily d (fam_id family)
  | None => None
  end.

(** Who a result stands for: everything but the expiration flag. *)
Definition identity (r : AuthResult) :=
  (authenticated r, caretakerId r, caretakerType r, caretakerRole r,
   familyId r, familySlug r, isSysAdmin r, isSetupAuth r, setupToken r,
   authType r, isAccountAuth r, accountId r, accountEmail r,
   isAccountOwner r, verified r, betaparticipant r, error r).

(** [keeps w w']: the tables of accounts, families, caretakers, family
    setups, babies, medicines and settings are the same in both
    worlds. *)
Definition keeps (w w' : World) : Prop :=
  accounts (db w') = accounts (db w)
  /\ families (db w') = families (db w)
  /\ caretakers (db w') = caretakers (db w)
  /\ familySetups (db w') = familySetups (db w)
  /\ babies (db w') = babies (db w)
  /\ medicines (db w') = medicines (db w)
  /\ settings (db w') = settings (db w).

(** The primary key of [DeviceToken]. *)
Definition uniqueIds (rows : list DeviceToken) : Prop :=
  NoDup (map dt_id rows).

(** The family and the caretaker an activity row is written for. *)
Definition writtenFor (row : ActivityLog) : string * option string :=
  match row with
  | FeedLog _ _ _ _ _ _ _ caretakerId_ familyId_ => (familyId_, caretakerId_)
  | DiaperLog _ _ _ caretakerId_ familyId_ => (familyId_, caretakerId_)
  | MedicineLog _ _ _ _ _ caretakerId_ familyId_ => (familyId_, caretakerId_)
  end.

Definition babyOf (row : ActivityLog) : string :=
  match row with
  | FeedLog babyId _ _ _ _ _ _ _ _ => babyId
  | DiaperLog babyId _ _ _ _ => babyId
  | MedicineLog babyId _ _ _ _ _ _ => babyId
  end.

(** A lower-case hexadecimal digit. *)
Definition isHexDigit (c : ascii) : bool :=
  let n := nat_of_ascii c in
  (Nat.leb 48 n && Nat.leb n 57)%bool || (Nat.leb 97 n && Nat.leb n 102)%bool.

Fixpoint allChars (p : ascii -> bool) (s : string) : bool :=
  match s with
  | EmptyString => true
  | String c rest => p c && allChars p rest
  end.

(** ** A small installation, for running the definitions *)

Module Sample.

Definition setupPayload : JwtPayload :=
  {| jp_id := None; jp_name := None; jp_type := None; jp_role := None;
     jp_familyId := None; jp_familySlug := None; jp_isSysAdmin := false;
     jp_authType := None; jp_isSetupAuth := true;
     jp_setupToken := Some "invite-1";
     jp_isAccountAuth := false; jp_accountId := None;
     jp_accountEmail := None; jp_exp := Some 2000 |}.

Definition ownerPayload : JwtPayload :=
  {| jp_id := None; jp_name := None; jp_type := None; jp_role := None;
     jp_familyId := None; jp_familySlug := None; jp_isSysAdmin := false;
     jp_authType := None; jp_isSetupAuth := false; jp_setupToken := None;
     jp_isAccountAuth := true; jp_accountId := Some "acc1";
     jp_accountEmail := Some "ann@example.org"; jp_exp := Some 2000 |}.

Definition pinPayload (id role : string) : JwtPayload :=
  {| jp_id := Some id; jp_name := Some "Ann"; jp_type := Some "Parent";
     jp_role := Some role;
     jp_familyId := Some "fam1"; jp_familySlug := Some "smith";
     jp_isSysAdmin := false;
     jp_authType := None; jp_isSetupAuth := false; jp_setupToken := None;
     jp_isAccountAuth := false; jp_accountId := None;
     jp_accountEmail := None; jp_exp := Some 2000 |}.

(** A table of five tokens stands in for signature checking. *)
Definition decode (token : string) : option JwtPayload :=
  if String.eqb token "setup.jwt" then Some setupPayload
  else if String.eqb token "owner.jwt" then Some ownerPayload
  else if String.eqb token "admin.jwt" then Some (pinPayload "ct1" "ADMIN")
  else if String.eqb token "nanny.jwt" then Some (pinPayload "ct2" "USER")
  else if String.eqb token "system.jwt" then Some (pinPayload "ct0" "USER")
  else None.

Definition jwt : JwtLib :=
  {| jwt_verify := fun _ now token =>
       match decode token with
       | Some p =>
           match jp_exp p with
           | Some exp => if Js.after now (exp * 1000) then None else Some p
           | None => Some p
           end
       | None => None
       end;
     jwt_decode := decode;
     jwt_sign := fun _ _ => "kiosk.jwt" |}.

Definition saas : Env :=
  {| JWT_SECRET := None; DEPLOYMENT_MODE := Some "saas" |}.

Definition selfHosted : Env :=
  {| JWT_SECRET := None; DEPLOYMENT_MODE := None |}.

(** [toLowerCase] on text of the ASCII range, which is all that the
    samples hold. *)
Definition lowerAscii (c : ascii) : ascii :=
  let n := nat_of_ascii c in
  if (Nat.leb 65 n && Nat.leb n 90)%bool then ascii_of_nat (n + 32) else c.

Fixpoint lower (s : string) : string :=
  match s with
  | EmptyString => EmptyString
  | String c rest => String (lowerAscii c) (lower rest)
  end.

(** What stands before the first [c], and what follows from it on. *)
Fixpoint breakAt (c : ascii) (s : string) : string * string :=
  match s with
  | EmptyString => (EmptyString, EmptyString)
  | String a rest =>
      if Ascii.eqb a c then (EmptyString, s)
      else let '(head, tail) := breakAt c rest in (String a head, tail)
  end.

Fixpoint split (c : ascii) (s : string) : list string :=
  match s with
  | EmptyString => [EmptyString]
  | String a rest =>
      if Ascii.eqb a c then EmptyString :: split c rest
      else match split c rest with
           | segment :: segments => String a segment :: segments
           | [] => [String a EmptyString]
           end
  end.

(** The path without its dot segments; [kept] holds, last first, the
    segments that stand so far. *)
Fixpoint shorten (segments kept : list string) : list string :=
  match segments with
  | [] => rev kept
  | [segment] =>
      if String.eqb segment ".." then rev ("" :: tl kept)
      else if String.eqb segment "." then rev ("" :: kept)
      else rev (segment :: kept)
  | segment :: rest =>
      if String.eqb segment ".." then shorten rest (tl kept)
      else if String.eqb segment "." then shorten rest kept
      else shorten rest (segment :: kept)
  end.

(** [String(new URL(s))] for the URLs of this installation, whose
    tokens, names and messages need no escape: the dot segments of the
    path go, the query stays. *)
Definition serialise (s : string) : string :=
  let origin := "https://baby.example.org" in
  if Js.startsWith s origin then
    let '(path, query) :=
      breakAt "?" (Js.substringFrom (String.length origin) s) in
    match split "/" path with
    | EmptyString :: segments =>
        origin
        ++ fold_right (fun segment rest => "/" ++ segment ++ rest) ""
             (shorten segments [])
        ++ query
    | _ => s
    end
  else s.

Definition rt : Runtime :=
  {| randomBytes := fun _ n => repeat Byte.x2a n;
     cuid := fun n => String (ascii_of_nat (97 + n)) "-key";
     parseDate := fun _ => None;
     parseFloat := fun v => match v with JNum n => n | _ => NaN end;
     numToString := fun n =>
       match n with
       | Num m 0 => NilZero.string_of_int (Z.to_int m)
       | _ => "NaN"
       end;
     toLowerCase := lower;
     insensitiveEquals := fun a b => String.eqb (lower a) (lower b);
     href := serialise;
     acceptsActivity := fun _ _ => true;
     acceptsSleep := fun _ _ => true |}.

Definition kioskToken : string :=
  "00112233445566778899aabbccddeeff00112233445566778899aabbccddeeff".

Definition kiosk : DeviceToken :=
  {| dt_id := "dt1"; dt_token := kioskToken; dt_name := "Kitchen Kindle";
     dt_familyId := "fam1"; dt_caretakerId := "ct1";
     dt_expiresAt := None; dt_revokedAt := None; dt_lastUsedAt := None;
     dt_createdAt := 100 |}.

Definition account (planType_ : option string) : Account :=
  {| acct_id := "acc1"; acct_closed := false; acct_verified := true;
     acct_betaparticipant := false;
     acct_trialEnds := None; acct_planExpires := None;
     acct_planType := planType_;
     acct_familyId := Some "fam1"; acct_caretakerId := Some "ct1" |}.

Definition ann : Caretaker :=
  {| ct_id := "ct1"; ct_loginId := "01"; ct_name := "Ann";
     ct_type := Some "Parent"; ct_role := "ADMIN";
     ct_familyId := Some "fam1"; ct_deletedAt := None |}.

Definition nan : Caretaker :=
  {| ct_id := "ct2"; ct_loginId := "02"; ct_name := "Nan";
     ct_type := Some "Nanny"; ct_role := "USER";
     ct_familyId := Some "fam1"; ct_deletedAt := None |}.

Definition system : Caretaker :=
  {| ct_id := "ct0"; ct_loginId := "00"; ct_name := "system";
     ct_type := None; ct_role := "USER";
     ct_familyId := Some "fam1"; ct_deletedAt := None |}.

Definition store (planType_ : option string) : Db :=
  {| accounts := [account planType_];
     families := [{| fam_id := "fam1"; fam_slug := "smith" |}];
     caretakers := [ann; nan; system];
     deviceTokens := [kiosk];
     familySetups := [];
     babies := [{| baby_id := "b1"; baby_firstName := "Charlotte";
                   baby_familyId := "fam1"; baby_inactive := false |}];
     medicines := [];
     settings := [];
     sleepLogs := [];
     activityLogs := [] |}.

Definition world : World :=
  {| tokenBlacklist := ∅; db := store (Some "full"); drawn := 0 |}.

(** The same installation with no trial, no plan and no plan type. *)
Definition lapsed : World :=
  {| tokenBlacklist := ∅; db := store None; drawn := 0 |}.


Definition request (authorization : option string)
    (query : list (string * string)) (body : Body) : Request :=
  {| req_Authorization := authorization;
     req_cookieCaretakerId := None;
     req_referer := NoReferer;
     req_origin := "https://baby.example.org";
     req_path := ["api"; "device-tokens"];
     req_query := query;
     req_body := body |}.

Definition bearer (token : string) : Request :=
  request (Some ("Bearer " ++ token)) [] NoBody.

(** A browser of old, with the [caretakerId] cookie only. *)
Definition cookie : Request :=
  {| req_Authorization := None;
     req_cookieCaretakerId := Some "ct2";
     req_referer := NoReferer;
     req_origin := "https://baby.example.org";
     req_path := ["api"; "settings"];
     req_query := [];
     req_body := NoBody |}.

End Sample.

(** A JWT library that hands back what the magic link signed: one token,
    one payload. *)
Module Kiosk.

Definition verdict : AuthResult :=
  deviceAuth Sample.kiosk Sample.ann
    (Some {| fam_id := "fam1"; fam_slug := "smith" |}).

Definition payload : JwtPayload := MagicLink.payload verdict (Some Sample.ann).

Definition jwt : JwtLib :=
  {| jwt_verify := fun _ _ token =>
       if String.eqb token "kiosk.jwt" then Some payload else None;
     jwt_decode := fun token =>
       if String.eqb token "kiosk.jwt" then Some payload else None;
     jwt_sign := fun _ _ => "kiosk.jwt" |}.

(** A store in which the account of the sample family is closed. *)
Definition closedStore : Db :=
  {| accounts :=
       [{| acct_id := "acc1"; acct_closed := true; acct_verified := true;
           acct_betaparticipant := false;
           acct_trialEnds := None; acct_planExpires := None;
           acct_planType := Some "full";
           acct_familyId := Some "fam1"; acct_caretakerId := Some "ct1" |}];
     families := families (Sample.store None);
     caretakers := caretakers (Sample.store None);
     deviceTokens := deviceTokens (Sample.store None);
     familySetups := [];
     babies := babies (Sample.store None);
     medicines := [];
     settings := [];
     sleepLogs := [];
     activityLogs := [] |}.

Definition closedWorld : World :=
  {| tokenBlacklist := ∅; db := closedStore; drawn := 0 |}.

(** A store in which the trial of the sample family ends at instant 1000. *)
Definition trialStore : Db :=
  {| accounts :=
       [{| acct_id := "acc1"; acct_closed := false; acct_verified := true;
           acct_betaparticipant := false;
           acct_trialEnds := Some 1000; acct_planExpires := None;
           acct_planType := None;
           acct_familyId := Some "fam1"; acct_caretakerId := Some "ct1" |}];
     families := families (Sample.store None);
     caretakers := caretakers (Sample.store None);
     deviceTokens := deviceTokens (Sample.store None);
     familySetups := [];
     babies := babies (Sample.store None);
     medicines := [];
     settings := [];
     sleepLogs := [];
     activityLogs := [] |}.

Definition trialWorld : World :=
  {| tokenBlacklist := ∅; db := trialStore; drawn := 0 |}.

End Kiosk.

(** A JWT library that knows one system administrator's token and one
    account owner's. *)
Module Staff.

Definition rootPayload : JwtPayload :=
  {| jp_id := Some "sysadmin"; jp_name := Some "Root"; jp_type := None;
     jp_role := Some "ADMIN";
     jp_familyId := None; jp_familySlug := None; jp_isSysAdmin := true;
     jp_authType := Some "SYSADMIN";
     jp_isSetupAuth := false; jp_setupToken := None;
     jp_isAccountAuth := false; jp_accountId := None;
     jp_accountEmail := None; jp_exp := Some 2000 |}.

Definition jwt : JwtLib :=
  {| jwt_verify := fun _ _ token =>
       if String.eqb token "root.jwt" then Some rootPayload
       else Sample.decode token;
     jwt_decode := fun token =>
       if String.eqb token "root.jwt" then Some rootPayload
       else Sample.decode token;
     jwt_sign := fun _ _ => "root.jwt" |}.

(** The sample world after the administrator logged out. *)
Definition loggedOut : World :=
  snd (invalidateToken Sample.jwt Sample.world "admin.jwt").

(** The kiosk asks for a magic link. *)
Definition linkRequest : Request :=
  Sample.request None []
    (JsonBody (JObj [("token", JStr Sample.kioskToken)])).

(** The sample world after the administrator created a second token. *)
Definition twoTokens : World :=
  snd (DeviceTokens.POST Sample.rt Sample.jwt Sample.saas Sample.world 500
         (Sample.request (Some "Bearer admin.jwt") []
            (JsonBody (JObj [("name", JStr "Hall")])))).

(** A handler that answers with the context it was given. *)
Definition echo : ContextHandler AuthResult :=
  fun w _ _ ctx => (ok (Some ctx), w).

(** A handler that answers with the path of the request. *)
Definition probe : Handler (list string) :=
  fun w _ req => (ok (Some (req_path req)), w).

End Staff.

(** An installation in which the invitation 'invite-1' is bound to the
    sample family. *)
Module Invited.

Definition store : Db :=
  {| accounts := accounts (Sample.store None);
     families := families (Sample.store None);
     caretakers := caretakers (Sample.store None);
     deviceTokens := deviceTokens (Sample.store None);
     familySetups := [{| fs_token := "invite-1"; fs_familyId := Some "fam1" |}];
     babies := babies (Sample.store None);
     medicines := [];
     settings := [];
     sleepLogs := [];
     activityLogs := [] |}.

Definition world : World :=
  {| tokenBlacklist := ∅; db := store; drawn := 0 |}.

(** The setup token's request for the family [fid]. *)
Definition request (fid : string) : Request :=
  Sample.request (Some "Bearer setup.jwt") [("familyId", fid)] NoBody.

End Invited.

(** Two rows that differ in [lastUsedAt] at most. *)
Definition sameButLastUsed (t t' : DeviceToken) : Prop :=
  dt_id t' = dt_id t /\ dt_token t' = dt_token t /\ dt_name t' = dt_name t
  /\ dt_familyId t' = dt_familyId t /\ dt_caretakerId t' = dt_caretakerId t
  /\ dt_expiresAt t' = dt_expiresAt t /\ dt_revokedAt t' = dt_revokedAt t
  /\ dt_createdAt t' = dt_createdAt t.

(** Nothing of the store or of the blacklist differs. *)
Definition sameStore (w w' : World) : Prop :=
  db w' = db w /\ tokenBlacklist w' = tokenBlacklist w.

(** The sample installation with a kiosk token that expires at 1000. *)
Module Expiring.

Definition kiosk : DeviceToken :=
  {| dt_id := "dt1"; dt_token := Sample.kioskToken;
     dt_name := "Kitchen Kindle";
     dt_familyId := "fam1"; dt_caretakerId := "ct1";
     dt_expiresAt := Some 1000; dt_revokedAt := None; dt_lastUsedAt := None;
     dt_createdAt := 100 |}.

Definition world : World :=
  {| tokenBlacklist := ∅;
     db := setDeviceTokens (Sample.store None) [kiosk];
     drawn := 0 |}.

End Expiring.

(** [loggedFor P Q w w']: the activity rows of [w] are in [w'], a row
    of [w'] that is new satisfies [P], and a sleep session that is open
    in [w'] and is new satisfies [Q]. *)
Definition loggedFor (P : ActivityLog -> Prop) (Q : SleepLog -> Prop)
    (w w' : World) : Prop :=
  (forall row, In row (activityLogs (db w)) -> In row (activityLogs (db w')))
  /\ (forall row, In row (activityLogs (db w')) ->
                  In row (activityLogs (db w)) \/ P row)
  /\ (forall s, In s (sleepLogs (db w')) -> sl_endTime s = None ->
                In s (sleepLogs (db w)) \/ Q s).

(** The baby [id] is an active baby of the family [fid]. *)
Definition activeBabyOf (d : Db) (fid id : string) : Prop :=
  exists baby, In baby (babies d) /\ baby_id baby = id
               /\ baby_familyId baby = fid /\ baby_inactive baby = false.

(** The baby [id] is a baby of the family [fid]. *)
Definition babyOfFamily (d : Db) (fid id : string) : Prop :=
  exists baby, In baby (babies d) /\ baby_id baby = id
               /\ baby_familyId baby = fid.

(** The medicine [id] is an active medicine of the family [fid]. *)
Definition medicineOfFamily (d : Db) (fid id : string) : Prop :=
  exists m, In m (medicines d) /\ med_id m = id
            /\ med_familyId m = fid /\ med_active m = true.

(** The columns of an activity row as the voice route fills them. *)
Definition voiceColumns (d : Db) (fid : string) (row : ActivityLog) : Prop :=
  match row with
  | FeedLog _ _ type _ _ bottleType side _ _ =>
      (type = "BOTTLE" /\ side = None)
      \/ (type = "BREAST" /\ bottleType = None
          /\ In side [None; Some "LEFT"; Some "RIGHT"; Some "BOTH"])
  | DiaperLog _ _ type _ _ => In type ["WET"; "DIRTY"; "BOTH"; "DRY"]
  | MedicineLog _ medicineId _ _ _ _ _ => medicineOfFamily d fid medicineId
  end.

(** An activity row and a sleep session of the voice route, written on
    behalf of the device token [t]. *)
Definition voiceActivity (d : Db) (t : DeviceToken) (row : ActivityLog)
  : Prop :=
  writtenFor row = (dt_familyId t, Some (dt_caretakerId t))
  /\ activeBabyOf d (dt_familyId t) (babyOf row)
  /\ voiceColumns d (dt_familyId t) row.

Definition voiceSleep (d : Db) (t : DeviceToken) (s : SleepLog) : Prop :=
  sl_familyId s = dt_familyId t
  /\ sl_caretakerId s = Some (dt_caretakerId t)
  /\ activeBabyOf d (dt_familyId t) (sl_babyId s)
  /\ In (sl_type s) ["NAP"; "NIGHT_SLEEP"].

(** The same for the kiosk form. *)
Definition kindleActivity (d : Db) (t : DeviceToken) (row : ActivityLog)
  : Prop :=
  writtenFor row = (dt_familyId t, Some (dt_caretakerId t))
  /\ babyOfFamily d (dt_familyId t) (babyOf row)
  /\ match row with
     | MedicineLog _ medicineId _ _ _ _ _ =>
         medicineOfFamily d (dt_familyId t) medicineId
     | _ => True
     end.

Definition kindleSleep (d : Db) (t : DeviceToken) (s : SleepLog) : Prop :=
  sl_familyId s = dt_familyId t
  /\ sl_caretakerId s = Some (dt_caretakerId t)
  /\ babyOfFamily d (dt_familyId t) (sl_babyId s).

(** A sleep session of the baby [babyId] in the family [fid] that has
    not ended. *)
Definition openFor (babyId fid : string) (s : SleepLog) : Prop :=
  sl_babyId s = babyId /\ sl_familyId s = fid /\ sl_endTime s = None.

(** The sample installation with two open sleep sessions of Charlotte,
    begun at 100 and at 300. *)
Module Nursery.

Definition session (id : string) (start : Z) : SleepLog :=
  {| sl_id := id; sl_babyId := "b1"; sl_familyId := "fam1";
     sl_caretakerId := Some "ct1"; sl_type := "NAP";
     sl_startTime := start; sl_endTime := None; sl_duration := None |}.

Definition world : World :=
  {| tokenBlacklist := ∅;
     db := setSleepLogs (Sample.store None)
             [session "s1" 100; session "s2" 300];
     drawn := 0 |}.

Definition charlotte : Baby :=
  {| baby_id := "b1"; baby_firstName := "Charlotte";
     baby_familyId := "fam1"; baby_inactive := false |}.

(** An open session of a baby of another family. *)
Definition foreign : SleepLog :=
  {| sl_id := "s9"; sl_babyId := "b9"; sl_familyId := "fam2";
     sl_caretakerId := Some "ct9"; sl_type := "NIGHT_SLEEP";
     sl_startTime := 200; sl_endTime := None; sl_duration := None |}.

Definition shared : World :=
  {| tokenBlacklist := ∅;
     db := setSleepLogs (Sample.store None) [session "s1" 100; foreign];
     drawn := 0 |}.

(** The kiosk of the sample family asks to end the session [id]. *)
Definition sleepEnd (id : string) : Request :=
  Sample.request None []
    (FormBody [("token", Sample.kioskToken); ("action", "sleep-end");
               ("babyId", "b1"); ("sleepLogId", id)]).

End Nursery.

(** What a row of [DeviceToken] is for good: its key, its token, its
    family and its caretaker. *)
Definition tokenIdentity (t : DeviceToken) : string * string * string * string :=
  (dt_id t, dt_token t, dt_familyId t, dt_caretakerId t).

(** The readings of a clock: every hour of the day with every minute. *)
Definition clockReadings : list (Z * Z) :=
  list_prod (map Z.of_nat (seq 0 24)) (map Z.of_nat (seq 0 60)).

(** No two of the given readings are displayed alike. *)
Definition unambiguous (readings : list (Z * Z)) : bool :=
  let shown :=
    map (fun p => (KindlePage.formatTime (fst p) (snd p), p)) readings in
  forallb
    (fun a =>
       forallb
         (fun b =>
            implb (String.eqb (fst a) (fst b))
              ((fst (snd a) =? fst (snd b)) && (snd (snd a) =? snd (snd b))))
         shown)
    shown.

(** What the kiosk's session does, and what is done to it, once the
    magic link is followed: it revokes its own device token, is
    invalidated, and the timer fires. *)
Module Session.

Definition world : World :=
  snd (MagicLink.POST Kiosk.jwt Sample.saas Sample.world 500
         Staff.linkRequest).

Definition calls : list Call :=
  [DeviceTokensCall MDelete 600
     (Sample.request (Some "Bearer kiosk.jwt") [("id", "dt1")] NoBody);
   Invalidate "kiosk.jwt";
   Tick 9000000].

End Session.

(** The primary key of [SleepLog]. *)
Definition uniqueSleepIds (rows : list SleepLog) : Prop :=
  NoDup (map sl_id rows).

(** [sessionsKept fid w w']: every sleep session of [w] that is not of
    the family [fid] is in [w'] as it was. *)
Definition sessionsKept (fid : string) (w w' : World) : Prop :=
  forall s, In s (sleepLogs (db w)) -> sl_familyId s <> fid ->
            In s (sleepLogs (db w')).

(** * Properties *)

(** ** JavaScript idioms *)

Module JsFacts.

Import Js.

Lemma truthy_true s : truthy s = true <-> s <> "".
Proof.
  unfold truthy. rewrite negb_true_iff. apply String.eqb_neq.
Qed.

Lemma truthy_false s : truthy s = false <-> s = "".
Proof.
  unfold truthy. rewrite negb_false_iff. apply String.eqb_eq.
Qed.

Lemma after_spec a b : after a b = true <-> b < a.
Proof. unfold after. apply Z.ltb_lt. Qed.

Lemma after_false a b : after a b = false <-> a <= b.
Proof. unfold after. rewrite Z.ltb_ge. reflexivity. Qed.

Lemma substringFrom_app p t :
  substringFrom (String.length p) (p ++ t) = t.
Proof.
  unfold substringFrom. induction p as [|c p IH]; simpl.
  - rewrite Nat.sub_0_r. induction t as [|d t IHt]; simpl; [done|].
    f_equal. destruct t; simpl in *; [done|]. exact IHt.
  - exact IH.
Qed.

Lemma prefix_app p t : String.prefix p (p ++ t) = true.
Proof.
  induction p as [|c p IH]; simpl.
  - by destruct t.
  - destruct (ascii_dec c c); [exact IH | done].
Qed.

End JsFacts.

(** ** The installation at work *)

Example trim_lower_hex_join :
  (Str.trim "  a b  ", toLowerCase Sample.rt "AbZ[",
   Str.hex [Byte.x00; Byte.xff; Byte.x1a], Str.join ", " ["a"; "b"; "c"])
  = ("a b", "abz[", "00ff1a", "a, b, c").
Proof. reflexivity. Qed.

Example trim_strips_unicode_space :
  Str.trim (String (ascii_of_nat 194) (String (ascii_of_nat 160)
              ("Hall " ++ String (ascii_of_nat 226)
                            (String (ascii_of_nat 128)
                               (String (ascii_of_nat 168) "")))))
  = "Hall".
Proof. reflexivity. Qed.

Example rounding_of_minutes :
  durationMinutes 90000 0 = 2 /\ durationMinutes 89999 0 = 1.
Proof. split; reflexivity. Qed.

Example cookie_session :
  resolve Sample.jwt Sample.saas Sample.world 500 Sample.cookie
  = (LegacyCookie,
     caretakerAuth (Some "ct2") (Some "Nanny") (Some "USER") (Some "fam1")
       (Some "smith") false "CARETAKER" (Some (Sample.account (Some "full")))
       false).
Proof. reflexivity. Qed.

Example self_hosted_never_expires :
  isExpired
    (getAuthenticatedUser Sample.jwt Sample.selfHosted Sample.lapsed 500
       (Sample.bearer "owner.jwt"))
  = Some false.
Proof. reflexivity. Qed.

Example expired_session_token :
  getAuthenticatedUser Sample.jwt Sample.saas Sample.world 2000001
    (Sample.bearer "admin.jwt")
  = rejected "Invalid or expired token".
Proof. reflexivity. Qed.

Example new_device_token :
  fst (DeviceTokens.POST Sample.rt Sample.jwt Sample.saas Sample.world 500
         (Sample.request (Some "Bearer admin.jwt") []
            (JsonBody (JObj [("name", JStr "  Hall  ")]))))
  = ok (Some (CreatedToken "b-key"
                "2a2a2a2a2a2a2a2a2a2a2a2a2a2a2a2a2a2a2a2a2a2a2a2a2a2a2a2a2a2a2a2a"
                "Hall" 500 None)).
Proof. reflexivity. Qed.

Example nanny_may_not_create :
  fst (DeviceTokens.POST Sample.rt Sample.jwt Sample.saas Sample.world 500
         (Sample.request (Some "Bearer nanny.jwt") []
            (JsonBody (JObj [("name", JStr "Hall")]))))
  = failure 403 "Admin access required to manage device tokens".
Proof. reflexivity. Qed.

Example voice_bottle :
  fst (VoiceLog.POST Sample.rt Sample.world 500
         (Sample.request (Some ("Bearer " ++ Sample.kioskToken)) []
            (JsonBody (JObj [("action", JStr "bottle");
                             ("amount", JNum (Num 4 0));
                             ("unit", JStr " Ounces ")]))))
  = ok (Some "Logged bottle feeding for Charlotte: 4 oz").
Proof. reflexivity. Qed.

Example voice_nap :
  fst (VoiceLog.POST Sample.rt Sample.world 500
         (Sample.request (Some ("Bearer " ++ Sample.kioskToken)) []
            (JsonBody (JObj [("action", JStr "Nap");
                             ("babyName", JStr "charlotte")]))))
  = ok (Some "Started nap for Charlotte").
Proof. reflexivity. Qed.

Example voice_action_not_a_string :
  fst (VoiceLog.POST Sample.rt Sample.world 500
         (Sample.request (Some ("Bearer " ++ Sample.kioskToken)) []
            (JsonBody (JObj [("action", JNum (Num 4 0))]))))
  = failure 500 "An error occurred processing the request".
Proof. reflexivity. Qed.

Example kindle_diaper :
  fst (KindleLog.POST Sample.rt Sample.world 500
         (Sample.request None []
            (FormBody [("token", Sample.kioskToken); ("action", "diaper");
                       ("babyId", "b1")])))
  = RedirectResponse 303
      ("https://baby.example.org/kindle/" ++ Sample.kioskToken
       ++ "?success=diaper&babyId=b1").
Proof. reflexivity. Qed.

(** A posted token of two dots is a dot segment of the path: the
    redirect leaves '/kindle'. *)
Example kindle_dot_token :
  fst (KindleLog.POST Sample.rt Sample.world 500
         (Sample.request None []
            (FormBody [("token", ".."); ("action", "diaper")])))
  = RedirectResponse 303
      "https://baby.example.org/?error=Invalid%20device%20token".
Proof. reflexivity. Qed.

(** ** The blacklist *)

Section BlacklistFacts.

Implicit Types (bl : gmap string Z) (k : string).

Lemma cleanup_fold now (entries : list (string * Z)) bl k :
  fold_left (cleanupStep now) entries bl !! k
  = if existsb (fun e => String.eqb (fst e) k && Js.after now (snd e)) entries
    then None
    else bl !! k.
Proof.
  revert bl. induction entries as [|[t e] entries IH]; intros bl; simpl.
  - reflexivity.
  - rewrite IH. destruct (existsb _ entries) eqn:Hrest.
    + by rewrite orb_true_r.
    + rewrite orb_false_r. destruct (String.eqb_spec t k) as [->|Hne]; simpl.
      * destruct (Js.after now e); [apply lookup_delete_eq | reflexivity].
      * destruct (Js.after now e); [by apply lookup_delete_ne | reflexivity].
Qed.

(** The timer removes exactly the entries whose expiry lies before
    [now]. *)
Lemma cleanup_lookup now bl k :
  cleanupBlacklist now bl !! k
  = match bl !! k with
    | Some expiry => if Js.after now expiry then None else Some expiry
    | None => None
    end.
Proof.
  unfold cleanupBlacklist. rewrite cleanup_fold.
  destruct (existsb _ _) eqn:Hex.
  - apply existsb_exists in Hex as [[t e] [Hin Hte]]. simpl in Hte.
    apply andb_true_iff in Hte as [Ht He].
    apply String.eqb_eq in Ht as ->.
    apply list_elem_of_In, elem_of_map_to_list in Hin.
    by rewrite Hin, He.
  - destruct (bl !! k) as [e|] eqn:Hk; [|reflexivity].
    destruct (Js.after now e) eqn:He; [|reflexivity].
    assert (existsb
              (fun e0 => String.eqb (fst e0) k && Js.after now (snd e0))
              (map_to_list bl) = true) as Habs; [|congruence].
    apply existsb_exists. exists (k, e). split.
    + by apply list_elem_of_In, elem_of_map_to_list.
    + simpl. by rewrite String.eqb_refl, He.
Qed.

End BlacklistFacts.

(** ** What a call leaves alone *)

Create HintDb frame.

Lemma tokenRun_app e1 e2 rows :
  tokenRun (e1 ++ e2)%list rows = tokenRun e2 (tokenRun e1 rows).
Proof. unfold tokenRun. apply fold_left_app. Qed.

Lemma evolves_refl w : evolves w w.
Proof. do 2 (split; [reflexivity|]). exists []. by split. Qed.

Lemma connected_same d d' e :
  caretakers d' = caretakers d -> connected d' e -> connected d e.
Proof.
  intros H. destruct e; simpl; try done.
  unfold Prisma.caretakerById. by rewrite H.
Qed.

Lemma evolves_trans w1 w2 w3 : evolves w1 w2 -> evolves w2 w3 -> evolves w1 w3.
Proof.
  intros (Hb1 & Hc1 & e1 & H1 & F1) (Hb2 & Hc2 & e2 & H2 & F2).
  do 2 (split; [congruence|]).
  exists (e1 ++ e2)%list. split; [by rewrite tokenRun_app, <- H1|].
  apply Forall_app. split; [exact F1|].
  eapply Forall_impl; [exact F2|]. intros e. by apply connected_same.
Qed.

Lemma evolves_same w w' :
  tokenBlacklist w' = tokenBlacklist w ->
  caretakers (db w') = caretakers (db w) ->
  deviceTokens (db w') = deviceTokens (db w) ->
  evolves w w'.
Proof. intros Hb Hc Hd. do 2 (split; [done|]). exists []. by split. Qed.

Lemma evolves_draw w w' : evolves w w' -> evolves w (draw w').
Proof. intros H. eapply evolves_trans; [exact H | by apply evolves_same]. Qed.

Lemma evolves_activity w w' rows :
  evolves w w' -> evolves w (setDb w' (setActivityLogs (db w') rows)).
Proof. intros H. eapply evolves_trans; [exact H | by apply evolves_same]. Qed.

Lemma evolves_sleep w w' rows :
  evolves w w' -> evolves w (setDb w' (setSleepLogs (db w') rows)).
Proof. intros H. eapply evolves_trans; [exact H | by apply evolves_same]. Qed.

Lemma evolves_touch w id now :
  evolves w (setDb w (touchDeviceToken id now (db w))).
Proof.
  do 2 (split; [reflexivity|]). exists [Touched id now].
  split; [reflexivity | by repeat constructor].
Qed.

Lemma evolves_revoke w id now :
  evolves w
    (setDb w
       (setDeviceTokens (db w)
          (Prisma.update (fun t => String.eqb (dt_id t) id) (revoke now)
             (deviceTokens (db w))))).
Proof.
  do 2 (split; [reflexivity|]). exists [Revoked id now].
  split; [reflexivity | by repeat constructor].
Qed.

#[export] Hint Resolve evolves_refl evolves_draw evolves_activity evolves_sleep
  evolves_touch evolves_revoke : frame.

Lemma evolves_createActivity rt w row w' :
  createActivity rt w row = Some w' -> evolves w w'.
Proof.
  unfold createActivity. case_match; [|done]. intros [= <-]. auto with frame.
Qed.

Lemma evolves_createSleep rt w babyId fid type_ cid now w' :
  createSleep rt w babyId fid type_ cid now = Some w' -> evolves w w'.
Proof.
  unfold createSleep. case_match; [|done]. intros [= <-]. auto with frame.
Qed.

Lemma evolves_endSleep w id now start : evolves w (endSleep w id now start).
Proof. unfold endSleep. auto with frame. Qed.

Lemma evolves_validate w now token :
  evolves w (snd (validateDeviceToken w now token)).
Proof.
  unfold validateDeviceToken. repeat case_match; simpl; auto with frame.
Qed.

Lemma evolves_validate_eq w now token r w' :
  validateDeviceToken w now token = (r, w') -> evolves w w'.
Proof. intros H. pose proof (evolves_validate w now token) as E. by rewrite H in E. Qed.

Lemma existsb_eqb_false {A} (f : A -> string) (k : string) (rows : list A) :
  List.find (fun r => String.eqb (f r) k) rows = None ->
  existsb (fun r => String.eqb (f r) k) rows = false.
Proof.
  induction rows as [|r rows IH]; simpl; [done|].
  destruct (String.eqb (f r) k); [done | exact IH].
Qed.

Lemma evolves_createDeviceToken w now id token name_ fid cid expires row d' :
  DeviceTokens.createDeviceToken (db w) now id token name_ fid cid expires
  = Some (row, d') ->
  evolves w (setDb w d').
Proof.
  unfold DeviceTokens.createDeviceToken.
  destruct cid as [cid|]; [|done]. destruct expires as [expires|]; [|done].
  case_match eqn:Hchk; [|done]. intros [= <- <-].
  do 2 (split; [reflexivity|]).
  match goal with
  | |- context [(_ ++ [?r])%list] => exists [Created r]
  end.
  apply andb_true_iff in Hchk as [Hchk Hid].
  apply andb_true_iff in Hchk as [Hchk Htok].
  apply andb_true_iff in Hchk as [_ Hct].
  split.
  - unfold tokenRun, tokenStep. cbn [fold_left dt_id dt_token].
    rewrite Hid.
    unfold Prisma.deviceTokenByToken, Prisma.findFirst in Htok.
    destruct (List.find _ _) eqn:Hfind; [done|].
    by rewrite (existsb_eqb_false dt_token token _ Hfind).
  - repeat constructor. simpl.
    by destruct (Prisma.caretakerById (db w) cid).
Qed.

(** Case analysis on every [match] and [if] of a handler, each leaf
    closed from the hint base. *)
Ltac frame_cases :=
  repeat first
    [ progress (simpl; eauto 3 with frame)
    | match goal with
      | H : createActivity _ _ _ = Some _ |- _ =>
          apply evolves_createActivity in H
      | H : createSleep _ _ _ _ _ _ _ = Some _ |- _ =>
          apply evolves_createSleep in H
      | H : DeviceTokens.createDeviceToken _ _ _ _ _ _ _ _ = Some _ |- _ =>
          apply evolves_createDeviceToken in H
      end
    | case_match ].

Section Frames.

Variable rt : Runtime.
Variable jwt : JwtLib.
Variable env : Env.

Lemma evolves_withAuthContext {T} (h : ContextHandler T) w now req :
  (forall ctx, evolves w (snd (h w now req ctx))) ->
  evolves w (snd (withAuthContext jwt env h w now req)).
Proof. intros Hh. unfold withAuthContext. frame_cases. Qed.

Lemma evolves_handleGet w now req ctx :
  evolves w (snd (DeviceTokens.handleGet w now req ctx)).
Proof. unfold DeviceTokens.handleGet. frame_cases. Qed.

Lemma evolves_handleDelete w now req ctx :
  evolves w (snd (DeviceTokens.handleDelete w now req ctx)).
Proof. unfold DeviceTokens.handleDelete. frame_cases. Qed.

Lemma evolves_handlePost w now req ctx :
  evolves w (snd (DeviceTokens.handlePost rt w now req ctx)).
Proof.
  unfold DeviceTokens.handlePost. frame_cases.
Qed.

Lemma evolves_magicLink w now req :
  evolves w (snd (MagicLink.POST jwt env w now req)).
Proof.
  unfold MagicLink.POST. repeat case_match; simpl; auto with frame.
  all: match goal with
       | H : validateDeviceToken _ _ _ = _ |- _ =>
           by apply evolves_validate_eq in H
       end.
Qed.

Lemma evolves_voice_dispatch w now body action baby fid cid :
  evolves w (snd (VoiceLog.dispatch rt w now body action baby fid cid)).
Proof.
  unfold VoiceLog.dispatch, VoiceLog.logBottle, VoiceLog.logBreast,
    VoiceLog.logDiaper, VoiceLog.logSleepStart, VoiceLog.logSleepEnd,
    VoiceLog.logMedicine, VoiceLog.succeed, VoiceLog.crashed.
  repeat case_match; simpl; auto using evolves_endSleep with frame.
  all: first [ by eapply evolves_createActivity
             | by eapply evolves_createSleep ].
Qed.

Lemma evolves_voice w now req :
  evolves w (snd (VoiceLog.POST rt w now req)).
Proof.
  unfold VoiceLog.POST, VoiceLog.crashed.
  repeat case_match; simpl; auto with frame.
  all: match goal with
       | H : validateDeviceToken _ _ _ = _ |- _ =>
           apply evolves_validate_eq in H
       end; try done.
  all: eapply evolves_trans; [eassumption|apply evolves_voice_dispatch].
Qed.

Lemma evolves_kindle_dispatch w now fields origin token babyId action fid cid out :
  KindleLog.dispatch rt w now fields origin token babyId action fid cid
  = Some out ->
  evolves w (snd out).
Proof.
  unfold KindleLog.dispatch.
  repeat case_match; simpl; try done; intros Hout.
  all: try (injection Hout as <-; simpl; auto using evolves_endSleep with frame).
  all: apply bind_Some in Hout as (w' & Hw' & [= <-]); simpl.
  all: first [ by eapply evolves_createActivity
             | by eapply evolves_createSleep ].
Qed.

Lemma evolves_kindle w now req :
  evolves w (snd (KindleLog.POST rt w now req)).
Proof.
  unfold KindleLog.POST.
  repeat case_match; simpl; auto with frame.
  all: match goal with
       | H : validateDeviceToken _ _ _ = _ |- _ =>
           apply evolves_validate_eq in H
       end; try done.
  subst. eapply evolves_trans; [eassumption|].
  by eapply evolves_kindle_dispatch.
Qed.

(** The routes and [validateDeviceToken] never touch the blacklist and
    change the device-token table by stamps, revocations and inserts
    only. *)
Lemma evolves_exec w c :
  match c with
  | Tick _ | Invalidate _ => db (exec rt jwt env w c) = db w
  | _ => evolves w (exec rt jwt env w c)
  end.
Proof.
  destruct c as [now|token|now token|[] now req|now req|now req|now req]; simpl.
  - reflexivity.
  - unfold invalidateToken. by repeat case_match.
  - apply evolves_validate.
  - apply evolves_withAuthContext, evolves_handleGet.
  - apply evolves_withAuthContext, evolves_handlePost.
  - apply evolves_withAuthContext, evolves_handleDelete.
  - apply evolves_magicLink.
  - apply evolves_voice.
  - apply evolves_kindle.
Qed.

Lemma exec_tokens w c :
  exists events,
    deviceTokens (db (exec rt jwt env w c))
    = tokenRun events (deviceTokens (db w)).
Proof.
  pose proof (evolves_exec w c) as H.
  destruct c as [| | |[]| | |];
    first [ destruct H as (_ & _ & events & H & _); by exists events
          | by exists []; rewrite H ].
Qed.

Lemma run_tokens calls w :
  exists events,
    deviceTokens (db (run rt jwt env calls w))
    = tokenRun events (deviceTokens (db w)).
Proof.
  revert w. induction calls as [|c calls IH]; intros w; simpl.
  - by exists [].
  - destruct (IH (exec rt jwt env w c)) as [e2 H2].
    destruct (exec_tokens w c) as [e1 H1].
    exists (e1 ++ e2)%list. by rewrite tokenRun_app, <- H1.
Qed.

Lemma invalidateToken_spec w t :
  invalidateToken jwt w t
  = match expiryOf jwt t with
    | Some ms => (true, setBlacklist w (<[t := ms]> (tokenBlacklist w)))
    | None => (false, w)
    end.
Proof. unfold invalidateToken, expiryOf. by repeat case_match. Qed.

(** Once listed under its own expiry, a token stays listed as long as
    the timer has not fired after that expiry. *)
Lemma listed_exec w c t ms :
  expiryOf jwt t = Some ms ->
  tokenBlacklist w !! t = Some ms ->
  match c with Tick now => now <= ms | _ => True end ->
  tokenBlacklist (exec rt jwt env w c) !! t = Some ms.
Proof.
  intros Hms Hin Hc. pose proof (evolves_exec w c) as H.
  destruct c as [now|token| |[]| | |];
    try (rewrite (proj1 H); exact Hin).
  - simpl. rewrite cleanup_lookup, Hin.
    apply JsFacts.after_false in Hc. by rewrite Hc.
  - simpl. rewrite invalidateToken_spec.
    destruct (expiryOf jwt token) as [ms'|] eqn:Htok; simpl; [|exact Hin].
    destruct (decide (token = t)) as [->|Hne].
    + rewrite lookup_insert_eq. congruence.
    + by rewrite lookup_insert_ne.
Qed.

Lemma listed_run calls w t ms :
  expiryOf jwt t = Some ms ->
  tokenBlacklist w !! t = Some ms ->
  ticksUpTo ms calls ->
  tokenBlacklist (run rt jwt env calls w) !! t = Some ms.
Proof.
  intros Hms. revert w. induction calls as [|c calls IH]; intros w Hin Hticks.
  - exact Hin.
  - apply Forall_cons in Hticks as [Hc Hticks]. simpl.
    apply IH; [|exact Hticks]. by apply listed_exec.
Qed.

End Frames.

(** ** The resolver *)

Section ResolverFacts.

Variable jwt : JwtLib.
Variable env : Env.

Lemma bearerToken_bearer req t :
  req_Authorization req = Some ("Bearer " ++ t) ->
  bearerToken req = Some t.
Proof.
  intros H. unfold bearerToken. rewrite H.
  change (Js.truthy ("Bearer " ++ t)) with true.
  unfold Js.startsWith. rewrite JsFacts.prefix_app. simpl andb. cbv iota.
  f_equal. exact (JsFacts.substringFrom_app "Bearer " t).
Qed.

Lemma resolve_blacklisted w now req t :
  req_Authorization req = Some ("Bearer " ++ t) ->
  t <> "" ->
  is_Some (tokenBlacklist w !! t) ->
  resolve jwt env w now req
  = (BlacklistedToken, rejected "Token has been invalidated").
Proof.
  intros Hreq Ht Hin. unfold resolve.
  rewrite (bearerToken_bearer _ _ Hreq).
  apply JsFacts.truthy_true in Ht. rewrite Ht.
  unfold resolveBearer. by rewrite bool_decide_eq_true_2.
Qed.

(** The resolver never reads the device-token table. *)
Lemma resolve_ignores_deviceTokens w now req rows :
  resolve jwt env (setDb w (setDeviceTokens (db w) rows)) now req
  = resolve jwt env w now req.
Proof. reflexivity. Qed.

End ResolverFacts.

(** C5.  Whatever the handler, the wrapper made by [withAuth] answers 401
    with [{ success: false, error: 'Authentication required' }], without
    running the handler, when [getAuthenticatedUser] reports
    [authenticated: false] for the request; when it reports
    [authenticated: true] the wrapper's answer is the handler's own. *)
Theorem C5_withAuth_guard :
  forall (T : Type) (jwt : JwtLib) (env : Env) (handler : Handler T)
         (w : World) (now : Z) (req : Request),
    (authenticated (getAuthenticatedUser jwt env w now req) = false ->
       withAuth jwt env handler w now req
       = (JsonResponse 401
            {| success := false; data := None;
               error_ := Some "Authentication required" |}, w))
    /\ (authenticated (getAuthenticatedUser jwt env w now req) = true ->
          withAuth jwt env handler w now req = handler w now req).
Proof.
  intros T jwt env handler w now req. unfold withAuth.
  split; intros ->; reflexivity.
Qed.

(** C5, run: without credentials the sample installation answers 401 and
    with the administrator's token it hands over to the handler. *)
Lemma C5_withAuth_guard_witness :
  withAuth Sample.jwt Sample.saas
    (fun w _ _ => (ok (Some 7%nat), w))
    Sample.world 500 (Sample.request None [] NoBody)
  = (failure 401 "Authentication required", Sample.world)
  /\ withAuth Sample.jwt Sample.saas
       (fun w _ _ => (ok (Some 7%nat), w))
       Sample.world 500 (Sample.bearer "admin.jwt")
     = (ok (Some 7%nat), Sample.world).
Proof.
  split.
  - apply (C5_withAuth_guard nat Sample.jwt Sample.saas). reflexivity.
  - apply (C5_withAuth_guard nat Sample.jwt Sample.saas
             (fun w _ _ => (ok (Some 7%nat), w))).
    reflexivity.
Defined.

(** C6.  Once [invalidateToken t] has returned [true] for a token [t]
    whose decoded payload carries [exp], every later
    [getAuthenticatedUser] on [Authorization: Bearer t] answers
    [{ authenticated: false, error: 'Token has been invalidated' }],
    whatever calls ran in between, as long as the timer has not fired
    after [exp * 1000]; and a firing of the timer at [now] deletes from
    the blacklist the entries whose stored expiry [now] exceeds, keeps
    every other entry as it is, adds none, and leaves the store
    alone. *)
Theorem C6_invalidated_token_rejected :
  forall (rt : Runtime) (jwt : JwtLib) (env : Env)
         (w w1 : World) (t : string),
    t <> "" ->
    invalidateToken jwt w t = (true, w1) ->
    (exists decoded exp,
        jwt_decode jwt t = Some decoded /\ jp_exp decoded = Some exp
        /\ forall (calls : list Call) (now : Z) (req : Request),
             req_Authorization req = Some ("Bearer " ++ t) ->
             ticksUpTo (exp * 1000) calls ->
             getAuthenticatedUser jwt env (run rt jwt env calls w1) now req
             = rejected "Token has been invalidated")
    /\ (forall (now : Z) (w0 : World) (k : string),
          let swept := exec rt jwt env w0 (Tick now) in
          (forall expiry,
              tokenBlacklist w0 !! k = Some expiry -> expiry < now ->
              tokenBlacklist swept !! k = None)
          /\ (forall expiry,
                 tokenBlacklist w0 !! k = Some expiry -> now <= expiry ->
                 tokenBlacklist swept !! k = Some expiry)
          /\ (tokenBlacklist w0 !! k = None ->
              tokenBlacklist swept !! k = None)
          /\ db swept = db w0).
Proof.
  intros rt jwt env w w1 t Ht Hinv. split.
  - rewrite invalidateToken_spec in Hinv.
    destruct (expiryOf jwt t) as [ms|] eqn:Hms; [|discriminate].
    injection Hinv as <-.
    pose proof Hms as Hms'. unfold expiryOf in Hms'.
    destruct (jwt_decode jwt t) as [decoded|]; [|discriminate].
    destruct (jp_exp decoded) as [exp|] eqn:Hexp; [|discriminate].
    destruct (negb (exp =? 0)); [|discriminate]. injection Hms' as <-.
    exists decoded, exp. repeat split; [exact Hexp|].
    intros calls now req Hreq Hticks.
    unfold getAuthenticatedUser.
    rewrite (resolve_blacklisted jwt env _ now req t Hreq Ht); [reflexivity|].
    exists (exp * 1000).
    apply (listed_run rt jwt env); [exact Hms | | exact Hticks].
    simpl. apply lookup_insert_eq.
  - intros now w0 k swept. subst swept.
    change (tokenBlacklist (exec rt jwt env w0 (Tick now)))
      with (cleanupBlacklist now (tokenBlacklist w0)).
    rewrite cleanup_lookup. repeat split.
    + intros e -> He. apply JsFacts.after_spec in He. by rewrite He.
    + intros e -> He. apply JsFacts.after_false in He. by rewrite He.
    + by intros ->.
Qed.

(** C6, run: the session token of the sample installation (exp = 2000 s)
    is invalidated; the timer fires twice before the expiry and other
    calls run; the token is still refused.  A firing at the very instant
    of the expiry keeps the entry, a firing one millisecond later
    deletes it. *)
Lemma C6_invalidated_token_rejected_witness :
  getAuthenticatedUser Sample.jwt Sample.saas
    (run Sample.rt Sample.jwt Sample.saas
       [Tick 1000000; Validate 1000001 Sample.kioskToken; Tick 2000000;
        Invalidate "nanny.jwt"]
       (snd (invalidateToken Sample.jwt Sample.world "admin.jwt")))
    1999999 (Sample.bearer "admin.jwt")
  = rejected "Token has been invalidated"
  /\ tokenBlacklist
       (exec Sample.rt Sample.jwt Sample.saas
          (snd (invalidateToken Sample.jwt Sample.world "admin.jwt"))
          (Tick 2000000)) !! "admin.jwt" = Some 2000000
  /\ tokenBlacklist
       (exec Sample.rt Sample.jwt Sample.saas
          (snd (invalidateToken Sample.jwt Sample.world "admin.jwt"))
          (Tick 2000001)) !! "admin.jwt" = None.
Proof.
  destruct (C6_invalidated_token_rejected Sample.rt Sample.jwt Sample.saas
              Sample.world
              (snd (invalidateToken Sample.jwt Sample.world "admin.jwt"))
              "admin.jwt" ltac:(discriminate) ltac:(reflexivity))
    as [(decoded & exp & Hdec & Hexp & Hlater) Hsweep].
  injection Hdec as <-. injection Hexp as <-.
  split; [|split].
  - apply Hlater; [reflexivity|].
    unfold ticksUpTo.
    repeat (apply Forall_cons; split; [simpl; first [lia | exact I]|]).
    apply Forall_nil. exact I.
  - destruct (Hsweep 2000000
                (snd (invalidateToken Sample.jwt Sample.world "admin.jwt"))
                "admin.jwt") as (_ & Hkept & _).
    apply Hkept; [|lia]. simpl. apply lookup_insert_eq.
  - destruct (Hsweep 2000001
                (snd (invalidateToken Sample.jwt Sample.world "admin.jwt"))
                "admin.jwt") as (Hgone & _).
    apply (Hgone 2000000); [|lia]. simpl. apply lookup_insert_eq.
Defined.

(** ** Administrators *)

Lemma systemCaretaker_spec d id :
  Js.isSet (systemCaretaker d id) = true <-> isSystemCaretaker d id.
Proof.
  unfold systemCaretaker, Prisma.findFirst, isSystemCaretaker. split.
  - destruct (List.find _ _) as [c|] eqn:Hfind; [intros _|done].
    apply find_some in Hfind as [Hin Hc].
    apply andb_true_iff in Hc as [Hc Hdel].
    apply andb_true_iff in Hc as [Hid Hlogin].
    apply String.eqb_eq in Hid, Hlogin.
    exists c. repeat split; [by apply list_elem_of_In|done|done|].
    by destruct (ct_deletedAt c).
  - intros (c & Hin & Hid & Hlogin & Hdel).
    destruct (List.find _ _) as [c'|] eqn:Hfind; [done|].
    apply list_elem_of_In in Hin.
    pose proof (find_none _ _ Hfind c Hin) as Hc. simpl in Hc.
    rewrite Hid, Hlogin, Hdel, !String.eqb_refl in Hc. discriminate.
Qed.

(** C8.  For an authenticated request the wrapper made by [withAdminAuth]
    hands over to the handler when the caretaker role is 'ADMIN', or
    [isSysAdmin] is true, or [caretakerId] (a non-empty id) names a live
    caretaker whose [loginId] is '00'; in every other authenticated case
    it answers 403 'Admin access required' without running the
    handler. *)
Theorem C8_withAdminAuth_guard :
  forall (T : Type) (jwt : JwtLib) (env : Env) (handler : Handler T)
         (w : World) (now : Z) (req : Request),
    let authResult := getAuthenticatedUser jwt env w now req in
    let admin :=
      caretakerRole authResult = Some "ADMIN"
      \/ isSysAdmin authResult = Some true
      \/ (exists id, caretakerId authResult = Some id /\ id <> ""
                     /\ isSystemCaretaker (db w) id) in
    authenticated authResult = true ->
    (admin -> withAdminAuth jwt env handler w now req = handler w now req)
    /\ (~ admin ->
        withAdminAuth jwt env handler w now req
        = (JsonResponse 403
             {| success := false; data := None;
                error_ := Some "Admin access required" |}, w)).
Proof.
  intros T jwt env handler w now req authResult admin Hauth.
  unfold withAdminAuth. fold authResult. rewrite Hauth. simpl negb. cbv iota.
  set (sys := match caretakerId authResult with
              | Some id =>
                  if Js.truthy id then Js.isSet (systemCaretaker (db w) id)
                  else false
              | None => false
              end).
  assert (sys = true <->
          exists id, caretakerId authResult = Some id /\ id <> ""
                     /\ isSystemCaretaker (db w) id) as Hsys.
  { unfold sys. destruct (caretakerId authResult) as [id|].
    - destruct (Js.truthy id) eqn:Hid.
      + rewrite systemCaretaker_spec. apply JsFacts.truthy_true in Hid.
        split; [intros H; by exists id|].
        by intros (id' & [= <-] & _ & H).
      + apply JsFacts.truthy_false in Hid. split; [done|].
        by intros (id' & [= <-] & Hne & _).
    - split; [done|]. by intros (id' & [=] & _). }
  split.
  - intros [Hrole|[Hsa|Hsc]].
    + by rewrite bool_decide_eq_true_2.
    + rewrite (bool_decide_eq_true_2 (isSysAdmin authResult = Some true)) by done.
      by rewrite andb_false_r.
    + apply Hsys in Hsc. rewrite Hsc. by rewrite andb_false_r.
  - intros Hnot.
    rewrite bool_decide_eq_false_2 by (intros H; apply Hnot; by left).
    rewrite (bool_decide_eq_false_2 (isSysAdmin authResult = Some true))
      by (intros H; apply Hnot; right; by left).
    destruct sys eqn:Hs; [|reflexivity].
    exfalso. apply Hnot. right. right. by apply Hsys.
Qed.

(** C8, run: the system caretaker of the sample installation (login '00',
    role 'USER') reaches the handler; the nanny (role 'USER') gets 403. *)
Lemma C8_withAdminAuth_guard_witness :
  withAdminAuth Sample.jwt Sample.saas (fun w _ _ => (ok (Some 7%nat), w))
    Sample.world 500 (Sample.bearer "system.jwt")
  = (ok (Some 7%nat), Sample.world)
  /\ withAdminAuth Sample.jwt Sample.saas (fun w _ _ => (ok (Some 7%nat), w))
       Sample.world 500 (Sample.bearer "nanny.jwt")
     = (failure 403 "Admin access required", Sample.world).
Proof.
  split.
  - apply (C8_withAdminAuth_guard nat Sample.jwt Sample.saas
             (fun w _ _ => (ok (Some 7%nat), w)) Sample.world 500
             (Sample.bearer "system.jwt"));
      [reflexivity|].
    right. right. exists "ct0". split; [reflexivity|]. split; [discriminate|].
    exists Sample.system. split; [|repeat split; reflexivity].
    apply list_elem_of_In. right. right. left. reflexivity.
  - apply (C8_withAdminAuth_guard nat Sample.jwt Sample.saas
             (fun w _ _ => (ok (Some 7%nat), w)) Sample.world 500
             (Sample.bearer "nanny.jwt"));
      [reflexivity|].
    intros [H|[H|(id & Hid & _ & c & Hin & Hc & Hlogin & _)]];
      [discriminate H|discriminate H|].
    injection Hid as <-.
    apply list_elem_of_In in Hin.
    destruct Hin as [<-|[<-|[<-|[]]]]; discriminate.
Defined.

(** ** Device tokens *)

Section DeviceTokenFacts.

Implicit Types (d : Db) (row : DeviceToken) (rows : list DeviceToken).

Lemma byToken_Some d token row :
  Prisma.deviceTokenByToken d token = Some row ->
  row ∈ deviceTokens d /\ dt_token row = token.
Proof.
  unfold Prisma.deviceTokenByToken, Prisma.findFirst. intros H.
  apply find_some in H as [Hin Heq]. split.
  - by apply list_elem_of_In.
  - by apply String.eqb_eq.
Qed.

Lemma byToken_None d token :
  Prisma.deviceTokenByToken d token = None <->
  forall row, row ∈ deviceTokens d -> dt_token row <> token.
Proof.
  unfold Prisma.deviceTokenByToken, Prisma.findFirst. split.
  - intros H row Hin. apply list_elem_of_In in Hin.
    apply (find_none _ _ H) in Hin. by apply String.eqb_neq.
  - intros H. destruct (List.find _ _) as [row|] eqn:Hfind; [|done].
    apply find_some in Hfind as [Hin Heq].
    apply list_elem_of_In, H in Hin. by apply String.eqb_eq in Heq.
Qed.

Lemma find_byToken_unique rows token row :
  uniqueTokens rows -> row ∈ rows -> dt_token row = token ->
  List.find (fun t => String.eqb (dt_token t) token) rows = Some row.
Proof.
  unfold uniqueTokens. intros Huniq Hin Htok.
  induction rows as [|r rows IH]; [by apply elem_of_nil in Hin|].
  simpl in *. apply NoDup_cons in Huniq as [Hfresh Huniq].
  apply elem_of_cons in Hin as [<-|Hin].
  - by rewrite Htok, String.eqb_refl.
  - destruct (String.eqb_spec (dt_token r) token) as [Heq|_]; [|by apply IH].
    exfalso. apply Hfresh. rewrite Heq, <- Htok.
    apply list_elem_of_In, in_map. by apply list_elem_of_In.
Qed.

Lemma byToken_unique d token row :
  uniqueTokens (deviceTokens d) -> row ∈ deviceTokens d ->
  dt_token row = token ->
  Prisma.deviceTokenByToken d token = Some row.
Proof. apply find_byToken_unique. Qed.

End DeviceTokenFacts.

(** The unique index on [token] is an invariant of the entry points: no
    call at hand brings a second row with a token already on record. *)
Lemma update_tokens where_ data_ rows :
  (forall t, dt_token (data_ t) = dt_token t) ->
  map dt_token (Prisma.update where_ data_ rows) = map dt_token rows.
Proof.
  intros Hsame. unfold Prisma.update. rewrite map_map. apply map_ext.
  intros t. destruct (where_ t); [apply Hsame | reflexivity].
Qed.

Lemma uniqueTokens_step rows e :
  uniqueTokens rows -> uniqueTokens (tokenStep rows e).
Proof.
  unfold uniqueTokens. intros H. destruct e as [id now|id now|row]; simpl.
  - by rewrite update_tokens.
  - by rewrite update_tokens.
  - destruct (negb (existsb _ rows) && _) eqn:Hfresh; [|exact H].
    apply andb_true_iff in Hfresh as [Hfresh _].
    apply negb_true_iff in Hfresh.
    rewrite map_app. simpl. apply NoDup_app. split; [exact H|]. split.
    + intros tok Hin Hrow. apply list_elem_of_singleton in Hrow as ->.
      apply list_elem_of_In, in_map_iff in Hin as (t & Ht & Hin).
      assert (existsb (fun t => String.eqb (dt_token t) (dt_token row)) rows
              = true) as Habs; [|congruence].
      apply existsb_exists. exists t. split; [done|]. by apply String.eqb_eq.
    + apply NoDup_singleton.
Qed.

Lemma uniqueTokens_run rt jwt env calls w :
  uniqueTokens (deviceTokens (db w)) ->
  uniqueTokens (deviceTokens (db (run rt jwt env calls w))).
Proof.
  intros H. destruct (run_tokens rt jwt env calls w) as [events ->].
  revert H. generalize (deviceTokens (db w)).
  induction events as [|e events IH]; intros rows H; [exact H|].
  simpl. by apply IH, uniqueTokens_step.
Qed.

(** So is the foreign key to [Caretaker]: the calls at hand leave the
    caretakers alone and insert rows for caretakers on record only. *)
Lemma caretakersPresent_evolves w w' :
  evolves w w' -> caretakersPresent (db w) -> caretakersPresent (db w').
Proof.
  unfold caretakersPresent. intros (_ & Hct & events & -> & Hconn).
  assert (forall id, Prisma.caretakerById (db w') id
                     = Prisma.caretakerById (db w) id) as Hsame.
  { intros id. unfold Prisma.caretakerById. by rewrite Hct. }
  intros Hrows. eapply Forall_impl; [|intros t Ht; rewrite Hsame; exact Ht].
  clear Hsame Hct. revert Hrows. generalize (deviceTokens (db w)).
  induction Hconn as [|e events He _ IH]; intros rows Hrows; [exact Hrows|].
  simpl. apply IH. destruct e as [id now|id now|row]; simpl.
  - unfold Prisma.update. apply Forall_fmap.
    eapply Forall_impl; [exact Hrows|]. intros t Ht. simpl.
    by destruct (String.eqb (dt_id t) id).
  - unfold Prisma.update. apply Forall_fmap.
    eapply Forall_impl; [exact Hrows|]. intros t Ht. simpl.
    by destruct (String.eqb (dt_id t) id).
  - destruct (_ && _); [|exact Hrows].
    apply Forall_app. split; [exact Hrows|]. by repeat constructor.
Qed.

Lemma caretakersPresent_run rt jwt env calls w :
  caretakersPresent (db w) ->
  caretakersPresent (db (run rt jwt env calls w)).
Proof.
  revert w. induction calls as [|c calls IH]; intros w H; [exact H|].
  simpl. apply IH. pose proof (evolves_exec rt jwt env w c) as Hc.
  destruct c as [| | |[]| | |];
    first [ by rewrite Hc | by eapply caretakersPresent_evolves ].
Qed.

(** C2.  In a store that satisfies the migration's unique index on
    [token] and its foreign key to [Caretaker], [validateDeviceToken]
    answers [authenticated: false] exactly when no row has the token
    string, or the row that has it is revoked, or that row has an expiry
    that [now] is past; otherwise it answers [authenticated: true] with
    the row's [familyId] and [caretakerId], the caretaker's [type] and
    [role], the family's slug (as [slug || null]), [isSysAdmin: false]
    and [authType: 'DEVICE_TOKEN']. *)
Theorem C2_validateDeviceToken_verdict :
  forall (w : World) (now : Z) (token : string),
    uniqueTokens (deviceTokens (db w)) ->
    caretakersPresent (db w) ->
    let r := fst (validateDeviceToken w now token) in
    (authenticated r = false <->
       (forall row, row ∈ deviceTokens (db w) -> dt_token row <> token)
       \/ (exists row, row ∈ deviceTokens (db w) /\ dt_token row = token
                       /\ revokedOrExpired now row))
    /\ (authenticated r = true ->
        exists row caretaker,
          row ∈ deviceTokens (db w) /\ dt_token row = token
          /\ Prisma.caretakerById (db w) (dt_caretakerId row) = Some caretaker
          /\ familyId r = Some (dt_familyId row)
          /\ caretakerId r = Some (dt_caretakerId row)
          /\ caretakerType r = ct_type caretaker
          /\ caretakerRole r = Some (ct_role caretaker)
          /\ familySlug r
             = Js.orNull (fam_slug <$> Prisma.familyById (db w) (dt_familyId row))
          /\ isSysAdmin r = Some false
          /\ authType r = Some "DEVICE_TOKEN").
Proof.
  intros w now token Huniq Hfk r. subst r. unfold validateDeviceToken.
  destruct (Prisma.deviceTokenByToken (db w) token) as [row|] eqn:Hfind.
  - pose proof (byToken_Some _ _ _ Hfind) as [Hin Htok].
    assert (forall row', row' ∈ deviceTokens (db w) -> dt_token row' = token ->
                         row' = row) as Hthe.
    { intros row' Hin' Htok'.
      pose proof (byToken_unique _ _ _ Huniq Hin' Htok') as H. congruence. }
    destruct (dt_revokedAt row) as [revokedAt|] eqn:Hrev; simpl.
    { split; [|done]. split; [intros _|done]. right. exists row.
      repeat split; try done. left. by rewrite Hrev. }
    destruct (dt_expiresAt row) as [expiresAt|] eqn:Hexp.
    + destruct (Js.after now expiresAt) eqn:Hafter; simpl.
      { split; [|done]. split; [intros _|done]. right. exists row.
        repeat split; try done. right. exists expiresAt.
        split; [done|]. by apply JsFacts.after_spec. }
      unfold caretakersPresent in Hfk. rewrite Forall_forall in Hfk.
      destruct (Hfk row Hin) as [caretaker Hct]. rewrite Hct. simpl. split.
      * split; [done|]. intros [Hnone|(row' & Hin' & Htok' & Hbad)].
        -- by apply Hnone in Hin.
        -- rewrite (Hthe row' Hin' Htok') in Hbad.
           destruct Hbad as [Hbad|(e & He & Hlt)]; [by rewrite Hrev in Hbad|].
           rewrite Hexp in He. injection He as <-.
           apply JsFacts.after_false in Hafter. lia.
      * intros _. exists row, caretaker. by repeat split.
    + unfold caretakersPresent in Hfk. rewrite Forall_forall in Hfk.
      destruct (Hfk row Hin) as [caretaker Hct]. rewrite Hct. simpl. split.
      * split; [done|]. intros [Hnone|(row' & Hin' & Htok' & Hbad)].
        -- by apply Hnone in Hin.
        -- rewrite (Hthe row' Hin' Htok') in Hbad.
           destruct Hbad as [Hbad|(e & He & _)]; [by rewrite Hrev in Hbad|].
           by rewrite Hexp in He.
      * intros _. exists row, caretaker. by repeat split.
  - simpl. split; [|done]. split; [intros _|done]. left.
    by apply byToken_None.
Qed.

(** C2, run: the kiosk token of the sample installation is accepted. *)
Lemma C2_validateDeviceToken_verdict_witness :
  authenticated (fst (validateDeviceToken Sample.world 500 Sample.kioskToken))
  = true
  /\ exists row caretaker,
       row ∈ deviceTokens (db Sample.world)
       /\ dt_token row = Sample.kioskToken
       /\ Prisma.caretakerById (db Sample.world) (dt_caretakerId row)
          = Some caretaker
       /\ familyId (fst (validateDeviceToken Sample.world 500 Sample.kioskToken))
          = Some (dt_familyId row)
       /\ caretakerId (fst (validateDeviceToken Sample.world 500 Sample.kioskToken))
          = Some (dt_caretakerId row)
       /\ caretakerType (fst (validateDeviceToken Sample.world 500 Sample.kioskToken))
          = ct_type caretaker
       /\ caretakerRole (fst (validateDeviceToken Sample.world 500 Sample.kioskToken))
          = Some (ct_role caretaker)
       /\ familySlug (fst (validateDeviceToken Sample.world 500 Sample.kioskToken))
          = Js.orNull (fam_slug <$> Prisma.familyById (db Sample.world)
                                      (dt_familyId row))
       /\ isSysAdmin (fst (validateDeviceToken Sample.world 500 Sample.kioskToken))
          = Some false
       /\ authType (fst (validateDeviceToken Sample.world 500 Sample.kioskToken))
          = Some "DEVICE_TOKEN".
Proof.
  split; [reflexivity|].
  apply (C2_validateDeviceToken_verdict Sample.world 500 Sample.kioskToken).
  - unfold uniqueTokens. simpl. apply NoDup_cons. split; [|apply NoDup_nil; exact I].
    intros H. inversion H.
  - unfold caretakersPresent. simpl. apply Forall_cons. split; [|apply Forall_nil; exact I].
    by eexists.
  - reflexivity.
Defined.

(** ** Expiration *)

Lemma expirationChain_spec now account :
  expirationChain now account = true <-> pastTerm now account.
Proof.
  unfold expirationChain, pastTerm.
  destruct (acct_trialEnds account) as [t|].
  - rewrite JsFacts.after_spec. split.
    + intros H. left. by exists t.
    + intros [(t' & [= <-] & H)|[[[=] _]|[[=] _]]]. exact H.
  - destruct (acct_planExpires account) as [p|].
    + rewrite JsFacts.after_spec. split.
      * intros H. right. left. split; [done|]. by exists p.
      * intros [(t' & [=] & _)|[[_ (p' & [= <-] & H)]|(_ & [=] & _)]]. exact H.
    + destruct (acct_planType account) as [s|]; simpl.
      * rewrite negb_true_iff, JsFacts.truthy_false. split.
        -- intros ->. right. right. repeat split. by right.
        -- intros [(t' & [=] & _)|[[_ (p' & [=] & _)]|(_ & _ & [[=]|[= ->]])]].
           reflexivity.
      * split; [|done]. intros _. right. right. repeat split. by left.
  Qed.

(** C1.  When [getAuthenticatedUser] authenticates a request through its
    account-token branch, the result carries an [isExpired] flag, and the
    flag is true exactly when DEPLOYMENT_MODE is 'saas', the account has a
    family, the account is no beta participant, and: [trialEnds] is set
    and [now] is after it; or [trialEnds] is unset, [planExpires] is set
    and [now] is after it; or [trialEnds], [planExpires] and [planType]
    are all unset.  In every other configuration, whatever [planExpires]
    and [planType] hold, the flag is false. *)
Theorem C1_account_isExpired :
  forall (jwt : JwtLib) (env : Env) (w : World) (now : Z) (req : Request)
         (r : AuthResult),
    resolve jwt env w now req = (AccountToken, r) ->
    authenticated r = true ->
    exists token decoded id account expired,
      bearerToken req = Some token
      /\ jwt_verify jwt (getJwtSecret env) now token = Some decoded
      /\ jp_accountId decoded = Some id
      /\ Prisma.accountById (db w) id = Some account
      /\ isExpired r = Some expired
      /\ (expired = true <->
            DEPLOYMENT_MODE env = Some "saas"
            /\ is_Some (Prisma.familyOf (db w) (acct_familyId account))
            /\ acct_betaparticipant account = false
            /\ pastTerm now account)
      /\ (expired = false <->
            DEPLOYMENT_MODE env <> Some "saas"
            \/ Prisma.familyOf (db w) (acct_familyId account) = None
            \/ acct_betaparticipant account = true
            \/ ~ pastTerm now account)
      /\ ((exists trialEnds_,
              acct_trialEnds account = Some trialEnds_ /\ now <= trialEnds_) ->
          expired = false).
Proof.
  intros jwt env w now req r Hres Hauth. unfold resolve in Hres.
  assert (forall b, resolveLegacy env (db w) now req <> (AccountToken, b)) as Hleg.
  { intros b. unfold resolveLegacy. repeat case_match; congruence. }
  destruct (bearerToken req) as [token|]; [|by apply Hleg in Hres].
  destruct (Js.truthy token); [|by apply Hleg in Hres].
  unfold resolveBearer in Hres.
  destruct (bool_decide _); [congruence|].
  destruct (jwt_verify jwt (getJwtSecret env) now token) as [decoded|] eqn:Hver;
    [|congruence].
  destruct (_ && _); [congruence|].
  destruct (jp_isAccountAuth decoded); [|congruence].
  injection Hres as <-. unfold resolveAccountToken in Hauth |- *.
  destruct (jp_accountId decoded) as [id|] eqn:Hid; [|discriminate].
  destruct (Prisma.accountById (db w) id) as [account|] eqn:Hacc; [|discriminate].
  destruct (acct_closed account); [discriminate|].
  set (family := Prisma.familyOf (db w) (acct_familyId account)).
  set (expired := if isSaasMode env && Js.isSet family
                     && negb (acct_betaparticipant account)
                  then expirationChain now account else false).
  exists token, decoded, id, account, expired.
  assert (expired = true <->
            DEPLOYMENT_MODE env = Some "saas" /\ is_Some family
            /\ acct_betaparticipant account = false /\ pastTerm now account)
    as Hexp.
  { unfold expired, isSaasMode.
    destruct (DEPLOYMENT_MODE env) as [mode|]; simpl.
    - destruct (String.eqb_spec mode "saas") as [->|Hne]; simpl.
      + destruct family as [f|]; simpl.
        * destruct (acct_betaparticipant account); simpl.
          -- split; [done|]. by intros (_ & _ & [=] & _).
          -- rewrite expirationChain_spec. split; [|tauto].
             intros H. by repeat split.
        * split; [done|]. by intros (_ & [? [=]] & _).
      + split; [done|]. intros ([= ->] & _). done.
    - split; [done|]. by intros ([=] & _). }
  do 4 (split; [done|]).
  split; [by destruct (Prisma.caretakerOf _ _), family|].
  clear Hauth. clearbody expired.
  split; [exact Hexp|].
  split; [split|].
  - intros Hfalse.
    destruct (decide (DEPLOYMENT_MODE env = Some "saas")) as [Hs|Hs]; [|by left].
    destruct family as [f|] eqn:Hf; [|right; by left].
    destruct (acct_betaparticipant account) eqn:Hb; [right; right; by left|].
    right. right. right. intros Hp.
    assert (expired = true) as Ht by (apply Hexp; by repeat split).
    congruence.
  - intros Hor. destruct expired; [|done]. exfalso.
    destruct (proj1 Hexp eq_refl) as (Hs & [f Hf] & Hb & Hp).
    destruct Hor as [H|[H|[H|H]]]; [done| |congruence|done].
    unfold family in Hf. congruence.
  - intros (t & Ht & Hle). destruct expired; [|done]. exfalso.
    destruct (proj1 Hexp eq_refl) as (_ & _ & _ & Hp).
    destruct Hp as [(t' & Ht' & Hlt)|[[Hn _]|[Hn _]]]; [|congruence|congruence].
    rewrite Ht in Ht'. injection Ht' as <-. lia.
Qed.

(** C1, run: in SaaS mode the owner of the sample family, with neither
    trial nor plan nor plan type on record, is reported expired. *)
Lemma C1_account_isExpired_witness :
  isExpired
    (getAuthenticatedUser Sample.jwt Sample.saas Sample.lapsed 500
       (Sample.bearer "owner.jwt"))
  = Some true.
Proof.
  destruct (C1_account_isExpired Sample.jwt Sample.saas Sample.lapsed 500
              (Sample.bearer "owner.jwt")
              (getAuthenticatedUser Sample.jwt Sample.saas Sample.lapsed 500
                 (Sample.bearer "owner.jwt"))
              ltac:(reflexivity) ltac:(reflexivity))
    as (token & decoded & id & account & expired
        & Hb & Hv & Hid & Hacc & Hflag & Hiff & _ & _).
  injection Hb as <-. injection Hv as <-. injection Hid as <-.
  injection Hacc as <-.
  rewrite Hflag. f_equal. apply Hiff.
  split; [reflexivity|]. split; [by eexists|]. split; [reflexivity|].
  right. right. repeat split. by left.
Defined.

(** ** Revocation *)

Lemma elem_of_update {A} (where_ : A -> bool) (data_ : A -> A) (rows : list A) x :
  x ∈ Prisma.update where_ data_ rows <->
  exists y, y ∈ rows /\ x = (if where_ y then data_ y else y).
Proof.
  unfold Prisma.update. rewrite list_elem_of_In, in_map_iff.
  split; intros (y & H1 & H2); exists y.
  - split; [by apply list_elem_of_In | done].
  - split; [done | by apply list_elem_of_In].
Qed.

Lemma standsRevoked_update token rows where_ data_ :
  (forall t, dt_token (data_ t) = dt_token t) ->
  (forall t, dt_revokedAt t <> None -> dt_revokedAt (data_ t) <> None) ->
  standsRevoked token rows ->
  standsRevoked token (Prisma.update where_ data_ rows).
Proof.
  intros Htok Hrev [(row & Hin & Hrow) Hall]. split.
  - exists (if where_ row then data_ row else row). split.
    + apply elem_of_update. by exists row.
    + destruct (where_ row); [by rewrite Htok | done].
  - intros r Hr Hrt. apply elem_of_update in Hr as (y & Hy & ->).
    destruct (where_ y).
    + rewrite Htok in Hrt. by apply Hrev, Hall.
    + by apply Hall.
Qed.

Lemma standsRevoked_step token rows e :
  standsRevoked token rows -> standsRevoked token (tokenStep rows e).
Proof.
  intros H. destruct e as [id now|id now|row]; simpl.
  - by apply standsRevoked_update.
  - by apply standsRevoked_update.
  - destruct (negb (existsb _ rows) && _) eqn:Hfresh; [|exact H].
    apply andb_true_iff in Hfresh as [Hfresh _].
    apply negb_true_iff in Hfresh.
    destruct H as [(r & Hin & Hr) Hall]. split.
    + exists r. split; [|done]. apply elem_of_app. by left.
    + intros r' Hr' Htok. apply elem_of_app in Hr' as [Hr'|Hr'].
      * by apply Hall.
      * apply list_elem_of_singleton in Hr' as ->. exfalso.
        assert (existsb (fun t => String.eqb (dt_token t) (dt_token row)) rows
                = true) as Habs; [|congruence].
        apply existsb_exists. exists r. split; [by apply list_elem_of_In|].
        apply String.eqb_eq. congruence.
Qed.

Lemma standsRevoked_run token events rows :
  standsRevoked token rows -> standsRevoked token (tokenRun events rows).
Proof.
  revert rows. induction events as [|e events IH]; intros rows H; [exact H|].
  simpl. by apply IH, standsRevoked_step.
Qed.

Lemma validate_standsRevoked w now token :
  standsRevoked token (deviceTokens (db w)) ->
  fst (validateDeviceToken w now token)
  = rejected "Device token has been revoked".
Proof.
  intros [(row & Hin & Hrow) Hall]. unfold validateDeviceToken.
  destruct (Prisma.deviceTokenByToken (db w) token) as [found|] eqn:Hfind.
  - apply byToken_Some in Hfind as [Hf Htok].
    specialize (Hall found Hf Htok).
    by destruct (dt_revokedAt found).
  - exfalso. by apply (proj1 (byToken_None _ _) Hfind row).
Qed.

Section RouteFacts.

Variable rt : Runtime.
Variable jwt : JwtLib.
Variable env : Env.

(** A success of a wrapped route is a success of its handler, for the
    context the wrapper computed. *)
Lemma withAuthContext_ok {T} (h : ContextHandler T) w now req d :
  fst (withAuthContext jwt env h w now req) = ok d ->
  exists ctx, withAuthContext jwt env h w now req = h w now req ctx.
Proof.
  unfold withAuthContext. intros H.
  repeat case_match; simpl in H; try discriminate H; by eexists.
Qed.

Lemma handleDelete_ok w now req ctx :
  fst (DeviceTokens.handleDelete w now req ctx) = ok None ->
  exists id existing,
    searchParam "id" (req_query req) = Some id /\ id <> ""
    /\ existing ∈ deviceTokens (db w) /\ dt_id existing = id
    /\ Some (dt_familyId existing) = familyId ctx
    /\ snd (DeviceTokens.handleDelete w now req ctx)
       = setDb w
           (setDeviceTokens (db w)
              (Prisma.update (fun t => String.eqb (dt_id t) id) (revoke now)
                 (deviceTokens (db w)))).
Proof.
  unfold DeviceTokens.handleDelete. intros H.
  destruct (notAdmin ctx); [discriminate H|].
  destruct (negb (Js.truthyO (familyId ctx))); [discriminate H|].
  destruct (searchParam "id" (req_query req)) as [id|]; [|discriminate H].
  simpl in *. destruct (Js.truthy id) eqn:Hid; [|discriminate H]. simpl in *.
  destruct (Prisma.findFirst _ _) as [existing|] eqn:Hfind; [|discriminate H].
  apply find_some in Hfind as [Hin Hc].
  apply andb_true_iff in Hc as [Hc1 Hc2].
  exists id, existing. repeat split; try done.
  - by apply JsFacts.truthy_true.
  - by apply list_elem_of_In.
  - by apply String.eqb_eq.
  - by apply bool_decide_eq_true_1 in Hc2.
Qed.

End RouteFacts.

(** C4.  In a store that satisfies the migration's unique index on
    [token]: once a DELETE to /api/device-tokens carrying the id of a
    device token has succeeded, [validateDeviceToken] on that token's
    string answers [authenticated: false] with 'Device token has been
    revoked', at every later instant and whatever calls ran in between.
    And for an administrator with a family, a DELETE whose id is the id
    of no device token of that family is answered 404 and leaves the
    world as it was. *)
Theorem C4_revoked_token_stays_revoked :
  forall (rt : Runtime) (jwt : JwtLib) (env : Env),
    (forall (w : World) (now : Z) (req : Request) (row : DeviceToken),
        uniqueTokens (deviceTokens (db w)) ->
        fst (DeviceTokens.DELETE jwt env w now req) = ok None ->
        row ∈ deviceTokens (db w) ->
        searchParam "id" (req_query req) = Some (dt_id row) ->
        forall (calls : list Call) (later : Z),
          fst (validateDeviceToken
                 (run rt jwt env calls (snd (DeviceTokens.DELETE jwt env w now req)))
                 later (dt_token row))
          = rejected "Device token has been revoked")
    /\ (forall (w : World) (now : Z) (req : Request) (authContext : AuthResult)
               (id : string),
          notAdmin authContext = false ->
          Js.truthyO (familyId authContext) = true ->
          searchParam "id" (req_query req) = Some id ->
          id <> "" ->
          (forall t, t ∈ deviceTokens (db w) -> dt_id t = id ->
                     Some (dt_familyId t) <> familyId authContext) ->
          DeviceTokens.handleDelete w now req authContext
          = (JsonResponse 404
               {| success := false; data := None;
                  error_ := Some "Device token not found" |}, w)).
Proof.
  intros rt jwt env. split.
  - intros w now req row Huniq Hok Hin Hid calls later.
    apply validate_standsRevoked.
    destruct (run_tokens rt jwt env calls
                (snd (DeviceTokens.DELETE jwt env w now req))) as [events ->].
    apply standsRevoked_run.
    unfold DeviceTokens.DELETE in *.
    destruct (withAuthContext_ok jwt env _ w now req None Hok) as [ctx Hctx].
    rewrite Hctx in Hok |- *.
    destruct (handleDelete_ok w now req ctx Hok)
      as (id & existing & Hq & _ & _ & _ & _ & ->).
    rewrite Hid in Hq. injection Hq as <-. simpl. split.
    + exists (revoke now row). split; [|reflexivity].
      apply elem_of_update. exists row. split; [done|].
      by rewrite String.eqb_refl.
    + intros r Hr Htok. apply elem_of_update in Hr as (y & Hy & ->).
      assert (dt_token y = dt_token row) as Hsame.
      { by destruct (String.eqb (dt_id y) (dt_id row)). }
      assert (y = row) as ->.
      { pose proof (find_byToken_unique _ _ _ Huniq Hy Hsame) as H1.
        pose proof (find_byToken_unique _ _ _ Huniq Hin eq_refl) as H2.
        congruence. }
      by rewrite String.eqb_refl.
  - intros w now req ctx id Hadmin Hfam Hq Hid Hnone.
    unfold DeviceTokens.handleDelete. rewrite Hadmin, Hfam, Hq. simpl.
    apply JsFacts.truthy_true in Hid. rewrite Hid. simpl.
    destruct (Prisma.findFirst _ _) as [existing|] eqn:Hfind; [|reflexivity].
    exfalso. apply find_some in Hfind as [Hin Hc].
    apply andb_true_iff in Hc as [Hc1 Hc2].
    apply String.eqb_eq in Hc1. apply bool_decide_eq_true_1 in Hc2.
    apply list_elem_of_In in Hin. by apply (Hnone existing Hin Hc1).
Qed.

(** C4, run: the administrator of the sample family revokes the kiosk
    token; it is refused afterwards, also once other calls have run.  A
    DELETE for an id the family does not have is answered 404. *)
Lemma C4_revoked_token_stays_revoked_witness :
  fst (validateDeviceToken
         (run Sample.rt Sample.jwt Sample.saas
            [Validate 700 Sample.kioskToken; Tick 800;
             DeviceTokensCall MGet 900 (Sample.bearer "admin.jwt")]
            (snd (DeviceTokens.DELETE Sample.jwt Sample.saas Sample.world 600
                    (Sample.request (Some "Bearer admin.jwt") [("id", "dt1")]
                       NoBody))))
         1000 Sample.kioskToken)
  = rejected "Device token has been revoked"
  /\ DeviceTokens.handleDelete Sample.world 600
       (Sample.request (Some "Bearer admin.jwt") [("id", "dt9")] NoBody)
       (getAuthenticatedUser Sample.jwt Sample.saas Sample.world 600
          (Sample.bearer "admin.jwt"))
     = (failure 404 "Device token not found", Sample.world).
Proof.
  destruct (C4_revoked_token_stays_revoked Sample.rt Sample.jwt Sample.saas)
    as [Hrevoked Hmissing].
  split.
  - apply (Hrevoked Sample.world 600
             (Sample.request (Some "Bearer admin.jwt") [("id", "dt1")] NoBody)
             Sample.kiosk).
    + unfold uniqueTokens. simpl. apply NoDup_cons.
      split; [intros H; inversion H | apply NoDup_nil; exact I].
    + reflexivity.
    + simpl. apply list_elem_of_In. by left.
    + reflexivity.
  - apply (Hmissing Sample.world 600 _ _ "dt9");
      [reflexivity | reflexivity | reflexivity | discriminate |].
    intros t Hin Hid. apply list_elem_of_In in Hin.
    destruct Hin as [<-|[]]. discriminate Hid.
Defined.

(** ** The listing *)






(** ** The magic link *)

Lemma validate_accepted w now token :
  authenticated (fst (validateDeviceToken w now token)) = true ->
  exists row caretaker,
    Prisma.deviceTokenByToken (db w) token = Some row
    /\ Prisma.caretakerById (db w) (dt_caretakerId row) = Some caretaker
    /\ validateDeviceToken w now token
       = (deviceAuth row caretaker
            (Prisma.familyById (db w) (dt_familyId row)),
          setDb w (touchDeviceToken (dt_id row) now (db w))).
Proof.
  unfold validateDeviceToken.
  destruct (Prisma.deviceTokenByToken (db w) token) as [row|]; [|discriminate].
  destruct (Js.isSet (dt_revokedAt row)); [discriminate|].
  destruct (match dt_expiresAt row with Some _ => _ | None => _ end);
    [discriminate|].
  destruct (Prisma.caretakerById (db w) (dt_caretakerId row)) as [c|] eqn:Hc;
    [|discriminate].
  intros _. by exists row, c.
Qed.

(** C10.  For a request whose body carries a device token (a non-empty
    string): when [validateDeviceToken] accepts the token, and its row
    names a family, POST /api/auth/magic-link answers [success: true]
    with a token signed from a payload that has no [exp] claim, has
    [authType] 'DEVICE_TOKEN' and [isAccountAuth] false, and carries the
    row's [familyId] and the family's slug; when [validateDeviceToken]
    rejects the token the answer is 401 with [success: false]. *)
Theorem C10_magic_link_issues_unexpiring_jwt :
  forall (jwt : JwtLib) (env : Env) (w : World) (now : Z) (req : Request)
         (body : Json) (token : string),
    jsonBody req = Some body ->
    field body "token" = Some (JStr token) ->
    token <> "" ->
    let verdict := fst (validateDeviceToken w now token) in
    (authenticated verdict = true ->
     exists row,
       Prisma.deviceTokenByToken (db w) token = Some row
       /\ (dt_familyId row <> "" ->
           exists answer payload,
             fst (MagicLink.POST jwt env w now req) = ok (Some answer)
             /\ MagicLink.token answer = jwt_sign jwt payload (getJwtSecret env)
             /\ jp_exp payload = None
             /\ jp_authType payload = Some "DEVICE_TOKEN"
             /\ jp_isAccountAuth payload = false
             /\ jp_familyId payload = Some (dt_familyId row)
             /\ jp_familySlug payload
                = Js.orNull (fam_slug <$> Prisma.familyById (db w)
                                            (dt_familyId row))))
    /\ (authenticated verdict = false ->
        exists msg,
          fst (MagicLink.POST jwt env w now req)
          = JsonResponse 401
              {| success := false; data := None; error_ := Some msg |}).
Proof.
  intros jwt env w now req body token Hbody Htoken Hne verdict. subst verdict.
  apply JsFacts.truthy_true in Hne.
  unfold MagicLink.POST. rewrite Hbody, Htoken, Hne. simpl negb. cbv iota.
  split.
  - intros Hacc.
    destruct (validate_accepted w now token Hacc) as (row & c & Hrow & Hc & ->).
    exists row. split; [done|]. intros Hfam. apply JsFacts.truthy_true in Hfam.
    simpl. rewrite Hfam. simpl.
    eexists _, _. split; [reflexivity|]. by repeat split.
  - intros Hrej. destruct (validateDeviceToken w now token) as [a w1].
    simpl in Hrej. rewrite Hrej. simpl. by eexists.
Qed.

(** C10, run: the kiosk token of the sample installation buys a token
    without expiry; an unknown token is answered 401. *)
Lemma C10_magic_link_issues_unexpiring_jwt_witness :
  (exists answer payload,
      fst (MagicLink.POST Sample.jwt Sample.saas Sample.world 500
             (Sample.request None []
                (JsonBody (JObj [("token", JStr Sample.kioskToken)]))))
      = ok (Some answer)
      /\ MagicLink.token answer
         = jwt_sign Sample.jwt payload (getJwtSecret Sample.saas)
      /\ jp_exp payload = None
      /\ jp_authType payload = Some "DEVICE_TOKEN"
      /\ jp_isAccountAuth payload = false
      /\ jp_familyId payload = Some "fam1"
      /\ jp_familySlug payload = Some "smith")
  /\ exists msg,
       fst (MagicLink.POST Sample.jwt Sample.saas Sample.world 500
              (Sample.request None []
                 (JsonBody (JObj [("token", JStr "feedface")]))))
       = failure 401 msg.
Proof.
  split.
  - destruct (C10_magic_link_issues_unexpiring_jwt Sample.jwt Sample.saas
                Sample.world 500
                (Sample.request None []
                   (JsonBody (JObj [("token", JStr Sample.kioskToken)])))
                (JObj [("token", JStr Sample.kioskToken)]) Sample.kioskToken
                ltac:(reflexivity) ltac:(reflexivity) ltac:(discriminate))
      as [Hacc _].
    destruct (Hacc ltac:(reflexivity)) as (row & Hrow & Hissue).
    injection Hrow as <-. exact (Hissue ltac:(discriminate)).
  - apply (C10_magic_link_issues_unexpiring_jwt Sample.jwt Sample.saas
             Sample.world 500
             (Sample.request None []
                (JsonBody (JObj [("token", JStr "feedface")])))
             (JObj [("token", JStr "feedface")]) "feedface");
      [reflexivity | reflexivity | discriminate | reflexivity].
Defined.

(** ** Branches of the resolver *)

(** C7, refuted as stated.  The resolver has no device-token branch: a
    live device token presented as bearer token is put to [jwt.verify]
    like any other string and refused when that fails, and no request is
    ever authenticated by virtue of a device token, whatever the JWT
    library and the environment. *)
Lemma C7_no_device_token_branch :
  authenticated (fst (validateDeviceToken Sample.world 500 Sample.kioskToken))
  = true
  /\ resolve Sample.jwt Sample.saas Sample.world 500
       (Sample.bearer Sample.kioskToken)
     = (UnverifiableToken, rejected "Invalid or expired token")
  /\ forall jwt env, ~ authenticatedByDeviceToken jwt env.
Proof.
  split; [reflexivity|]. split; [reflexivity|].
  intros jwt env (w & now & req & token & _ & _ & Hyes & Hno).
  unfold getAuthenticatedUser in Hno.
  rewrite resolve_ignores_deviceTokens in Hno.
  unfold getAuthenticatedUser in Hyes. congruence.
Qed.

(** C7, as amended.  [getAuthenticatedUser] has a branch of its own for
    three kinds of bearer token - setup, account, regular caretaker - and
    one for the legacy cookie, and each of them authenticates some
    request.  Device tokens have none: the outcome never depends on the
    device-token table, and a bearer string that [jwt.verify] refuses is
    answered 'Invalid or expired token' even when it is a live device
    token.  A device token reaches the resolver only as the token that
    the magic link signs, which the regular branch takes, reporting
    [authType] 'DEVICE_TOKEN'. *)
Theorem C7_branches_of_the_resolver :
  (exists jwt env w now req r,
      resolve jwt env w now req = (SetupToken, r) /\ authenticated r = true)
  /\ (exists jwt env w now req r,
        resolve jwt env w now req = (AccountToken, r) /\ authenticated r = true)
  /\ (exists jwt env w now req r,
        resolve jwt env w now req = (RegularToken, r) /\ authenticated r = true)
  /\ (exists jwt env w now req r,
        resolve jwt env w now req = (LegacyCookie, r) /\ authenticated r = true)
  /\ (forall jwt env w now req rows,
        getAuthenticatedUser jwt env (setDb w (setDeviceTokens (db w) rows))
          now req
        = getAuthenticatedUser jwt env w now req)
  /\ (forall jwt env w now req token,
        req_Authorization req = Some ("Bearer " ++ token) ->
        token <> "" ->
        tokenBlacklist w !! token = None ->
        jwt_verify jwt (getJwtSecret env) now token = None ->
        getAuthenticatedUser jwt env w now req
        = rejected "Invalid or expired token")
  /\ (forall jwt env w now req token verdict caretaker,
        req_Authorization req = Some ("Bearer " ++ token) ->
        token <> "" ->
        tokenBlacklist w !! token = None ->
        jwt_verify jwt (getJwtSecret env) now token
        = Some (MagicLink.payload verdict caretaker) ->
        exists r,
          resolve jwt env w now req = (RegularToken, r)
          /\ (authenticated r = true -> authType r = Some "DEVICE_TOKEN")).
Proof.
  split.
  { exists Sample.jwt, Sample.saas, Sample.world, 500,
      (Sample.bearer "setup.jwt"). by eexists. }
  split.
  { exists Sample.jwt, Sample.saas, Sample.world, 500,
      (Sample.bearer "owner.jwt"). by eexists. }
  split.
  { exists Sample.jwt, Sample.saas, Sample.world, 500,
      (Sample.bearer "admin.jwt"). by eexists. }
  split.
  { exists Sample.jwt, Sample.saas, Sample.world, 500, Sample.cookie.
    by eexists. }
  split; [reflexivity|]. split.
  - intros jwt env w now req token Hreq Hne Hbl Hver.
    unfold getAuthenticatedUser, resolve.
    rewrite (bearerToken_bearer _ _ Hreq).
    apply JsFacts.truthy_true in Hne. rewrite Hne.
    unfold resolveBearer. rewrite Hbl, Hver.
    by rewrite bool_decide_eq_false_2 by by intros [? [=]].
  - intros jwt env w now req token verdict caretaker Hreq Hne Hbl Hver.
    unfold resolve. rewrite (bearerToken_bearer _ _ Hreq).
    apply JsFacts.truthy_true in Hne. rewrite Hne.
    unfold resolveBearer. rewrite Hbl, Hver.
    rewrite bool_decide_eq_false_2 by by intros [? [=]].
    simpl. eexists. split; [reflexivity|].
    unfold resolveRegularToken. simpl. by repeat case_match.
Qed.

(** C7 as amended, run: the kiosk token as bearer token is refused in the
    sample installation. *)
Lemma C7_branches_of_the_resolver_witness :
  getAuthenticatedUser Sample.jwt Sample.saas Sample.world 500
    (Sample.bearer Sample.kioskToken)
  = rejected "Invalid or expired token".
Proof.
  destruct C7_branches_of_the_resolver as (_ & _ & _ & _ & _ & Hjwt & _).
  apply (Hjwt Sample.jwt Sample.saas Sample.world 500
           (Sample.bearer Sample.kioskToken) Sample.kioskToken);
    [reflexivity | discriminate | reflexivity | reflexivity].
Defined.

(** ** Shapes of the answers *)

(** C3, refuted as stated.  POST /api/kindle/log without a token does not
    answer with a JSON error: it redirects, under status 303, to the
    kiosk page with the message in the query string. *)
Lemma C3_kindle_error_is_a_redirect :
  fst (KindleLog.POST Sample.rt Sample.world 500
         (Sample.request None [] (FormBody [("action", "diaper")])))
  = RedirectResponse 303
      "https://baby.example.org/kindle?error=Missing%20authentication%20token"
  /\ ~ jsonAnswer
         (fst (KindleLog.POST Sample.rt Sample.world 500
                 (Sample.request None [] (FormBody [("action", "diaper")])))).
Proof.
  split; [reflexivity|].
  intros [[d H]|(status & msg & H & _)]; discriminate H.
Qed.

Lemma jsonAnswer_failure {T} status msg :
  errorStatus status -> jsonAnswer (@failure T status msg).
Proof. intros H. right. by exists status, msg. Qed.

Lemma jsonAnswer_ok {T} (d : option T) : jsonAnswer (ok d).
Proof. left. by exists d. Qed.

Ltac answer :=
  first [ apply jsonAnswer_ok
        | apply jsonAnswer_failure; unfold errorStatus; tauto ].

Section AnswerFacts.

Variable rt : Runtime.
Variable jwt : JwtLib.
Variable env : Env.

Lemma jsonAnswer_withAuthContext {T} (h : ContextHandler T) w now req :
  (forall ctx, jsonAnswer (fst (h w now req ctx))) ->
  jsonAnswer (fst (withAuthContext jwt env h w now req)).
Proof.
  intros Hh. unfold withAuthContext.
  repeat case_match; simpl; first [apply Hh | answer].
Qed.

Lemma jsonAnswer_handleGet w now req ctx :
  jsonAnswer (fst (DeviceTokens.handleGet w now req ctx)).
Proof. unfold DeviceTokens.handleGet. repeat case_match; simpl; answer. Qed.

Lemma jsonAnswer_handlePost w now req ctx :
  jsonAnswer (fst (DeviceTokens.handlePost rt w now req ctx)).
Proof. unfold DeviceTokens.handlePost. repeat case_match; simpl; answer. Qed.

Lemma jsonAnswer_handleDelete w now req ctx :
  jsonAnswer (fst (DeviceTokens.handleDelete w now req ctx)).
Proof. unfold DeviceTokens.handleDelete. repeat case_match; simpl; answer. Qed.

Lemma jsonAnswer_magicLink w now req :
  jsonAnswer (fst (MagicLink.POST jwt env w now req)).
Proof. unfold MagicLink.POST. repeat case_match; simpl; answer. Qed.

Lemma jsonAnswer_voice_dispatch w now body action baby fid cid :
  jsonAnswer (fst (VoiceLog.dispatch rt w now body action baby fid cid)).
Proof.
  unfold VoiceLog.dispatch, VoiceLog.logBottle, VoiceLog.logBreast,
    VoiceLog.logDiaper, VoiceLog.logSleepStart, VoiceLog.logSleepEnd,
    VoiceLog.logMedicine, VoiceLog.succeed, VoiceLog.crashed.
  repeat case_match; simpl; answer.
Qed.

Lemma jsonAnswer_voice w now req :
  jsonAnswer (fst (VoiceLog.POST rt w now req)).
Proof.
  unfold VoiceLog.POST, VoiceLog.crashed.
  repeat case_match; simpl;
    first [apply jsonAnswer_voice_dispatch | answer].
Qed.

Lemma redirect_kindle_dispatch w now fields origin token babyId action fid cid out :
  KindleLog.dispatch rt w now fields origin token babyId action fid cid
  = Some out ->
  (exists activity,
      In activity ["feed"; "diaper"; "sleep-start"; "sleep-end"; "medicine"]
      /\ fst out
         = RedirectResponse 303
             (href rt (origin ++ "/kindle/" ++ token ++ "?success=" ++ activity
                       ++ "&babyId=" ++ babyId)))
  \/ (exists msg, fst out = KindleLog.redirectWithError rt origin token msg).
Proof.
  unfold KindleLog.dispatch.
  repeat case_match; simpl; try done; intros Hout.
  all: try (injection Hout as <-; simpl;
            first [ left; eexists; split; [|reflexivity]; simpl; tauto
                  | right; by eexists ]).
  all: apply bind_Some in Hout as (w' & Hw' & [= <-]); simpl;
    left; eexists; split; [|reflexivity]; simpl; tauto.
Qed.

Lemma redirect_kindle w now req :
  kindleAnswer rt req (fst (KindleLog.POST rt w now req)).
Proof.
  unfold KindleLog.POST, kindleAnswer, postedToken.
  destruct (req_body req) as [| |fields]; try (right; by eexists).
  set (token := Js.orElse (KindleLog.formField fields "token") "").
  destruct (negb (Js.truthy token)); [right; by eexists|].
  destruct (validateDeviceToken w now token) as [r w1].
  destruct (_ || _); [right; by eexists|].
  destruct (KindleLog.formField fields "babyId") as [babyId|] eqn:Hbaby;
    [|right; by eexists].
  destruct (Prisma.findFirst _ _) as [baby|]; [|right; by eexists].
  destruct (KindleLog.dispatch _ _ _ _ _ _ _ _ _ _) as [out|] eqn:Hout;
    [|right; by eexists].
  apply redirect_kindle_dispatch in Hout
    as [(activity & Hin & ->) | (msg & ->)].
  - left. by exists fields, babyId, activity.
  - right. by exists msg.
Qed.

End AnswerFacts.

(** C3, as amended.  Every answer of the device-tokens routes (GET, POST,
    DELETE), of voice/log and of auth/magic-link is either
    [{ success: true, ... }] under 200 or [{ success: false, error }]
    under 400, 401, 403, 404 or 500.  kindle/log answers every request
    with a redirect under 303, a failure included: its [Location] is the
    serialisation of a URL made of the origin of the request, of
    '/kindle/' and the posted token ('/kindle' when none was posted)
    and of a query string that holds the message in its [error]
    parameter, or [success] and the posted [babyId]. *)
Theorem C3_shapes_of_the_answers :
  forall (rt : Runtime) (jwt : JwtLib) (env : Env)
         (w : World) (now : Z) (req : Request),
    jsonAnswer (fst (DeviceTokens.GET jwt env w now req))
    /\ jsonAnswer (fst (DeviceTokens.POST rt jwt env w now req))
    /\ jsonAnswer (fst (DeviceTokens.DELETE jwt env w now req))
    /\ jsonAnswer (fst (VoiceLog.POST rt w now req))
    /\ jsonAnswer (fst (MagicLink.POST jwt env w now req))
    /\ kindleAnswer rt req (fst (KindleLog.POST rt w now req)).
Proof.
  intros rt jwt env w now req. repeat split.
  - apply jsonAnswer_withAuthContext, jsonAnswer_handleGet.
  - apply jsonAnswer_withAuthContext, jsonAnswer_handlePost.
  - apply jsonAnswer_withAuthContext, jsonAnswer_handleDelete.
  - apply jsonAnswer_voice.
  - apply jsonAnswer_magicLink.
  - apply redirect_kindle.
Qed.

(** * Further properties *)

(** ** The resolver: which credential counts *)

Section CredentialFacts.

Variable jwt : JwtLib.
Variable env : Env.

Lemma presents_resolve w now req decoded :
  presents jwt env w now req decoded ->
  resolve jwt env w now req
  = if jp_isSetupAuth decoded && Js.truthyO (jp_setupToken decoded)
    then (SetupToken, setupAuth decoded)
    else if jp_isAccountAuth decoded
    then (AccountToken, resolveAccountToken env (db w) now decoded)
    else (RegularToken, resolveRegularToken env (db w) now decoded).
Proof.
  intros (token & Hreq & Hne & Hbl & Hver). unfold resolve.
  rewrite (bearerToken_bearer _ _ Hreq).
  apply JsFacts.truthy_true in Hne. rewrite Hne.
  unfold resolveBearer. rewrite Hbl, Hver.
  by rewrite bool_decide_eq_false_2 by by intros [? [=]].
Qed.

Lemma bearerToken_withCookie req cookie :
  bearerToken (withCookie req cookie) = bearerToken req.
Proof. reflexivity. Qed.

End CredentialFacts.

(** X1.  A bearer token, once presented, is the only credential: with a
    non-empty token after 'Bearer ' the [caretakerId] cookie has no say,
    whether the token is accepted or not.  A header that is not of that
    form - no 'Bearer ' prefix, or nothing after it - counts as no header
    at all, and the cookie decides. *)
Theorem X1_bearer_token_shadows_cookie :
  forall (jwt : JwtLib) (env : Env) (w : World) (now : Z) (req : Request),
    (forall token cookie,
        bearerToken req = Some token -> token <> "" ->
        getAuthenticatedUser jwt env w now (withCookie req cookie)
        = getAuthenticatedUser jwt env w now req)
    /\ (bearerToken req = None \/ bearerToken req = Some "" ->
        getAuthenticatedUser jwt env w now req
        = getAuthenticatedUser jwt env w now (withoutAuthorization req)).
Proof.
  intros jwt env w now req. split.
  - intros token cookie Htok Hne. unfold getAuthenticatedUser, resolve.
    rewrite bearerToken_withCookie, Htok.
    apply JsFacts.truthy_true in Hne. by rewrite Hne.
  - intros H. unfold getAuthenticatedUser, resolve.
    change (bearerToken (withoutAuthorization req)) with (@None string).
    by destruct H as [-> | ->].
Qed.

(** X1, run: a token that has run out is refused although the request
    carries the cookie of a live caretaker; 'Bearer ' with nothing after
    it lets the cookie through. *)
Lemma X1_bearer_token_shadows_cookie_witness :
  getAuthenticatedUser Sample.jwt Sample.saas Sample.world 2000001
    (withCookie (Sample.bearer "admin.jwt") (Some "ct2"))
  = rejected "Invalid or expired token"
  /\ authenticated
       (getAuthenticatedUser Sample.jwt Sample.saas Sample.world 500
          (withCookie (Sample.bearer "") (Some "ct2")))
     = true.
Proof.
  destruct (X1_bearer_token_shadows_cookie Sample.jwt Sample.saas
              Sample.world 2000001 (Sample.bearer "admin.jwt")) as [Hshadow _].
  destruct (X1_bearer_token_shadows_cookie Sample.jwt Sample.saas
              Sample.world 500 (withCookie (Sample.bearer "") (Some "ct2")))
    as [_ Hnone].
  split.
  - rewrite (Hshadow "admin.jwt" (Some "ct2") ltac:(reflexivity)
               ltac:(discriminate)).
    reflexivity.
  - rewrite (Hnone ltac:(right; reflexivity)). reflexivity.
Defined.

(** X2.  A closed account authenticates nobody but system
    administrators: a result that is authenticated through the
    account-token branch belongs to an account that is not closed, and a
    result of the regular-token or of the cookie branch that is
    authenticated, is no system administrator's and names a family
    belongs to a family whose account, if it has one, is not closed. *)
Theorem X2_closed_accounts_are_refused :
  forall (jwt : JwtLib) (env : Env) (w : World) (now : Z) (req : Request)
         (branch : AuthBranch) (r : AuthResult),
    resolve jwt env w now req = (branch, r) ->
    authenticated r = true ->
    (branch = AccountToken ->
     exists id account,
       accountId r = Some id
       /\ Prisma.accountById (db w) id = Some account
       /\ acct_closed account = false)
    /\ (branch = RegularToken \/ branch = LegacyCookie ->
        isSysAdmin r = Some false ->
        forall fid account,
          familyId r = Some fid -> fid <> "" ->
          familyAccount (db w) fid = Some account ->
          acct_closed account = false).
Proof.
  intros jwt env w now req branch r Hres Hauth. unfold resolve in Hres.
  assert (resolveLegacy env (db w) now req = (branch, r) ->
          (branch = AccountToken -> False)
          /\ (isSysAdmin r = Some false ->
              forall fid account,
                familyId r = Some fid -> fid <> "" ->
                familyAccount (db w) fid = Some account ->
                acct_closed account = false)) as Hlegacy.
  { unfold resolveLegacy, resolveCookie. intros H.
    repeat case_match; simplify_eq; simpl in *; try discriminate;
      (split; [discriminate|]); intros _ fid account Hfid _ Hacc;
      unfold familyAccount, Prisma.familyOf in *; simplify_eq;
      repeat case_match; simplify_eq; done. }
  destruct (bearerToken req) as [token|];
    [destruct (Js.truthy token)|];
    try (destruct (Hlegacy Hres) as [Hno Hfam];
         split; [intros ->; by destruct Hno | intros _; exact Hfam]).
  unfold resolveBearer in Hres.
  destruct (bool_decide _); [by simplify_eq|].
  destruct (jwt_verify _ _ _ _) as [decoded|]; [|by simplify_eq].
  destruct (_ && _).
  { simplify_eq. split; [done|]. by intros [[=]|[=]]. }
  destruct (jp_isAccountAuth decoded); simplify_eq.
  - split; [intros _|by intros [[=]|[=]]].
    unfold resolveAccountToken in *.
    destruct (jp_accountId decoded) as [id|] eqn:Hid; [|discriminate].
    destruct (Prisma.accountById (db w) id) as [account|] eqn:Hacc;
      [|discriminate].
    destruct (acct_closed account) eqn:Hclosed; [discriminate|].
    exists id, account. split; [|done].
    by destruct (Prisma.caretakerOf _ _), (Prisma.familyOf _ _).
  - split; [done|]. intros _ Hsys fid account Hfid Hne Hacc.
    unfold resolveRegularToken in *.
    destruct (jp_isSysAdmin decoded) eqn:Hsa.
    { rewrite andb_false_r in Hsys. simpl in Hsys. discriminate. }
    rewrite andb_true_r in *.
    assert (jp_familyId decoded = Some fid) as Hjf.
    { by repeat case_match; simplify_eq. }
    rewrite Hjf in *. simpl in *.
    apply JsFacts.truthy_true in Hne. rewrite Hne in *.
    unfold familyAccount in Hacc.
    destruct (Prisma.familyById (db w) fid) as [family|]; [|discriminate].
    rewrite Hacc in *. by destruct (acct_closed account).
Qed.

(** X2, run: the owner of the sample family is authenticated and the
    account is open; with the account closed, the owner's token, the
    nanny's token and the nanny's cookie are all refused. *)
Lemma X2_closed_accounts_are_refused_witness :
  (exists id account,
      accountId (getAuthenticatedUser Sample.jwt Sample.saas Sample.world 500
                   (Sample.bearer "owner.jwt")) = Some id
      /\ Prisma.accountById (db Sample.world) id = Some account
      /\ acct_closed account = false)
  /\ getAuthenticatedUser Sample.jwt Sample.saas Kiosk.closedWorld 500
       (Sample.bearer "owner.jwt")
     = rejected "Account is closed"
  /\ getAuthenticatedUser Sample.jwt Sample.saas Kiosk.closedWorld 500
       (Sample.bearer "nanny.jwt")
     = rejected "Family account is closed"
  /\ getAuthenticatedUser Sample.jwt Sample.saas Kiosk.closedWorld 500
       Sample.cookie
     = rejected "Family account is closed".
Proof.
  split; [|by repeat split].
  apply (X2_closed_accounts_are_refused Sample.jwt Sample.saas Sample.world
           500 (Sample.bearer "owner.jwt") AccountToken);
    reflexivity.
Defined.

(** ** The resolver: expiration is soft *)

Section ExpirationFacts.

Variable env : Env.

Lemma familyAccountExpired_off now account :
  DEPLOYMENT_MODE env <> Some "saas" \/ acct_betaparticipant account = true ->
  familyAccountExpired env now account = false.
Proof.
  unfold familyAccountExpired, isSaasMode. intros [Hmode|Hbeta].
  - destruct (DEPLOYMENT_MODE env) as [mode|]; [|reflexivity].
    destruct (String.eqb_spec mode "saas") as [->|_]; [done | reflexivity].
  - rewrite Hbeta. by rewrite andb_false_r.
Qed.

Definition flagIsSound (r : AuthResult) : Prop :=
  (DEPLOYMENT_MODE env <> Some "saas" -> isExpired r <> Some true)
  /\ (betaparticipant r = Some true -> isExpired r <> Some true).

Lemma caretakerAuth_flag now cId cType cRole fId fSlug sysAdmin aType account :
  flagIsSound
    (caretakerAuth cId cType cRole fId fSlug sysAdmin aType account
       match account with
       | Some a => familyAccountExpired env now a
       | None => false
       end).
Proof.
  destruct account as [a|]; [|by split]. split; simpl; intros H.
  - by rewrite familyAccountExpired_off by by left.
  - injection H as Hb. by rewrite familyAccountExpired_off by by right.
Qed.

Lemma account_flag d now decoded :
  flagIsSound (resolveAccountToken env d now decoded).
Proof.
  unfold resolveAccountToken.
  destruct (jp_accountId decoded) as [id|]; [|by split].
  destruct (Prisma.accountById d id) as [account|]; [|by split].
  destruct (acct_closed account); [by split|].
  set (family := Prisma.familyOf d (acct_familyId account)).
  set (expired := if isSaasMode env && Js.isSet family
                     && negb (acct_betaparticipant account)
                  then expirationChain now account else false).
  assert (DEPLOYMENT_MODE env <> Some "saas"
          \/ acct_betaparticipant account = true -> expired = false) as Hoff.
  { unfold expired, isSaasMode. intros [Hmode|Hbeta].
    - destruct (DEPLOYMENT_MODE env) as [mode|]; [|done].
      by destruct (String.eqb_spec mode "saas") as [->|_].
    - rewrite Hbeta. by rewrite andb_false_r. }
  clearbody expired.
  destruct (Prisma.caretakerOf d (acct_caretakerId account)), family;
    split; simpl; intros H;
    first [ by rewrite Hoff by by left
          | injection H as Hb; by rewrite Hoff by by right ].
Qed.

Lemma regular_flag d now decoded :
  flagIsSound (resolveRegularToken env d now decoded).
Proof.
  unfold resolveRegularToken.
  destruct (if Js.truthyO (jp_familyId decoded) && negb (jp_isSysAdmin decoded)
            then _ else None) as [a|].
  - destruct (acct_closed a); [by split|].
    apply (caretakerAuth_flag now _ _ _ _ _ _ _ (Some a)).
  - apply (caretakerAuth_flag now _ _ _ _ _ _ _ None).
Qed.

Lemma cookie_flag d now cookie r :
  resolveCookie env d now cookie = Some r -> flagIsSound r.
Proof.
  unfold resolveCookie.
  destruct (Prisma.findFirst _ _) as [caretaker|]; [|done].
  destruct (match Prisma.familyOf d (ct_familyId caretaker) with
            | Some f => Prisma.accountOfFamily d (fam_id f)
            | None => None
            end) as [a|].
  - destruct (acct_closed a); intros [= <-]; [by split|].
    apply (caretakerAuth_flag now _ _ _ _ _ _ _ (Some a)).
  - intros [= <-]. apply (caretakerAuth_flag now _ _ _ _ _ _ _ None).
Qed.

End ExpirationFacts.

(** X3.  Outside SaaS mode nobody is ever reported expired, and in any
    mode no beta participant is: no result of [getAuthenticatedUser] has
    [isExpired] true when DEPLOYMENT_MODE is not 'saas', and none has
    [isExpired] true together with [betaparticipant] true. *)
Theorem X3_expiration_only_in_saas_and_never_for_beta :
  forall (jwt : JwtLib) (env : Env) (w : World) (now : Z) (req : Request),
    let r := getAuthenticatedUser jwt env w now req in
    DEPLOYMENT_MODE env <> Some "saas" \/ betaparticipant r = Some true ->
    isExpired r <> Some true.
Proof.
  intros jwt env w now req r. subst r.
  cut (flagIsSound env (getAuthenticatedUser jwt env w now req)).
  { intros [Hmode Hbeta] [H|H]; auto. }
  unfold getAuthenticatedUser, resolve, resolveBearer, resolveLegacy.
  destruct (bearerToken req) as [token|]; [destruct (Js.truthy token)|];
    repeat case_match; simpl;
    first [ by split
          | apply account_flag
          | apply regular_flag
          | eapply cookie_flag; eassumption ].
Qed.

(** X3, run: the lapsed owner of the sample family is expired in SaaS
    mode only. *)
Lemma X3_expiration_only_in_saas_and_never_for_beta_witness :
  isExpired (getAuthenticatedUser Sample.jwt Sample.selfHosted Sample.lapsed
               500 (Sample.bearer "owner.jwt")) <> Some true
  /\ isExpired (getAuthenticatedUser Sample.jwt Sample.saas Sample.lapsed
                  500 (Sample.bearer "owner.jwt")) = Some true.
Proof.
  split; [|reflexivity].
  apply (X3_expiration_only_in_saas_and_never_for_beta Sample.jwt
           Sample.selfHosted Sample.lapsed 500 (Sample.bearer "owner.jwt")).
  left. vm_compute. discriminate.
Defined.

Section SoftExpiration.

Variable env : Env.
Variable d : Db.
Variables now later : Z.

Lemma account_identity decoded :
  identity (resolveAccountToken env d later decoded)
  = identity (resolveAccountToken env d now decoded).
Proof.
  unfold resolveAccountToken.
  destruct (jp_accountId decoded) as [id|]; [|done].
  destruct (Prisma.accountById d id) as [account|]; [|done].
  destruct (acct_closed account); [done|].
  by destruct (Prisma.caretakerOf d (acct_caretakerId account)),
       (Prisma.familyOf d (acct_familyId account)).
Qed.

Lemma regular_identity decoded :
  identity (resolveRegularToken env d later decoded)
  = identity (resolveRegularToken env d now decoded).
Proof.
  unfold resolveRegularToken.
  destruct (if Js.truthyO (jp_familyId decoded) && negb (jp_isSysAdmin decoded)
            then _ else None) as [a|]; [|done].
  by destruct (acct_closed a).
Qed.

Lemma cookie_identity cookie :
  identity <$> resolveCookie env d later cookie
  = identity <$> resolveCookie env d now cookie.
Proof.
  unfold resolveCookie.
  destruct (Prisma.findFirst _ _) as [caretaker|]; [|done].
  destruct (match Prisma.familyOf d (ct_familyId caretaker) with
            | Some f => Prisma.accountOfFamily d (fam_id f)
            | None => None
            end) as [a|]; [|done].
  by destruct (acct_closed a).
Qed.

Lemma legacy_identity req :
  fst (resolveLegacy env d later req) = fst (resolveLegacy env d now req)
  /\ identity (snd (resolveLegacy env d later req))
     = identity (snd (resolveLegacy env d now req)).
Proof.
  unfold resolveLegacy.
  destruct (req_cookieCaretakerId req) as [cookie|]; [|done].
  destruct (Js.truthy cookie); [|done].
  pose proof (cookie_identity cookie) as H.
  destruct (resolveCookie env d later cookie),
    (resolveCookie env d now cookie); simpl in *; try done.
  split; [done|congruence].
Qed.

End SoftExpiration.

(** X4.  Expiration never refuses anybody: evaluated at two instants at
    which [jwt.verify] gives the same answer, a request gets the same
    result but for the [isExpired] flag. *)
Theorem X4_expiration_is_soft :
  forall (jwt : JwtLib) (env : Env) (w : World) (now later : Z) (req : Request),
    (forall token,
        jwt_verify jwt (getJwtSecret env) later token
        = jwt_verify jwt (getJwtSecret env) now token) ->
    fst (resolve jwt env w later req) = fst (resolve jwt env w now req)
    /\ identity (getAuthenticatedUser jwt env w later req)
       = identity (getAuthenticatedUser jwt env w now req).
Proof.
  intros jwt env w now later req Hver.
  unfold getAuthenticatedUser, resolve, resolveBearer.
  destruct (bearerToken req) as [token|]; [destruct (Js.truthy token)|];
    try apply legacy_identity.
  rewrite Hver.
  destruct (bool_decide _); [done|].
  destruct (jwt_verify jwt (getJwtSecret env) now token) as [decoded|]; [|done].
  destruct (jp_isSetupAuth decoded && Js.truthyO (jp_setupToken decoded));
    [done|].
  destruct (jp_isAccountAuth decoded); simpl; split; try done.
  - apply account_identity.
  - apply regular_identity.
Qed.

(** X4, run: a family whose trial ends at 1000 has the flag lowered at
    500 and raised at 1500, and the same identity at both instants. *)
Lemma X4_expiration_is_soft_witness :
  isExpired (getAuthenticatedUser Kiosk.jwt Sample.saas Kiosk.trialWorld 500
               (Sample.bearer "kiosk.jwt")) = Some false
  /\ isExpired (getAuthenticatedUser Kiosk.jwt Sample.saas Kiosk.trialWorld
                  1500 (Sample.bearer "kiosk.jwt")) = Some true
  /\ identity (getAuthenticatedUser Kiosk.jwt Sample.saas Kiosk.trialWorld
                 1500 (Sample.bearer "kiosk.jwt"))
     = identity (getAuthenticatedUser Kiosk.jwt Sample.saas Kiosk.trialWorld
                   500 (Sample.bearer "kiosk.jwt")).
Proof.
  split; [reflexivity|]. split; [reflexivity|].
  apply (proj2 (X4_expiration_is_soft Kiosk.jwt Sample.saas Kiosk.trialWorld
                  500 1500 (Sample.bearer "kiosk.jwt")
                  (fun token => eq_refl))).
Defined.

(** ** The guards *)

Section GuardFacts.

Variable jwt : JwtLib.
Variable env : Env.

Lemma sysadmin_branch w now req :
  isSysAdmin (getAuthenticatedUser jwt env w now req) = Some true ->
  fst (resolve jwt env w now req) = RegularToken.
Proof.
  unfold getAuthenticatedUser, resolve, resolveBearer, resolveLegacy,
    resolveCookie, resolveAccountToken.
  repeat case_match; simplify_eq; simpl; done.
Qed.

Lemma accountOwner_branch w now req :
  authenticated (getAuthenticatedUser jwt env w now req) = true ->
  isAccountOwner (getAuthenticatedUser jwt env w now req) = Some true
  <-> fst (resolve jwt env w now req) = AccountToken.
Proof.
  unfold getAuthenticatedUser, resolve, resolveBearer, resolveLegacy,
    resolveCookie, resolveAccountToken, resolveRegularToken.
  repeat case_match; simplify_eq; simpl; intros Hauth; split; intros Hown;
    first [ done | discriminate ].
Qed.

End GuardFacts.

(** X5.  A system administrator passes every guard: when the result of
    [getAuthenticatedUser] is authenticated with [isSysAdmin] true, each
    of [withAuth], [withAdminAuth], [withSysAdminAuth] and
    [withAccountOwner] runs its handler.  Such a result comes from the
    regular-token branch only: no cookie, setup token or account token
    makes a system administrator. *)
Theorem X5_system_administrators_pass_every_guard :
  forall (jwt : JwtLib) (env : Env) (w : World) (now : Z) (req : Request),
    let r := getAuthenticatedUser jwt env w now req in
    authenticated r = true ->
    isSysAdmin r = Some true ->
    fst (resolve jwt env w now req) = RegularToken
    /\ forall (T : Type) (h : Handler T) (hc : ContextHandler T),
         withAuth jwt env h w now req = h w now req
         /\ withAdminAuth jwt env h w now req = h w now req
         /\ withSysAdminAuth jwt env h w now req = h w now req
         /\ withAccountOwner jwt env hc w now req = hc w now req r.
Proof.
  intros jwt env w now req r Hauth Hsys. split.
  { by apply sysadmin_branch. }
  intros T h hc.
  unfold withAuth, withAdminAuth, withSysAdminAuth, withAccountOwner.
  fold r. rewrite Hauth, Hsys. simpl.
  by rewrite !andb_false_r.
Qed.

(** X5, run: the system administrator's token reaches the handler behind
    [withSysAdminAuth]; the family administrator's is answered 403. *)
Lemma X5_system_administrators_pass_every_guard_witness :
  withSysAdminAuth Staff.jwt Sample.saas Staff.probe Sample.world 500
    (Sample.bearer "root.jwt")
  = (ok (Some ["api"; "device-tokens"]), Sample.world)
  /\ withSysAdminAuth Staff.jwt Sample.saas Staff.probe Sample.world 500
       (Sample.bearer "admin.jwt")
     = (failure 403 "System administrator access required", Sample.world).
Proof.
  split; [|reflexivity].
  destruct (X5_system_administrators_pass_every_guard Staff.jwt Sample.saas
              Sample.world 500 (Sample.bearer "root.jwt")
              eq_refl eq_refl) as [_ Hpass].
  destruct (Hpass _ Staff.probe (fun w _ _ _ => (ok None, w)))
    as (_ & _ & -> & _).
  reflexivity.
Defined.

(** X6.  [withAccountOwner] tells the branches of the resolver apart:
    every request authenticated through an account token runs the
    handler, with the result of [getAuthenticatedUser] as its context;
    a request authenticated in any other way is answered 403 with the
    world untouched, unless it is a system administrator's. *)
Theorem X6_account_owner_guard_follows_the_branch :
  forall (jwt : JwtLib) (env : Env) (w : World) (now : Z) (req : Request)
         (T : Type) (hc : ContextHandler T),
    let r := getAuthenticatedUser jwt env w now req in
    authenticated r = true ->
    (fst (resolve jwt env w now req) = AccountToken ->
     withAccountOwner jwt env hc w now req = hc w now req r)
    /\ (fst (resolve jwt env w now req) <> AccountToken ->
        isSysAdmin r <> Some true ->
        withAccountOwner jwt env hc w now req
        = (failure 403 "Account owner access required", w)).
Proof.
  intros jwt env w now req T hc r Hauth.
  pose proof (accountOwner_branch jwt env w now req Hauth) as Hown.
  unfold withAccountOwner. fold r in Hown |- *. rewrite Hauth. simpl.
  split.
  - intros Hb. by rewrite bool_decide_eq_true_2 by by apply Hown.
  - intros Hb Hsys.
    rewrite bool_decide_eq_false_2 by (intros H; by apply Hb, Hown).
    by rewrite bool_decide_eq_false_2 by done.
Qed.

(** X6, run: the owner's account token passes, the family
    administrator's PIN token does not. *)
Lemma X6_account_owner_guard_follows_the_branch_witness :
  fst (withAccountOwner Sample.jwt Sample.saas Staff.echo Sample.world 500
         (Sample.bearer "owner.jwt"))
  = ok (Some (getAuthenticatedUser Sample.jwt Sample.saas Sample.world 500
                (Sample.bearer "owner.jwt")))
  /\ withAccountOwner Sample.jwt Sample.saas Staff.echo Sample.world 500
       (Sample.bearer "admin.jwt")
     = (failure 403 "Account owner access required", Sample.world).
Proof.
  split.
  - destruct (X6_account_owner_guard_follows_the_branch Sample.jwt
                Sample.saas Sample.world 500 (Sample.bearer "owner.jwt")
                _ Staff.echo eq_refl) as [-> _]; reflexivity.
  - destruct (X6_account_owner_guard_follows_the_branch Sample.jwt
                Sample.saas Sample.world 500 (Sample.bearer "admin.jwt")
                _ Staff.echo eq_refl) as [_ ->];
      [reflexivity | discriminate | discriminate].
Defined.

Lemma withFamilyId_same r : withFamilyId r (familyId r) = r.
Proof. by destruct r. Qed.

Lemma sysadmin_not_setup jwt env w now req :
  isSysAdmin (getAuthenticatedUser jwt env w now req) = Some true ->
  isSetupAuth (getAuthenticatedUser jwt env w now req) = None.
Proof.
  unfold getAuthenticatedUser, resolve, resolveBearer, resolveLegacy,
    resolveCookie, resolveAccountToken, resolveRegularToken.
  repeat case_match; simplify_eq; simpl; done.
Qed.

(** X7.  [withAuthContext] either refuses with 401 or 403 and leaves the
    world alone, or runs the handler on the result of
    [getAuthenticatedUser] with at most the family replaced - and it
    replaces the family for setup tokens and system administrators
    only: whatever the query string, the path and the referer say,
    everybody else acts in the family of the credential.  For a system
    administrator a non-empty [familyId] query parameter wins. *)
Theorem X7_context_keeps_tenants_in_their_family :
  forall (jwt : JwtLib) (env : Env) (w : World) (now : Z) (req : Request),
    let r := getAuthenticatedUser jwt env w now req in
    (exists status msg,
        (status = 401 \/ status = 403)
        /\ forall (T : Type) (h : ContextHandler T),
             withAuthContext jwt env h w now req = (failure status msg, w))
    \/ (exists fid,
           authenticated r = true
           /\ (forall (T : Type) (h : ContextHandler T),
                  withAuthContext jwt env h w now req
                  = h w now req (withFamilyId r fid))
           /\ (isSetupAuth r <> Some true -> isSysAdmin r <> Some true ->
               fid = familyId r)
           /\ (isSysAdmin r = Some true ->
               forall q, searchParam "familyId" (req_query req) = Some q ->
                         q <> "" -> fid = Some q)).
Proof.
  intros jwt env w now req r.
  pose proof (sysadmin_not_setup jwt env w now req) as Hns. fold r in Hns.
  unfold withAuthContext. fold r.
  destruct (authenticated r) eqn:Hauth; simpl;
    [|left; exists 401, "Authentication required"; split; [by left|done]].
  destruct (bool_decide (isSetupAuth r = Some true)) eqn:Hsetup;
    [apply bool_decide_eq_true in Hsetup
    |apply bool_decide_eq_false in Hsetup]; simpl.
  - assert (isSysAdmin r <> Some true) as Hnot.
    { intros H. rewrite (Hns H) in Hsetup. discriminate. }
    destruct (Js.truthyO (setupToken r)); simpl.
    + destruct (Js.truthyO (searchParam "familyId" (req_query req))).
      * destruct (Prisma.findFirst _ _) as [setup|];
          [destruct (_ || _)|];
          first [ solve [right; eexists; repeat split; done]
                | left; eexists 403, _; split; [by right|done] ].
      * right. exists (familyId r). rewrite withFamilyId_same.
        repeat split; done.
    + rewrite bool_decide_eq_false_2 by done.
      right. exists (familyId r). rewrite withFamilyId_same.
      repeat split; done.
  - destruct (bool_decide (isSysAdmin r = Some true)) eqn:Hsys;
      [apply bool_decide_eq_true in Hsys
      |apply bool_decide_eq_false in Hsys].
    + right. eexists. split; [done|]. split; [done|]. split; [done|].
      intros _ q Hq Hne. rewrite Hq. simpl.
      apply JsFacts.truthy_true in Hne.
      repeat (simpl; rewrite ?Hne). done.
    + right. exists (familyId r). rewrite withFamilyId_same.
      repeat split; done.
Qed.

(** X7, run: the nanny's request names another family in its query
    string and is served in her own. *)
Lemma X7_context_keeps_tenants_in_their_family_witness :
  fst (withAuthContext Sample.jwt Sample.saas Staff.echo Sample.world 500
         (Sample.request (Some "Bearer nanny.jwt") [("familyId", "fam2")]
            NoBody))
  = ok (Some (getAuthenticatedUser Sample.jwt Sample.saas Sample.world 500
                (Sample.bearer "nanny.jwt")))
  /\ familyId (getAuthenticatedUser Sample.jwt Sample.saas Sample.world 500
                 (Sample.bearer "nanny.jwt")) = Some "fam1".
Proof.
  split; [|reflexivity].
  destruct (X7_context_keeps_tenants_in_their_family Sample.jwt Sample.saas
              Sample.world 500
              (Sample.request (Some "Bearer nanny.jwt")
                 [("familyId", "fam2")] NoBody))
    as [(status & msg & _ & Hrefused) | (fid & _ & Hruns & Htenant & _)].
  - rewrite (Hrefused _ Staff.echo). exfalso.
    specialize (Hrefused _ Staff.echo). vm_compute in Hrefused.
    discriminate.
  - rewrite (Hruns _ Staff.echo).
    rewrite (Htenant ltac:(discriminate) ltac:(discriminate)).
    reflexivity.
Defined.

(** X8.  A setup token acts on the family of its invitation only: when
    the request names a family in its [familyId] query parameter and
    every [FamilySetup] row with the token is bound to another family,
    [withAuthContext] answers 403 and the handler does not run. *)
Theorem X8_setup_token_is_bound_to_its_family :
  forall (jwt : JwtLib) (env : Env) (w : World) (now : Z) (req : Request)
         (decoded : JwtPayload) (q : string)
         (T : Type) (h : ContextHandler T),
    presents jwt env w now req decoded ->
    jp_isSetupAuth decoded = true ->
    Js.truthyO (jp_setupToken decoded) = true ->
    searchParam "familyId" (req_query req) = Some q ->
    q <> "" ->
    (forall setup,
        In setup (familySetups (db w)) ->
        Some (fs_token setup) = jp_setupToken decoded ->
        exists other,
          fs_familyId setup = Some other /\ other <> "" /\ other <> q) ->
    withAuthContext jwt env h w now req
    = (failure 403 "Setup token is not authorized for this family", w).
Proof.
  intros jwt env w now req decoded q T h Hpres Hsetup Htok Hq Hne Hrows.
  unfold withAuthContext, getAuthenticatedUser.
  rewrite (presents_resolve _ _ _ _ _ _ Hpres), Hsetup, Htok. simpl.
  rewrite Htok, Hq. simpl.
  apply JsFacts.truthy_true in Hne. rewrite Hne.
  destruct (Prisma.findFirst _ _) as [setup|] eqn:Hfind; [|done].
  apply find_some in Hfind as [Hin Hmatch].
  apply bool_decide_eq_true in Hmatch.
  destruct (Hrows setup Hin Hmatch) as (other & Hfam & Hother & Hdiff).
  rewrite Hfam. simpl.
  apply JsFacts.truthy_true in Hother. rewrite Hother.
  by rewrite bool_decide_eq_false_2 by congruence.
Qed.

(** X8, run: the invitation of the sample family is refused for another
    family and served for its own. *)
Lemma X8_setup_token_is_bound_to_its_family_witness :
  withAuthContext Sample.jwt Sample.saas Staff.echo Invited.world 500
    (Invited.request "fam2")
  = (failure 403 "Setup token is not authorized for this family",
     Invited.world)
  /\ fst (withAuthContext Sample.jwt Sample.saas Staff.echo Invited.world 500
            (Invited.request "fam1"))
     = ok (Some (withFamilyId (setupAuth Sample.setupPayload) (Some "fam1"))).
Proof.
  split; [|reflexivity].
  apply (X8_setup_token_is_bound_to_its_family Sample.jwt Sample.saas
           Invited.world 500 (Invited.request "fam2") Sample.setupPayload
           "fam2").
  - exists "setup.jwt". repeat split; [discriminate].
  - reflexivity.
  - reflexivity.
  - reflexivity.
  - discriminate.
  - intros setup [<-|[]] _. exists "fam1".
    repeat split; discriminate.
Defined.

(** ** The blacklist *)

(** X9.  The hourly cleanup never lets an invalidated token back in:
    when every entry of the blacklist sits under its token's own expiry
    (as [invalidateToken] writes it) and [jwt.verify] refuses a token
    once its expiry has passed, a request is authenticated after the
    timer fired exactly when it would have been without it, and then
    with the same result. *)
Theorem X9_cleanup_readmits_nobody :
  forall (jwt : JwtLib) (env : Env) (w : World) (tick now : Z) (req : Request),
    (forall token ms,
        tokenBlacklist w !! token = Some ms ->
        expiryOf jwt token = Some ms) ->
    (forall token decoded ms,
        jwt_verify jwt (getJwtSecret env) now token = Some decoded ->
        expiryOf jwt token = Some ms ->
        now <= ms) ->
    tick <= now ->
    let before := getAuthenticatedUser jwt env w now req in
    let after := getAuthenticatedUser jwt env (cleanupTick tick w) now req in
    authenticated after = authenticated before
    /\ (authenticated before = true -> after = before).
Proof.
  intros jwt env w tick now req Hlisted Hverify Htick before after.
  subst before after.
  unfold getAuthenticatedUser, resolve.
  change (db (cleanupTick tick w)) with (db w).
  destruct (bearerToken req) as [token|]; [|done].
  destruct (Js.truthy token); [|done].
  unfold resolveBearer.
  change (db (cleanupTick tick w)) with (db w).
  change (tokenBlacklist (cleanupTick tick w))
    with (cleanupBlacklist tick (tokenBlacklist w)).
  rewrite cleanup_lookup.
  destruct (tokenBlacklist w !! token) as [ms|] eqn:Hbl.
  - rewrite (bool_decide_eq_true_2 (is_Some (Some ms))) by by eexists.
    destruct (Js.after tick ms) eqn:Hafter.
    + rewrite bool_decide_eq_false_2 by by intros [? [=]].
      destruct (jwt_verify _ _ _ _) as [decoded|] eqn:Hver; [|done].
      pose proof (Hverify _ _ _ Hver (Hlisted _ _ Hbl)).
      apply JsFacts.after_spec in Hafter. lia.
    + by rewrite bool_decide_eq_true_2 by by eexists.
  - done.
Qed.

(** X9, run: the administrator's token, invalidated and then swept from
    the blacklist after its expiry, is still refused. *)
Lemma X9_cleanup_readmits_nobody_witness :
  tokenBlacklist (cleanupTick 2000001 Staff.loggedOut) = ∅
  /\ authenticated
       (getAuthenticatedUser Sample.jwt Sample.saas
          (cleanupTick 2000001 Staff.loggedOut)
          2000002 (Sample.bearer "admin.jwt")) = false.
Proof.
  split; [by vm_compute|].
  assert (authenticated
            (getAuthenticatedUser Sample.jwt Sample.saas Staff.loggedOut
               2000002 (Sample.bearer "admin.jwt")) = false) as <-
      by reflexivity.
  apply (X9_cleanup_readmits_nobody Sample.jwt Sample.saas Staff.loggedOut
           2000001 2000002 (Sample.bearer "admin.jwt")).
  - intros token ms. unfold Staff.loggedOut. simpl.
    destruct (String.eqb_spec token "admin.jwt") as [->|Hne].
    + rewrite lookup_insert_eq. by intros [= <-].
    + rewrite lookup_insert_ne by done. by rewrite lookup_empty.
  - intros token decoded ms. unfold expiryOf. simpl.
    unfold Sample.decode.
    repeat case_match; simplify_eq; simpl in *; try done;
      intros _ [= <-]; try done;
      match goal with H : Js.after _ _ = false |- _ =>
        apply JsFacts.after_false in H; simpl in H; lia end.
  - lia.
Defined.

(** X10.  A magic-link session cannot be logged out: the token that
    POST /api/auth/magic-link answers with is signed without an [exp]
    claim, so that - for a JWT library whose [decode] shows no [exp]
    where none was signed - [invalidateToken] returns false on it and
    leaves the blacklist as it is. *)
Theorem X10_magic_link_token_cannot_be_invalidated :
  forall (jwt : JwtLib) (env : Env) (w w' other : World) (now : Z)
         (req : Request) (answer : MagicLink.Data),
    (forall p secret decoded,
        jp_exp p = None ->
        jwt_decode jwt (jwt_sign jwt p secret) = Some decoded ->
        jp_exp decoded = None) ->
    MagicLink.POST jwt env w now req = (ok (Some answer), w') ->
    invalidateToken jwt other (MagicLink.token answer) = (false, other).
Proof.
  intros jwt env w w' other now req answer Hlib Hpost.
  unfold MagicLink.POST in Hpost.
  destruct (jsonBody req) as [body|]; [|discriminate].
  destruct (field body "token") as [[]|]; try discriminate.
  destruct (negb (Js.truthy _)); [discriminate|].
  destruct (validateDeviceToken w now _) as [authResult w1].
  destruct (_ || _); [discriminate|].
  injection Hpost as <- _. simpl.
  unfold invalidateToken.
  destruct (jwt_decode jwt _) as [decoded|] eqn:Hdec; [|done].
  apply Hlib in Hdec; [|reflexivity]. by rewrite Hdec.
Qed.

(** X10, run: the kiosk's magic-link token, presented to
    [invalidateToken], is not blacklisted. *)
Lemma X10_magic_link_token_cannot_be_invalidated_witness :
  exists answer w',
    MagicLink.POST Kiosk.jwt Sample.saas Sample.world 500 Staff.linkRequest
    = (ok (Some answer), w')
    /\ invalidateToken Kiosk.jwt w' (MagicLink.token answer) = (false, w').
Proof.
  destruct (MagicLink.POST Kiosk.jwt Sample.saas Sample.world 500
              Staff.linkRequest) as [response w'] eqn:Hpost.
  assert (exists answer, response = ok (Some answer)) as [answer ->].
  { vm_compute in Hpost. injection Hpost as <- _. by eexists. }
  exists answer, w'. split; [done|].
  apply (X10_magic_link_token_cannot_be_invalidated Kiosk.jwt Sample.saas
           Sample.world w' w' 500 Staff.linkRequest answer); [|exact Hpost].
  intros p secret decoded _. simpl. by intros [= <-].
Defined.

(** ** Device tokens: creation *)

Section CreationFacts.

Lemma hexDigit_high b : isHexDigit (Str.hexDigit (Byte.to_N b / 16)) = true.
Proof. by destruct b. Qed.

Lemma hexDigit_low b : isHexDigit (Str.hexDigit (Byte.to_N b mod 16)) = true.
Proof. by destruct b. Qed.

Lemma hex_length bytes :
  String.length (Str.hex bytes) = (2 * List.length bytes)%nat.
Proof. induction bytes as [|b bytes IH]; simpl; [done|]. rewrite IH. lia. Qed.

Lemma hex_digits bytes : allChars isHexDigit (Str.hex bytes) = true.
Proof.
  induction bytes as [|b bytes IH]; [done|].
  cbn [Str.hex allChars]. by rewrite hexDigit_high, hexDigit_low, IH.
Qed.

Lemma find_snoc {A} (f : A -> bool) rows row :
  List.find f rows = None ->
  List.find f (rows ++ [row])%list = if f row then Some row else None.
Proof.
  induction rows as [|r rows IH]; simpl; [done|].
  destruct (f r); [done | exact IH].
Qed.

(** What a successful [handlePost] did. *)
Lemma handlePost_ok rt w now req ctx id token name createdAt expiresAt w' :
  DeviceTokens.handlePost rt w now req ctx
  = (ok (Some (CreatedToken id token name createdAt expiresAt)), w') ->
  exists fid cid row,
    familyId ctx = Some fid /\ fid <> "" /\ caretakerId ctx = Some cid
    /\ token = Str.hex (randomBytes rt (drawn w) 32)
    /\ name <> ""
    /\ row = {| dt_id := id; dt_token := token; dt_name := name;
                dt_familyId := fid; dt_caretakerId := cid;
                dt_expiresAt := expiresAt; dt_revokedAt := None;
                dt_lastUsedAt := None; dt_createdAt := now |}
    /\ createdAt = now
    /\ Prisma.deviceTokenByToken (db w) token = None
    /\ is_Some (Prisma.caretakerById (db w) cid)
    /\ w' = setDb (draw (draw w))
              (setDeviceTokens (db w) (deviceTokens (db w) ++ [row])).
Proof.
  unfold DeviceTokens.handlePost. intros H.
  destruct (notAdmin ctx); [discriminate|].
  destruct (familyId ctx) as [fid|]; [|discriminate].
  simpl in H. destruct (Js.truthy fid) eqn:Hfid; [|discriminate].
  simpl in H.
  destruct (jsonBody req) as [body|]; [|discriminate].
  destruct (field body "name") as [[| | |name_| |]|]; try discriminate.
  destruct (negb (Js.truthy name_) || negb (Js.truthy (Str.trim name_)))
    eqn:Hname; [discriminate|].
  apply orb_false_iff in Hname as [_ Hname].
  apply negb_false_iff, JsFacts.truthy_true in Hname.
  destruct (DeviceTokens.createDeviceToken _ _ _ _ _ _ _ _)
    as [[row d']|] eqn:Hcreate; [|discriminate].
  unfold DeviceTokens.createDeviceToken in Hcreate.
  destruct (caretakerId ctx) as [cid|]; [|discriminate].
  destruct (if jsonTruthy _ then _ else _) as [expires|]; [|discriminate].
  simpl in Hcreate.
  destruct (Js.isSet (Prisma.familyById (db w) fid)); [|discriminate].
  destruct (Prisma.caretakerById (db w) cid) as [c|] eqn:Hc; [|discriminate].
  destruct (Prisma.deviceTokenByToken (db w) _) eqn:Hfree; [discriminate|].
  simpl in Hcreate.
  destruct (negb (existsb _ _)); [|discriminate].
  injection Hcreate as <- <-. simpl in H. injection H as <- <- <- <- <- <-.
  exists fid, cid. eexists. split; [done|].
  split; [by apply JsFacts.truthy_true|].
  repeat split; done.
Qed.

End CreationFacts.

(** X11.  A token that [handlePost] hands out is 64 lower-case
    hexadecimal digits when [randomBytes(32)] yields 32 bytes; its row is
    new, appended to a table that is otherwise as before, not revoked,
    never used, created at the instant of the request, and belongs to
    the family and to the caretaker of the caller; its name is not
    empty. *)
Theorem X11_created_token_is_fresh_hex :
  forall (rt : Runtime) (w w' : World) (now : Z) (req : Request)
         (ctx : AuthResult) (id token name : string) (createdAt : Z)
         (expiresAt : option Z),
    List.length (randomBytes rt (drawn w) 32) = 32%nat ->
    DeviceTokens.handlePost rt w now req ctx
    = (ok (Some (CreatedToken id token name createdAt expiresAt)), w') ->
    String.length token = 64%nat
    /\ allChars isHexDigit token = true
    /\ name <> ""
    /\ (forall old, In old (deviceTokens (db w)) -> dt_token old <> token)
    /\ exists row,
         deviceTokens (db w') = (deviceTokens (db w) ++ [row])%list
         /\ dt_id row = id /\ dt_token row = token /\ dt_name row = name
         /\ Some (dt_familyId row) = familyId ctx
         /\ Some (dt_caretakerId row) = caretakerId ctx
         /\ dt_expiresAt row = expiresAt
         /\ dt_revokedAt row = None /\ dt_lastUsedAt row = None
         /\ dt_createdAt row = now.
Proof.
  intros rt w w' now req ctx id token name createdAt expiresAt Hbytes Hpost.
  apply handlePost_ok in Hpost
    as (fid & cid & row & Hfam & _ & Hcare & Htok & Hname & Hrow & _
        & Hfree & _ & ->).
  split; [by rewrite Htok, hex_length, Hbytes|].
  split; [rewrite Htok; apply hex_digits|].
  split; [done|]. split.
  - intros old Hin. by apply (proj1 (byToken_None _ _) Hfree), list_elem_of_In.
  - exists row. rewrite Hrow. simpl. by rewrite Hfam, Hcare.
Qed.

(** X11, run: the token of the sample administrator's new kiosk. *)
Lemma X11_created_token_is_fresh_hex_witness :
  exists w' row,
    snd (DeviceTokens.handlePost Sample.rt Sample.world 500
           (Sample.request (Some "Bearer admin.jwt") []
              (JsonBody (JObj [("name", JStr "  Hall  ")])))
           (getAuthenticatedUser Sample.jwt Sample.saas Sample.world 500
              (Sample.bearer "admin.jwt"))) = w'
    /\ deviceTokens (db w') = [Sample.kiosk; row]
    /\ dt_name row = "Hall"
    /\ dt_familyId row = "fam1"
    /\ dt_caretakerId row = "ct1".
Proof.
  destruct (DeviceTokens.handlePost Sample.rt Sample.world 500
              (Sample.request (Some "Bearer admin.jwt") []
                 (JsonBody (JObj [("name", JStr "  Hall  ")])))
              (getAuthenticatedUser Sample.jwt Sample.saas Sample.world 500
                 (Sample.bearer "admin.jwt"))) as [response w'] eqn:Hpost.
  assert (response
          = ok (Some (CreatedToken "b-key"
              "2a2a2a2a2a2a2a2a2a2a2a2a2a2a2a2a2a2a2a2a2a2a2a2a2a2a2a2a2a2a2a2a"
              "Hall" 500 None))) as ->.
  { vm_compute in Hpost. by injection Hpost as <- _. }
  destruct (X11_created_token_is_fresh_hex Sample.rt Sample.world w' 500
              _ _ _ _ _ _ _ eq_refl Hpost)
    as (_ & _ & _ & _ & row & Hrows & _ & _ & Hname & Hfam & Hcare & _).
  exists w', row. split; [reflexivity|]. split; [exact Hrows|].
  split; [exact Hname|].
  change (Some (dt_familyId row) = Some "fam1") in Hfam.
  change (Some (dt_caretakerId row) = Some "ct1") in Hcare.
  split; congruence.
Defined.

(** X12.  A token just created opens the door: presented to
    [validateDeviceToken] in the world [handlePost] left behind, at any
    instant not after its expiry, it is accepted, for the family and the
    caretaker of the administrator who created it, as a device token
    and never as a system administrator. *)
Theorem X12_created_token_authenticates :
  forall (rt : Runtime) (w w' : World) (now later : Z) (req : Request)
         (ctx : AuthResult) (id token name : string) (createdAt : Z)
         (expiresAt : option Z),
    DeviceTokens.handlePost rt w now req ctx
    = (ok (Some (CreatedToken id token name createdAt expiresAt)), w') ->
    (forall e, expiresAt = Some e -> later <= e) ->
    let r := fst (validateDeviceToken w' later token) in
    authenticated r = true
    /\ familyId r = familyId ctx
    /\ caretakerId r = caretakerId ctx
    /\ isSysAdmin r = Some false
    /\ authType r = Some "DEVICE_TOKEN".
Proof.
  intros rt w w' now later req ctx id token name createdAt expiresAt
    Hpost Hlive r. subst r.
  apply handlePost_ok in Hpost
    as (fid & cid & row & Hfam & _ & Hcare & _ & _ & Hrow & _
        & Hfree & [c Hc] & ->).
  unfold validateDeviceToken, Prisma.deviceTokenByToken, Prisma.findFirst.
  cbn [db setDb deviceTokens setDeviceTokens].
  rewrite (find_snoc _ _ row Hfree).
  replace (String.eqb (dt_token row) token) with true
    by (by rewrite Hrow; simpl; rewrite String.eqb_refl).
  replace (dt_revokedAt row) with (@None Z) by by rewrite Hrow.
  replace (dt_caretakerId row) with cid by by rewrite Hrow.
  replace (dt_familyId row) with fid by by rewrite Hrow.
  cbn [Js.isSet].
  replace (match dt_expiresAt row with
           | Some e => Js.after later e
           | None => false
           end) with false.
  - change (Prisma.caretakerById (setDeviceTokens (db w) _) cid)
      with (Prisma.caretakerById (db w) cid).
    rewrite Hc. simpl. rewrite Hrow. simpl. by rewrite Hfam, Hcare.
  - rewrite Hrow. simpl. destruct expiresAt as [e|]; [|done].
    symmetry. apply JsFacts.after_false. by apply Hlive.
Qed.

(** X12, run: the sample administrator's new token, used an hour
    later. *)
Lemma X12_created_token_authenticates_witness :
  exists w',
    snd (DeviceTokens.handlePost Sample.rt Sample.world 500
           (Sample.request (Some "Bearer admin.jwt") []
              (JsonBody (JObj [("name", JStr "  Hall  ")])))
           (getAuthenticatedUser Sample.jwt Sample.saas Sample.world 500
              (Sample.bearer "admin.jwt"))) = w'
    /\ familyId
         (fst (validateDeviceToken w' 3600500
                 "2a2a2a2a2a2a2a2a2a2a2a2a2a2a2a2a2a2a2a2a2a2a2a2a2a2a2a2a2a2a2a2a"))
       = Some "fam1".
Proof.
  destruct (DeviceTokens.handlePost Sample.rt Sample.world 500
              (Sample.request (Some "Bearer admin.jwt") []
                 (JsonBody (JObj [("name", JStr "  Hall  ")])))
              (getAuthenticatedUser Sample.jwt Sample.saas Sample.world 500
                 (Sample.bearer "admin.jwt"))) as [response w'] eqn:Hpost.
  assert (response
          = ok (Some (CreatedToken "b-key"
              "2a2a2a2a2a2a2a2a2a2a2a2a2a2a2a2a2a2a2a2a2a2a2a2a2a2a2a2a2a2a2a2a"
              "Hall" 500 None))) as ->.
  { vm_compute in Hpost. by injection Hpost as <- _. }
  exists w'. split; [reflexivity|].
  destruct (X12_created_token_authenticates Sample.rt Sample.world w' 500
              3600500 _ _ _ _ _ _ _ Hpost ltac:(discriminate))
    as (_ & -> & _).
  reflexivity.
Defined.

(** ** Device tokens: what the routes leave alone *)

Section RouteFacts.

Variable jwt : JwtLib.
Variable env : Env.

Lemma withAuthContext_cases {T} (h : ContextHandler T) w now req :
  (exists status msg,
      status <> 200
      /\ withAuthContext jwt env h w now req = (failure status msg, w))
  \/ exists ctx, withAuthContext jwt env h w now req = h w now req ctx.
Proof.
  unfold withAuthContext.
  repeat case_match;
    first [ by right; eexists
          | left; eexists _, _; split; [|reflexivity]; done ].
Qed.

Lemma handleGet_reads w now req ctx :
  snd (DeviceTokens.handleGet w now req ctx) = w.
Proof. unfold DeviceTokens.handleGet. by repeat case_match. Qed.

Lemma handlePost_refused rt w now req ctx :
  statusOf (fst (DeviceTokens.handlePost rt w now req ctx)) <> 200 ->
  sameStore w (snd (DeviceTokens.handlePost rt w now req ctx)).
Proof.
  unfold DeviceTokens.handlePost, sameStore.
  repeat case_match; simpl; done.
Qed.

Lemma handleDelete_refused w now req ctx :
  statusOf (fst (DeviceTokens.handleDelete w now req ctx)) <> 200 ->
  snd (DeviceTokens.handleDelete w now req ctx) = w.
Proof.
  unfold DeviceTokens.handleDelete.
  repeat case_match; simpl; done.
Qed.

End RouteFacts.

(** X13.  The device-token routes write on success only.  A listing
    changes nothing at all; a creation or a revocation that is answered
    with a status other than 200 - 400, 401, 403, 404 or 500 - leaves
    the store and the blacklist exactly as they were. *)
Theorem X13_refused_requests_write_nothing :
  forall (rt : Runtime) (jwt : JwtLib) (env : Env) (w : World) (now : Z)
         (req : Request),
    snd (DeviceTokens.GET jwt env w now req) = w
    /\ (statusOf (fst (DeviceTokens.POST rt jwt env w now req)) <> 200 ->
        sameStore w (snd (DeviceTokens.POST rt jwt env w now req)))
    /\ (statusOf (fst (DeviceTokens.DELETE jwt env w now req)) <> 200 ->
        snd (DeviceTokens.DELETE jwt env w now req) = w).
Proof.
  intros rt jwt env w now req.
  unfold DeviceTokens.GET, DeviceTokens.POST, DeviceTokens.DELETE.
  split; [|split].
  - destruct (withAuthContext_cases jwt env DeviceTokens.handleGet w now req)
      as [(status & msg & _ & ->) | [ctx ->]]; [done|].
    apply handleGet_reads.
  - destruct (withAuthContext_cases jwt env (DeviceTokens.handlePost rt)
                w now req) as [(status & msg & _ & ->) | [ctx ->]];
      [done|]. apply handlePost_refused.
  - destruct (withAuthContext_cases jwt env DeviceTokens.handleDelete
                w now req) as [(status & msg & _ & ->) | [ctx ->]];
      [done|]. apply handleDelete_refused.
Qed.

(** X13, run: the nanny's attempt to create a token is answered 403 and
    the table of device tokens is as before. *)
Lemma X13_refused_requests_write_nothing_witness :
  deviceTokens
    (db (snd (DeviceTokens.POST Sample.rt Sample.jwt Sample.saas Sample.world
                500
                (Sample.request (Some "Bearer nanny.jwt") []
                   (JsonBody (JObj [("name", JStr "Hall")]))))))
  = [Sample.kiosk].
Proof.
  destruct (X13_refused_requests_write_nothing Sample.rt Sample.jwt
              Sample.saas Sample.world 500
              (Sample.request (Some "Bearer nanny.jwt") []
                 (JsonBody (JObj [("name", JStr "Hall")]))))
    as (_ & Hpost & _).
  destruct Hpost as [-> _]; [by vm_compute|reflexivity].
Defined.

Lemma uniqueIds_inj rows a b :
  uniqueIds rows -> In a rows -> In b rows -> dt_id a = dt_id b -> a = b.
Proof.
  unfold uniqueIds. induction rows as [|r rows IH]; simpl; [done|].
  intros Hnd. apply NoDup_cons in Hnd as [Hfresh Hnd].
  intros [<-|Ha] [<-|Hb] Hid; try done.
  - exfalso. apply Hfresh. rewrite Hid.
    apply list_elem_of_In, in_map, Hb.
  - exfalso. apply Hfresh. rewrite <- Hid.
    apply list_elem_of_In, in_map, Ha.
  - by apply IH.
Qed.

(** X14.  Revocation stays inside the family: with the primary key of
    [DeviceToken] in force, [handleDelete] called for a family changes
    no row of any other family - whatever [id] the request names - and
    within the family it changes the row with that id only, of which it
    sets [revokedAt] and nothing else. *)
Theorem X14_revocation_stays_in_the_family :
  forall (w : World) (now : Z) (req : Request) (ctx : AuthResult)
         (fid : string),
    uniqueIds (deviceTokens (db w)) ->
    familyId ctx = Some fid ->
    let w' := snd (DeviceTokens.handleDelete w now req ctx) in
    (forall t, dt_familyId t <> fid ->
               (In t (deviceTokens (db w')) <-> In t (deviceTokens (db w))))
    /\ (forall t, In t (deviceTokens (db w)) ->
                  Some (dt_id t) <> searchParam "id" (req_query req) ->
                  In t (deviceTokens (db w')))
    /\ map dt_id (deviceTokens (db w')) = map dt_id (deviceTokens (db w))
    /\ sameStore (setDb w' (setDeviceTokens (db w') []))
                 (setDb w (setDeviceTokens (db w) [])).
Proof.
  intros w now req ctx fid Huniq Hfam w'. subst w'.
  destruct (fst (DeviceTokens.handleDelete w now req ctx)) eqn:Hfst.
  2: { unfold DeviceTokens.handleDelete in Hfst.
       repeat case_match; discriminate. }
  destruct (decide (status = 200)) as [->|Hrefused].
  2: { rewrite handleDelete_refused by by rewrite Hfst. by repeat split. }
  assert (fst (DeviceTokens.handleDelete w now req ctx) = ok None) as Hok.
  { unfold DeviceTokens.handleDelete in *.
    repeat case_match; simplify_eq/=; done. }
  destruct (handleDelete_ok _ _ _ _ Hok)
    as (id & existing & Hid & _ & Hin & Hexid & Hexfam & ->).
  cbn [db setDb deviceTokens setDeviceTokens].
  rewrite Hfam in Hexfam. injection Hexfam as Hexfam.
  apply list_elem_of_In in Hin.
  split; [|split; [|split]].
  - intros t Hother. rewrite <- !list_elem_of_In, elem_of_update. split.
    + intros (y & Hy & ->). destruct (String.eqb_spec (dt_id y) id) as [Hy'|_].
      * apply list_elem_of_In in Hy.
        assert (y = existing) as -> by (apply (uniqueIds_inj _ _ _ Huniq);
                                        congruence).
        by destruct Hother.
      * done.
    + intros Ht. exists t. split; [done|].
      destruct (String.eqb_spec (dt_id t) id) as [Hy'|_]; [|done].
      apply list_elem_of_In in Ht.
      assert (t = existing) as -> by (apply (uniqueIds_inj _ _ _ Huniq);
                                      congruence).
      by destruct Hother.
  - intros t Ht Hne. apply list_elem_of_In, elem_of_update.
    exists t. split; [by apply list_elem_of_In|].
    destruct (String.eqb_spec (dt_id t) id) as [Hy'|_]; [|done].
    destruct Hne. by rewrite Hid, Hy'.
  - unfold Prisma.update. rewrite map_map. apply map_ext.
    intros t. by destruct (String.eqb _ _).
  - done.
Qed.

(** X14, run: the sample administrator revokes the kiosk token; asking
    for a token of no family of hers changes nothing. *)
Lemma X14_revocation_stays_in_the_family_witness :
  map dt_id
    (deviceTokens
       (db (snd (DeviceTokens.handleDelete Sample.world 500
                   (Sample.request (Some "Bearer admin.jwt") [("id", "dt1")]
                      NoBody)
                   (getAuthenticatedUser Sample.jwt Sample.saas Sample.world
                      500 (Sample.bearer "admin.jwt"))))))
  = ["dt1"].
Proof.
  destruct (X14_revocation_stays_in_the_family Sample.world 500
              (Sample.request (Some "Bearer admin.jwt") [("id", "dt1")] NoBody)
              (getAuthenticatedUser Sample.jwt Sample.saas Sample.world
                 500 (Sample.bearer "admin.jwt")) "fam1")
    as (_ & _ & -> & _).
  - apply NoDup_cons. split; [apply not_elem_of_nil | apply NoDup_nil_2].
  - reflexivity.
  - reflexivity.
Defined.

(** ** Device tokens: validation *)

Lemma Forall2_update {A} (P : A -> A -> Prop) where_ data_ (rows : list A) :
  (forall x, P x x) -> (forall x, P x (data_ x)) ->
  Forall2 P rows (Prisma.update where_ data_ rows).
Proof.
  intros Hrefl Hdata. unfold Prisma.update.
  induction rows as [|r rows IH]; simpl; constructor; [|exact IH].
  destruct (where_ r); auto.
Qed.

(** X15.  [validateDeviceToken] writes one stamp: the table of device
    tokens it leaves behind has, place for place, the rows it found, of
    which at most [lastUsedAt] differs and then is the instant of the
    call; nothing else of the store and nothing of the blacklist
    changes.  A token it refuses - none on record, revoked, expired -
    is refused without any write, the caretaker of every row being on
    record. *)
Theorem X15_validation_writes_one_stamp :
  forall (w w' : World) (now : Z) (token : string) (r : AuthResult),
    validateDeviceToken w now token = (r, w') ->
    Forall2 (fun t t' =>
               sameButLastUsed t t'
               /\ (dt_lastUsedAt t' = dt_lastUsedAt t
                   \/ dt_lastUsedAt t' = Some now))
      (deviceTokens (db w)) (deviceTokens (db w'))
    /\ setDeviceTokens (db w') [] = setDeviceTokens (db w) []
    /\ tokenBlacklist w' = tokenBlacklist w
    /\ drawn w' = drawn w
    /\ (caretakersPresent (db w) -> authenticated r = false -> w' = w).
Proof.
  intros w w' now token r Hval.
  assert (forall rows : list DeviceToken,
             Forall2 (fun t t' =>
                        sameButLastUsed t t'
                        /\ (dt_lastUsedAt t' = dt_lastUsedAt t
                            \/ dt_lastUsedAt t' = Some now)) rows rows) as Hsame.
  { intros rows. apply Forall_Forall2_diag, Forall_forall.
    intros t _. unfold sameButLastUsed. by repeat split; try left. }
  unfold validateDeviceToken in Hval.
  destruct (Prisma.deviceTokenByToken (db w) token) as [row|] eqn:Hrow;
    [|by injection Hval as <- <-].
  destruct (Js.isSet (dt_revokedAt row)); [by injection Hval as <- <-|].
  destruct (match dt_expiresAt row with Some _ => _ | None => _ end);
    [by injection Hval as <- <-|].
  assert (w' = setDb w (touchDeviceToken (dt_id row) now (db w))) as ->.
  { by destruct (Prisma.caretakerById _ _); injection Hval as _ <-. }
  cbn [db setDb deviceTokens touchDeviceToken setDeviceTokens
       tokenBlacklist drawn].
  split; [|split; [done|split; [done|split; [done|]]]].
  - apply Forall2_update.
    + intros t. unfold sameButLastUsed. by repeat split; try left.
    + intros t. unfold sameButLastUsed. simpl. by repeat split; try right.
  - intros Hfk Hrej. exfalso.
    apply byToken_Some in Hrow as [Hin _].
    unfold caretakersPresent in Hfk.
    rewrite Forall_forall in Hfk. destruct (Hfk _ Hin) as [c Hc].
    rewrite Hc in Hval. by injection Hval as <-.
Qed.

(** X15, run: validating the kiosk token stamps its row and nothing
    else. *)
Lemma X15_validation_writes_one_stamp_witness :
  deviceTokens (db (snd (validateDeviceToken Sample.world 700
                           Sample.kioskToken)))
  = [{| dt_id := "dt1"; dt_token := Sample.kioskToken;
        dt_name := "Kitchen Kindle";
        dt_familyId := "fam1"; dt_caretakerId := "ct1";
        dt_expiresAt := None; dt_revokedAt := None;
        dt_lastUsedAt := Some 700; dt_createdAt := 100 |}]
  /\ tokenBlacklist (snd (validateDeviceToken Sample.world 700
                            Sample.kioskToken)) = ∅.
Proof.
  split; [reflexivity|].
  destruct (validateDeviceToken Sample.world 700 Sample.kioskToken)
    as [r w'] eqn:Hval.
  destruct (X15_validation_writes_one_stamp Sample.world w' 700
              Sample.kioskToken r Hval) as (_ & _ & Hbl & _).
  simpl. rewrite Hbl. reflexivity.
Defined.

(** X16.  Listing and validation agree but at one instant: a token that
    the listing of [handleGet] shows as active is accepted by
    [validateDeviceToken] at the same instant, and a token that is
    accepted while the listing shows it as inactive expires at exactly
    that instant ([new Date() < expiresAt] in the one,
    [new Date() > expiresAt] in the other). *)
Theorem X16_listed_active_means_accepted :
  forall (w : World) (now : Z) (row : DeviceToken) (m : MaskedToken),
    Prisma.deviceTokenByToken (db w) (dt_token row) = Some row ->
    DeviceTokens.maskToken (db w) now row = Some m ->
    let r := fst (validateDeviceToken w now (dt_token row)) in
    (mt_isActive m = true -> authenticated r = true)
    /\ (authenticated r = true -> mt_isActive m = false ->
        dt_expiresAt row = Some now).
Proof.
  intros w now row m Hrow Hmask r. subst r.
  unfold validateDeviceToken. rewrite Hrow.
  unfold DeviceTokens.maskToken in Hmask.
  destruct (Prisma.caretakerById (db w) (dt_caretakerId row)) as [c|];
    [|discriminate].
  injection Hmask as <-. simpl.
  destruct (dt_revokedAt row); simpl; [by split|].
  destruct (dt_expiresAt row) as [e|]; simpl; [|by split].
  unfold Js.after.
  destruct (Z.ltb_spec e now), (Z.ltb_spec now e); simpl; split;
    try done; try lia.
  intros _ _. f_equal. lia.
Qed.

(** X16, run: at the instant 1000 of its expiry the kiosk token is
    accepted and listed as inactive. *)
Lemma X16_listed_active_means_accepted_witness :
  authenticated (fst (validateDeviceToken Expiring.world 1000
                        Sample.kioskToken)) = true
  /\ mt_isActive <$> DeviceTokens.maskToken (db Expiring.world) 1000
                       Expiring.kiosk = Some false
  /\ dt_expiresAt Expiring.kiosk = Some 1000.
Proof.
  split; [reflexivity|]. split; [reflexivity|].
  destruct (DeviceTokens.maskToken (db Expiring.world) 1000 Expiring.kiosk)
    as [m|] eqn:Hmask; [|by vm_compute in Hmask].
  apply (X16_listed_active_means_accepted Expiring.world 1000 Expiring.kiosk
           m eq_refl Hmask).
  - reflexivity.
  - vm_compute in Hmask. by injection Hmask as <-.
Defined.

(** ** The logging routes: who is written for *)

Section LoggingFacts.

Variable rt : Runtime.
Variable P : ActivityLog -> Prop.
Variable Q : SleepLog -> Prop.

Lemma loggedFor_refl w : loggedFor P Q w w.
Proof. unfold loggedFor. by repeat split; try left. Qed.

Lemma loggedFor_activity w w' row :
  createActivity rt w row = Some w' -> P row -> loggedFor P Q w w'.
Proof.
  unfold createActivity. destruct (acceptsActivity rt (db w) row); [|done].
  intros [= <-] Hrow. unfold loggedFor. simpl. repeat split.
  - intros r Hr. apply in_app_iff. by left.
  - intros r Hr. apply in_app_iff in Hr as [Hr|[<-|[]]]; [by left|by right].
  - intros s Hs _. by left.
Qed.

Lemma loggedFor_sleep w w' babyId fid type_ cid now :
  createSleep rt w babyId fid type_ cid now = Some w' ->
  (forall id, Q {| sl_id := id; sl_babyId := babyId; sl_familyId := fid;
                   sl_caretakerId := cid; sl_type := type_;
                   sl_startTime := now; sl_endTime := None;
                   sl_duration := None |}) ->
  loggedFor P Q w w'.
Proof.
  unfold createSleep. destruct (acceptsSleep rt (db w) _); [|done].
  intros [= <-] Hrow. unfold loggedFor. simpl. repeat split.
  - done.
  - intros r Hr. by left.
  - intros s Hs _. apply in_app_iff in Hs as [Hs|[<-|[]]]; [by left|by right].
Qed.

Lemma loggedFor_endSleep w id now start :
  loggedFor P Q w (endSleep w id now start).
Proof.
  unfold loggedFor, endSleep. simpl. repeat split.
  - done.
  - intros r Hr. by left.
  - intros s Hs Hopen. left.
    apply list_elem_of_In, elem_of_update in Hs as (y & Hy & ->).
    destruct (String.eqb (sl_id y) id); [discriminate|].
    by apply list_elem_of_In.
Qed.

Lemma loggedFor_after_validate w now token w' :
  loggedFor P Q (snd (validateDeviceToken w now token)) w' ->
  loggedFor P Q w w'.
Proof.
  assert (activityLogs (db (snd (validateDeviceToken w now token)))
          = activityLogs (db w)
          /\ sleepLogs (db (snd (validateDeviceToken w now token)))
             = sleepLogs (db w)) as [Ha Hs].
  { unfold validateDeviceToken. by repeat case_match. }
  unfold loggedFor. by rewrite Ha, Hs.
Qed.

End LoggingFacts.

Lemma tables_after_validate w now token :
  babies (db (snd (validateDeviceToken w now token))) = babies (db w)
  /\ medicines (db (snd (validateDeviceToken w now token)))
     = medicines (db w).
Proof. unfold validateDeviceToken. by repeat case_match. Qed.

Lemma resolveBaby_active rt d fid name baby :
  VoiceLog.resolveBaby rt d fid name = Some baby ->
  activeBabyOf d fid (baby_id baby).
Proof.
  unfold VoiceLog.resolveBaby, VoiceLog.activeBabies, Prisma.findMany,
    Prisma.findFirst.
  intros H.
  assert (In baby (List.filter (fun b => String.eqb (baby_familyId b) fid
                                         && negb (baby_inactive b))
                     (babies d))) as Hin.
  { destruct name as [name|].
    - by apply find_some in H as [H _].
    - destruct (List.filter _ _) as [|only [|]]; try discriminate.
      injection H as <-. by left. }
  apply filter_In in Hin as [Hin Hb].
  apply andb_true_iff in Hb as [Hfam Hact].
  exists baby. split; [done|]. split; [done|]. split.
  - by apply String.eqb_eq.
  - by apply negb_true_iff.
Qed.

Lemma validate_context w now token r w1 :
  validateDeviceToken w now token = (r, w1) ->
  authenticated r = true ->
  exists t, Prisma.deviceTokenByToken (db w) token = Some t
            /\ familyId r = Some (dt_familyId t)
            /\ caretakerId r = Some (dt_caretakerId t).
Proof.
  intros Hval Hauth.
  destruct (validate_accepted w now token) as (t & c & Ht & _ & Heq).
  { by rewrite Hval. }
  rewrite Heq in Hval. injection Hval as <- _. by exists t.
Qed.

(** The ranges of the resolvers of the voice route. *)
Lemma resolveSide_range rt side :
  In (VoiceLog.resolveSide rt side)
    [None; Some "LEFT"; Some "RIGHT"; Some "BOTH"].
Proof.
  unfold VoiceLog.resolveSide. repeat case_match; simpl; tauto.
Qed.

Lemma resolveDiaperType_range rt type_ :
  In (VoiceLog.resolveDiaperType rt type_) ["WET"; "DIRTY"; "BOTH"; "DRY"].
Proof.
  unfold VoiceLog.resolveDiaperType. repeat case_match; simpl; tauto.
Qed.

Lemma resolveSleepType_range rt sleepType :
  In (VoiceLog.resolveSleepType rt sleepType) ["NAP"; "NIGHT_SLEEP"].
Proof.
  unfold VoiceLog.resolveSleepType. repeat case_match; simpl; tauto.
Qed.

Lemma voice_medicine rt d fid name med :
  Prisma.findFirst (fun m => VoiceLog.sameName rt (med_name m) name)
    (VoiceLog.activeMedicines d fid) = Some med ->
  medicineOfFamily d fid (med_id med).
Proof.
  unfold Prisma.findFirst, VoiceLog.activeMedicines, Prisma.findMany.
  intros H. apply find_some in H as [Hin _].
  apply filter_In in Hin as [Hin Hm].
  apply andb_true_iff in Hm as [Hfam Hact].
  exists med. split; [done|]. split; [done|]. split; [|done].
  by apply String.eqb_eq.
Qed.

Lemma loggedFor_voice_dispatch rt d t w now body action baby :
  activeBabyOf d (dt_familyId t) (baby_id baby) ->
  medicines (db w) = medicines d ->
  loggedFor (voiceActivity d t) (voiceSleep d t) w
    (snd (VoiceLog.dispatch rt w now body action baby (dt_familyId t)
            (Some (dt_caretakerId t)))).
Proof.
  intros Hborn Hmeds.
  unfold VoiceLog.dispatch, VoiceLog.logBottle, VoiceLog.logBreast,
    VoiceLog.logDiaper, VoiceLog.logSleepStart, VoiceLog.logSleepEnd,
    VoiceLog.logMedicine, VoiceLog.crashed, VoiceLog.succeed.
  repeat case_match; simpl;
    first [ apply loggedFor_refl
          | apply loggedFor_endSleep
          | eapply loggedFor_activity; [eassumption|];
            split; [reflexivity|]; split; [exact Hborn|]
          | eapply loggedFor_sleep; [eassumption|]; intros id;
            split; [reflexivity|]; split; [reflexivity|];
            split; [exact Hborn|]; apply resolveSleepType_range ].
  all: first [ by left
             | match goal with
               | H : VoiceLog.resolveSide ?r ?x = ?v |- _ =>
                   pose proof (resolveSide_range r x) as Hr; rewrite H in Hr;
                   right; split; [reflexivity|]; split; [reflexivity|];
                   exact Hr
               end
             | apply resolveDiaperType_range
             | match goal with
               | H : Prisma.findFirst _ (VoiceLog.activeMedicines _ _) = Some _
                 |- _ => apply voice_medicine in H; cbn [voiceColumns];
                         unfold medicineOfFamily in *; rewrite <- Hmeds;
                         exact H
               end ].
Qed.

Lemma loggedFor_kindle_dispatch rt d t w now fields origin token babyId
    action out :
  KindleLog.dispatch rt w now fields origin token babyId action
    (dt_familyId t) (Some (dt_caretakerId t)) = Some out ->
  babyOfFamily d (dt_familyId t) babyId ->
  medicines (db w) = medicines d ->
  loggedFor (kindleActivity d t) (kindleSleep d t) w (snd out).
Proof.
  unfold KindleLog.dispatch. intros Hout Hborn Hmeds.
  repeat case_match; simplify_option_eq;
    first [ apply loggedFor_refl
          | apply loggedFor_endSleep
          | eapply loggedFor_activity; [eassumption|];
            split; [reflexivity|]; split; [exact Hborn|]; simpl
          | eapply loggedFor_sleep; [eassumption|]; intros id;
            split; [reflexivity|]; split; [reflexivity|]; exact Hborn ].
  all: try exact I.
  all: match goal with
       | H : Prisma.findFirst _ (medicines _) = Some ?m |- _ =>
           apply find_some in H as [Hin Hm];
           apply andb_true_iff in Hm as [Hm Hact];
           apply andb_true_iff in Hm as [Hid Hfam];
           apply String.eqb_eq in Hid, Hfam;
           exists m; rewrite <- Hmeds; by repeat split
       end.
Qed.

(** X17.  The voice route writes for the device token's family only.
    An activity row that POST /api/voice/log adds carries the [familyId]
    and the [caretakerId] of the row of the bearer token and the id of
    an active baby of that family; a feed is a 'BOTTLE' or a 'BREAST'
    with a side among LEFT, RIGHT and BOTH if any, a diaper is WET,
    DIRTY, BOTH or DRY, and a dose is of an active medicine of the
    family.  A sleep session it opens is for the same family, caretaker
    and baby, and is a NAP or a NIGHT_SLEEP.  The rows on record stay;
    and a request that is not answered with 200 leaves both tables as
    they were. *)
Theorem X17_voice_logs_for_the_family_of_the_token :
  forall (rt : Runtime) (w : World) (now : Z) (req : Request),
    let w' := snd (VoiceLog.POST rt w now req) in
    (statusOf (fst (VoiceLog.POST rt w now req)) <> 200 ->
     activityLogs (db w') = activityLogs (db w)
     /\ sleepLogs (db w') = sleepLogs (db w))
    /\ forall authHeader t,
         req_Authorization req = Some authHeader ->
         Prisma.deviceTokenByToken (db w) (Js.substringFrom 7 authHeader)
         = Some t ->
         loggedFor (voiceActivity (db w) t) (voiceSleep (db w) t) w w'.
Proof.
  intros rt w now req w'. subst w'. split.
  - unfold VoiceLog.POST.
    destruct (req_Authorization req) as [authHeader|]; [|done].
    destruct (negb (Js.startsWith authHeader "Bearer ")); [done|].
    assert (activityLogs
              (db (snd (validateDeviceToken w now
                          (Js.substringFrom 7 authHeader))))
            = activityLogs (db w)
            /\ sleepLogs
                 (db (snd (validateDeviceToken w now
                             (Js.substringFrom 7 authHeader))))
               = sleepLogs (db w)) as [Ha Hs].
    { unfold validateDeviceToken. by repeat case_match. }
    destruct (validateDeviceToken w now _) as [r w1]. simpl in Ha, Hs.
    rewrite <- Ha, <- Hs.
    unfold VoiceLog.dispatch, VoiceLog.logBottle, VoiceLog.logBreast,
      VoiceLog.logDiaper, VoiceLog.logSleepStart, VoiceLog.logSleepEnd,
      VoiceLog.logMedicine, VoiceLog.crashed, VoiceLog.succeed.
    repeat case_match; simpl; done.
  - intros authHeader t Hhdr Ht. unfold VoiceLog.POST. rewrite Hhdr.
    destruct (negb (Js.startsWith authHeader "Bearer "));
      [apply loggedFor_refl|].
    apply (loggedFor_after_validate _ _ w now
             (Js.substringFrom 7 authHeader)).
    destruct (tables_after_validate w now (Js.substringFrom 7 authHeader))
      as [Hbabies Hmeds].
    destruct (validateDeviceToken w now _) as [r w1] eqn:Hval.
    simpl in Hbabies, Hmeds. cbn [snd].
    destruct (authenticated r) eqn:Hauth; [|apply loggedFor_refl].
    destruct (validate_context _ _ _ _ _ Hval Hauth) as (t' & Ht' & Hf & Hc).
    rewrite Ht in Ht'. injection Ht' as <-. rewrite Hf, Hc.
    cbn [negb orb Js.truthyO default].
    destruct (negb (Js.truthy (dt_familyId t))); [apply loggedFor_refl|].
    destruct (jsonBody req) as [body|]; [|apply loggedFor_refl].
    destruct (negb (jsonTruthy _)); [apply loggedFor_refl|].
    destruct (VoiceLog.arg (field body "babyName")) eqn:Hname;
      try apply loggedFor_refl; cbv beta iota zeta.
    + destruct (VoiceLog.resolveBaby _ _ _) as [baby|] eqn:Hbaby;
        [|apply loggedFor_refl].
      destruct (VoiceLog.arg (field body "action"));
        try apply loggedFor_refl.
      apply loggedFor_voice_dispatch; [|done].
      apply resolveBaby_active in Hbaby.
      unfold activeBabyOf in *. by rewrite <- Hbabies.
    + destruct (VoiceLog.resolveBaby _ _ _) as [baby|] eqn:Hbaby;
        [|apply loggedFor_refl].
      destruct (VoiceLog.arg (field body "action"));
        try apply loggedFor_refl.
      apply loggedFor_voice_dispatch; [|done].
      apply resolveBaby_active in Hbaby.
      unfold activeBabyOf in *. by rewrite <- Hbabies.
Qed.

(** X17, run: the kiosk logs a diaper by voice, the type spoken as
    ' Poop '; the row is Charlotte's, of the sample family, by the
    caretaker of the token, and DIRTY. *)
Lemma X17_voice_logs_for_the_family_of_the_token_witness :
  Forall (fun row => writtenFor row = ("fam1", Some "ct1")
                     /\ babyOf row = "b1")
    (activityLogs
       (db (snd (VoiceLog.POST Sample.rt Sample.world 500
                   (Sample.request
                      (Some ("Bearer " ++ Sample.kioskToken)) []
                      (JsonBody (JObj [("action", JStr "diaper");
                                       ("type", JStr " Poop ")])))))))
  /\ activityLogs
       (db (snd (VoiceLog.POST Sample.rt Sample.world 500
                   (Sample.request
                      (Some ("Bearer " ++ Sample.kioskToken)) []
                      (JsonBody (JObj [("action", JStr "diaper");
                                       ("type", JStr " Poop ")]))))))
     = [DiaperLog "b1" 500 "DIRTY" (Some "ct1") "fam1"].
Proof.
  split; [|reflexivity].
  apply Forall_forall. intros row Hin. apply list_elem_of_In in Hin.
  destruct (X17_voice_logs_for_the_family_of_the_token Sample.rt Sample.world
              500
              (Sample.request (Some ("Bearer " ++ Sample.kioskToken)) []
                 (JsonBody (JObj [("action", JStr "diaper");
                                  ("type", JStr " Poop ")]))))
    as [_ Hlogged].
  destruct (Hlogged _ Sample.kiosk eq_refl eq_refl) as (_ & Hnew & _).
  destruct (Hnew row Hin) as [[]|(Hfor & (baby & [<-|[]] & <- & _) & _)].
  by split.
Defined.
(** X18.  The kiosk form writes for the device token's family only.
    An activity row that POST /api/kindle/log adds, and a sleep session
    it opens, carries the [familyId] and the [caretakerId] of the row of
    the posted token and the id of a baby of that family, and a dose is
    of an active medicine of the family; the rows on record stay. *)
Theorem X18_kindle_logs_for_the_family_of_the_token :
  forall (rt : Runtime) (w : World) (now : Z) (req : Request)
         (fields : list (string * string)) (token : string)
         (t : DeviceToken),
    req_body req = FormBody fields ->
    KindleLog.formField fields "token" = Some token ->
    Prisma.deviceTokenByToken (db w) token = Some t ->
    loggedFor (kindleActivity (db w) t) (kindleSleep (db w) t) w
      (snd (KindleLog.POST rt w now req)).
Proof.
  intros rt w now req fields token t Hbody Htoken Ht. unfold KindleLog.POST.
  rewrite Hbody, Htoken. cbn [Js.orElse].
  destruct (Js.truthy token) eqn:Htruthy; [|apply loggedFor_refl].
  rewrite Htruthy. cbn [negb].
  apply (loggedFor_after_validate _ _ w now token).
  destruct (tables_after_validate w now token) as [Hbabies Hmeds].
  destruct (validateDeviceToken w now token) as [r w1] eqn:Hval.
  simpl in Hbabies, Hmeds. cbn [snd].
  destruct (authenticated r) eqn:Hauth; [|apply loggedFor_refl].
  destruct (validate_context _ _ _ _ _ Hval Hauth) as (t' & Ht' & Hf & Hc).
  rewrite Ht in Ht'. injection Ht' as <-. rewrite Hf, Hc.
  cbn [negb orb Js.truthyO default].
  destruct (negb (Js.truthy (dt_familyId t))); [apply loggedFor_refl|].
  destruct (KindleLog.formField fields "babyId") as [babyId|];
    [|apply loggedFor_refl].
  destruct (Prisma.findFirst _ _) as [baby|] eqn:Hbaby;
    [|apply loggedFor_refl].
  destruct (KindleLog.dispatch _ _ _ _ _ _ _ _ _ _) as [out|] eqn:Hout;
    [|apply loggedFor_refl].
  eapply (loggedFor_kindle_dispatch rt); [exact Hout| |done].
  apply find_some in Hbaby as [Hin Hmatch].
  apply andb_true_iff in Hmatch as [Hid Hfam].
  apply String.eqb_eq in Hid, Hfam.
  exists baby. by rewrite <- Hbabies.
Qed.

(** X18, run: the kiosk posts a diaper for Charlotte; the row is of the
    sample family, by the caretaker of the token. *)
Lemma X18_kindle_logs_for_the_family_of_the_token_witness :
  Forall (fun row => writtenFor row = ("fam1", Some "ct1"))
    (activityLogs
       (db (snd (KindleLog.POST Sample.rt Sample.world 500
                   (Sample.request None []
                      (FormBody [("token", Sample.kioskToken);
                                 ("action", "diaper");
                                 ("babyId", "b1")]))))))
  /\ activityLogs
       (db (snd (KindleLog.POST Sample.rt Sample.world 500
                   (Sample.request None []
                      (FormBody [("token", Sample.kioskToken);
                                 ("action", "diaper");
                                 ("babyId", "b1")])))))
     = [DiaperLog "b1" 500 "WET" (Some "ct1") "fam1"].
Proof.
  split; [|reflexivity].
  destruct (X18_kindle_logs_for_the_family_of_the_token Sample.rt
              Sample.world 500
              (Sample.request None []
                 (FormBody [("token", Sample.kioskToken);
                            ("action", "diaper"); ("babyId", "b1")]))
              _ _ Sample.kiosk eq_refl eq_refl eq_refl)
    as (_ & Hnew & _).
  apply Forall_forall. intros row Hin. apply list_elem_of_In in Hin.
  by destruct (Hnew row Hin) as [[]|[Hfor _]].
Defined.

(** ** What no entry point writes *)

Section KeepFacts.

Variable rt : Runtime.
Variable jwt : JwtLib.
Variable env : Env.

Lemma keeps_refl w : keeps w w.
Proof. by repeat split. Qed.

Lemma keeps_trans w1 w2 w3 : keeps w1 w2 -> keeps w2 w3 -> keeps w1 w3.
Proof.
  unfold keeps. intros (?&?&?&?&?&?&?) (?&?&?&?&?&?&?).
  repeat split; congruence.
Qed.

Lemma keeps_validate w now token :
  keeps w (snd (validateDeviceToken w now token)).
Proof. unfold validateDeviceToken. repeat case_match; by repeat split. Qed.

Lemma keeps_withAuthContext {T} (h : ContextHandler T) w now req :
  (forall ctx, keeps w (snd (h w now req ctx))) ->
  keeps w (snd (withAuthContext jwt env h w now req)).
Proof.
  intros Hh.
  destruct (withAuthContext_cases jwt env h w now req)
    as [(status & msg & _ & ->) | [ctx ->]]; [apply keeps_refl | apply Hh].
Qed.

Lemma keeps_handlePost w now req ctx :
  keeps w (snd (DeviceTokens.handlePost rt w now req ctx)).
Proof.
  unfold DeviceTokens.handlePost, DeviceTokens.createDeviceToken.
  repeat case_match; simplify_eq; by repeat split.
Qed.

Lemma keeps_handleDelete w now req ctx :
  keeps w (snd (DeviceTokens.handleDelete w now req ctx)).
Proof.
  unfold DeviceTokens.handleDelete. repeat case_match; by repeat split.
Qed.

Lemma keeps_magicLink w now req :
  keeps w (snd (MagicLink.POST jwt env w now req)).
Proof.
  unfold MagicLink.POST.
  destruct (jsonBody req) as [body|]; [|apply keeps_refl].
  destruct (field body "token") as [[]|]; try apply keeps_refl.
  destruct (negb (Js.truthy _)); [apply keeps_refl|].
  pose proof (keeps_validate w now s) as Hval.
  destruct (validateDeviceToken w now s) as [r w1].
  by destruct (_ || _).
Qed.

Lemma keeps_activity w w' row :
  createActivity rt w row = Some w' -> keeps w w'.
Proof.
  unfold createActivity. destruct (acceptsActivity _ _ _); [|done].
  intros [= <-]. by repeat split.
Qed.

Lemma keeps_sleep w w' babyId fid type_ cid now :
  createSleep rt w babyId fid type_ cid now = Some w' -> keeps w w'.
Proof.
  unfold createSleep. destruct (acceptsSleep _ _ _); [|done].
  intros [= <-]. by repeat split.
Qed.

Lemma keeps_endSleep w id now start : keeps w (endSleep w id now start).
Proof. by repeat split. Qed.

Lemma keeps_voice_dispatch w now body action baby fid cid :
  keeps w (snd (VoiceLog.dispatch rt w now body action baby fid cid)).
Proof.
  unfold VoiceLog.dispatch, VoiceLog.logBottle, VoiceLog.logBreast,
    VoiceLog.logDiaper, VoiceLog.logSleepStart, VoiceLog.logSleepEnd,
    VoiceLog.logMedicine, VoiceLog.crashed, VoiceLog.succeed.
  repeat case_match; simpl;
    first [ apply keeps_refl | apply keeps_endSleep
          | by eapply keeps_activity | by eapply keeps_sleep ].
Qed.

Lemma keeps_voice w now req :
  keeps w (snd (VoiceLog.POST rt w now req)).
Proof.
  unfold VoiceLog.POST.
  destruct (req_Authorization req) as [authHeader|]; [|apply keeps_refl].
  destruct (negb (Js.startsWith _ _)); [apply keeps_refl|].
  pose proof (keeps_validate w now (Js.substringFrom 7 authHeader)) as Hval.
  destruct (validateDeviceToken w now _) as [r w1]. simpl in Hval.
  apply (keeps_trans _ _ _ Hval).
  repeat case_match; first [ apply keeps_refl | apply keeps_voice_dispatch ].
Qed.

Lemma keeps_kindle_dispatch w now fields origin token babyId action fid cid
    out :
  KindleLog.dispatch rt w now fields origin token babyId action fid cid
  = Some out ->
  keeps w (snd out).
Proof.
  unfold KindleLog.dispatch. intros Hout.
  repeat case_match; simplify_option_eq;
    first [ apply keeps_refl | apply keeps_endSleep
          | by eapply keeps_activity | by eapply keeps_sleep ].
Qed.

Lemma keeps_kindle w now req :
  keeps w (snd (KindleLog.POST rt w now req)).
Proof.
  unfold KindleLog.POST.
  destruct (req_body req) as [| |fields]; try apply keeps_refl.
  destruct (negb (Js.truthy _)); [apply keeps_refl|].
  pose proof (keeps_validate w now
                (Js.orElse (KindleLog.formField fields "token") "")) as Hval.
  destruct (validateDeviceToken w now _) as [r w1]. simpl in Hval.
  apply (keeps_trans _ _ _ Hval).
  repeat case_match; subst;
    first [ apply keeps_refl | by eapply keeps_kindle_dispatch ].
Qed.

Lemma keeps_exec w c : keeps w (exec rt jwt env w c).
Proof.
  destruct c as [now|token|now token|[] now req|now req|now req|now req];
    simpl.
  - by repeat split.
  - unfold invalidateToken. repeat case_match; by repeat split.
  - apply keeps_validate.
  - apply keeps_withAuthContext. intros ctx. rewrite handleGet_reads.
    apply keeps_refl.
  - apply keeps_withAuthContext, keeps_handlePost.
  - apply keeps_withAuthContext, keeps_handleDelete.
  - apply keeps_magicLink.
  - apply keeps_voice.
  - apply keeps_kindle.
Qed.

Lemma keeps_run calls w : keeps w (run rt jwt env calls w).
Proof.
  revert w. induction calls as [|c calls IH]; intros w; [apply keeps_refl|].
  simpl. eapply keeps_trans; [apply keeps_exec | apply IH].
Qed.

(** The resolver reads the blacklist, the accounts, the families and
    the caretakers, and nothing else. *)
Lemma resolve_keeps w w' now req :
  keeps w w' ->
  (forall token, bearerToken req = Some token ->
                 is_Some (tokenBlacklist w' !! token)
                 <-> is_Some (tokenBlacklist w !! token)) ->
  resolve jwt env w' now req = resolve jwt env w now req.
Proof.
  intros (Hacc & Hfam & Hct & _) Hbl.
  assert (forall token,
             resolveAccountToken env (db w') now token
             = resolveAccountToken env (db w) now token) as Haccount.
  { intros token.
    unfold resolveAccountToken, Prisma.accountById, Prisma.familyOf,
      Prisma.caretakerOf, Prisma.familyById, Prisma.caretakerById.
    by rewrite Hacc, Hfam, Hct. }
  assert (forall token,
             resolveRegularToken env (db w') now token
             = resolveRegularToken env (db w) now token) as Hregular.
  { intros token.
    unfold resolveRegularToken, Prisma.familyOf, Prisma.accountOfFamily,
      Prisma.familyById.
    by rewrite Hacc, Hfam. }
  assert (resolveLegacy env (db w') now req = resolveLegacy env (db w) now req)
    as Hlegacy.
  { unfold resolveLegacy, resolveCookie, Prisma.familyOf,
      Prisma.accountOfFamily, Prisma.familyById.
    by rewrite Hacc, Hfam, Hct. }
  unfold resolve. rewrite Hlegacy.
  destruct (bearerToken req) as [token|] eqn:Htoken; [|done].
  destruct (Js.truthy token); [|done].
  unfold resolveBearer.
  rewrite (bool_decide_ext _ _ (Hbl token eq_refl)).
  destruct (bool_decide _); [done|].
  destruct (jwt_verify _ _ _ _) as [decoded|]; [|done].
  by rewrite Haccount, Hregular.
Qed.

End KeepFacts.

(** X19.  No entry point at hand writes an account, a family, a
    caretaker, a family setup, a baby, a medicine or a setting: after
    any sequence of timer ticks, invalidations, validations and
    requests to the five routes these tables are as they were.  So who
    a request is resolved to changes through the blacklist only:
    [getAuthenticatedUser] gives the result it gave before whenever the
    bearer token, if any, is blacklisted after the calls exactly if it
    was before. *)
Theorem X19_sessions_are_stable_under_the_routes :
  forall (rt : Runtime) (jwt : JwtLib) (env : Env) (calls : list Call)
         (w : World) (now : Z) (req : Request),
    let w' := run rt jwt env calls w in
    keeps w w'
    /\ ((forall token,
            bearerToken req = Some token ->
            is_Some (tokenBlacklist w' !! token)
            <-> is_Some (tokenBlacklist w !! token)) ->
        getAuthenticatedUser jwt env w' now req
        = getAuthenticatedUser jwt env w now req).
Proof.
  intros rt jwt env calls w now req w'. subst w'.
  pose proof (keeps_run rt jwt env calls w) as Hkeeps.
  split; [exact Hkeeps|].
  intros Hbl. unfold getAuthenticatedUser.
  by rewrite (resolve_keeps jwt env _ _ now req Hkeeps Hbl).
Qed.

(** X19, run: the nanny is still who she was after the administrator
    created a token, the kiosk logged a diaper and the administrator
    logged out. *)
Lemma X19_sessions_are_stable_under_the_routes_witness :
  getAuthenticatedUser Sample.jwt Sample.saas
    (run Sample.rt Sample.jwt Sample.saas
       [DeviceTokensCall MPost 500
          (Sample.request (Some "Bearer admin.jwt") []
             (JsonBody (JObj [("name", JStr "Hall")])));
        KindleLogCall 600
          (Sample.request None []
             (FormBody [("token", Sample.kioskToken); ("action", "diaper");
                        ("babyId", "b1")]));
        Invalidate "admin.jwt"]
       Sample.world)
    700 (Sample.bearer "nanny.jwt")
  = getAuthenticatedUser Sample.jwt Sample.saas Sample.world 700
      (Sample.bearer "nanny.jwt").
Proof.
  apply (X19_sessions_are_stable_under_the_routes Sample.rt Sample.jwt
           Sample.saas).
  intros token [= <-]. by vm_compute.
Defined.

(** ** Waking up *)

Section WakeFacts.

#[local] Existing Instance VoiceLog.latestFirst_dec.

#[local] Instance latestFirst_total : Total VoiceLog.latestFirst.
Proof. intros a b. unfold VoiceLog.latestFirst. lia. Qed.

#[local] Instance latestFirst_trans : Transitive VoiceLog.latestFirst.
Proof. intros a b c. unfold VoiceLog.latestFirst. lia. Qed.

Lemma open_filter babyId fid s :
  String.eqb (sl_babyId s) babyId && String.eqb (sl_familyId s) fid
  && negb (Js.isSet (sl_endTime s)) = true
  <-> openFor babyId fid s.
Proof.
  unfold openFor. rewrite !andb_true_iff, !String.eqb_eq.
  destruct (sl_endTime s); simpl; intuition congruence.
Qed.

Lemma activeSleep_None d babyId fid :
  VoiceLog.activeSleep d babyId fid = None <->
  forall s, In s (sleepLogs d) -> ~ openFor babyId fid s.
Proof.
  unfold VoiceLog.activeSleep, Prisma.findMany.
  set (p := fun s => _ && _ && _).
  set (sorted := merge_sort _ _).
  assert (forall s, In s sorted <-> In s (sleepLogs d) /\ openFor babyId fid s)
    as Hin.
  { intros s. unfold sorted.
    rewrite <- (list_elem_of_In (merge_sort _ _) s), merge_sort_Permutation.
    rewrite list_elem_of_In, filter_In. unfold p. by rewrite open_filter. }
  destruct sorted as [|latest rest]; simpl; split; try done.
  - intros _ s Hs Hopen. by apply (proj2 (Hin s)).
  - intros Hnone. exfalso.
    destruct (proj1 (Hin latest) (or_introl eq_refl)) as [Hl Hopen].
    by apply (Hnone latest).
Qed.

Lemma activeSleep_Some d babyId fid latest :
  VoiceLog.activeSleep d babyId fid = Some latest ->
  In latest (sleepLogs d) /\ openFor babyId fid latest
  /\ forall s, In s (sleepLogs d) -> openFor babyId fid s ->
               sl_startTime s <= sl_startTime latest.
Proof.
  unfold VoiceLog.activeSleep, Prisma.findMany.
  set (p := fun s => _ && _ && _).
  pose proof (StronglySorted_merge_sort VoiceLog.latestFirst
                (List.filter p (sleepLogs d))) as Hsorted.
  assert (forall s, In s (merge_sort VoiceLog.latestFirst
                            (List.filter p (sleepLogs d)))
                    <-> In s (sleepLogs d) /\ openFor babyId fid s) as Hin.
  { intros s.
    rewrite <- (list_elem_of_In (merge_sort _ _) s), merge_sort_Permutation.
    rewrite list_elem_of_In, filter_In. unfold p. by rewrite open_filter. }
  destruct (merge_sort _ _) as [|first rest]; [done|].
  intros [= ->].
  destruct (proj1 (Hin latest) (or_introl eq_refl)) as [Hl Hopen].
  split; [done|]. split; [done|].
  intros s Hs Hso.
  destruct (proj2 (Hin s) (conj Hs Hso)) as [<-|Hrest]; [lia|].
  apply StronglySorted_inv in Hsorted as [_ Hall].
  rewrite Forall_forall in Hall.
  by apply Hall, list_elem_of_In.
Qed.

Lemma durationMinutes_round now start :
  -30000 <= (now - start) - 60000 * durationMinutes now start < 30000.
Proof.
  unfold durationMinutes.
  pose proof (Z.div_mod (now - start + 30000) 60000 ltac:(lia)).
  pose proof (Z.mod_pos_bound (now - start + 30000) 60000 ltac:(lia)).
  lia.
Qed.

End WakeFacts.

(** X20.  Waking up by voice ends the session that began last: when the
    baby has no open sleep session in the family [logSleepEnd] answers
    400 and writes nothing; otherwise it answers 200 and closes the
    open session with the greatest [startTime] - its [endTime] becomes
    the instant of the call and its [duration] the elapsed time in
    minutes, rounded to the nearest minute - and leaves every session
    with another id as it was. *)
Theorem X20_waking_ends_the_latest_session :
  forall (rt : Runtime) (w : World) (now : Z) (baby : Baby) (fid : string),
    let out := VoiceLog.logSleepEnd rt w now baby fid in
    ((forall s, In s (sleepLogs (db w)) -> ~ openFor (baby_id baby) fid s) ->
     out = (failure 400
              ("No active sleep session found for " ++ baby_firstName baby),
            w))
    /\ forall s,
         In s (sleepLogs (db w)) -> openFor (baby_id baby) fid s ->
         exists latest,
           In latest (sleepLogs (db w))
           /\ openFor (baby_id baby) fid latest
           /\ (forall s', In s' (sleepLogs (db w)) ->
                          openFor (baby_id baby) fid s' ->
                          sl_startTime s' <= sl_startTime latest)
           /\ statusOf (fst out) = 200
           /\ (forall s', In s' (sleepLogs (db (snd out))) ->
                          sl_id s' = sl_id latest ->
                          sl_endTime s' = Some now
                          /\ exists minutes,
                               sl_duration s' = Some minutes
                               /\ -30000
                                  <= (now - sl_startTime latest)
                                     - 60000 * minutes < 30000)
           /\ (forall s', In s' (sleepLogs (db w)) ->
                          sl_id s' <> sl_id latest ->
                          In s' (sleepLogs (db (snd out)))).
Proof.
  intros rt w now baby fid out. subst out. unfold VoiceLog.logSleepEnd.
  split.
  - intros Hnone. apply activeSleep_None in Hnone. by rewrite Hnone.
  - intros s Hs Hopen.
    destruct (VoiceLog.activeSleep (db w) (baby_id baby) fid)
      as [latest|] eqn:Hact.
    2: { by destruct (proj1 (activeSleep_None _ _ _) Hact s Hs). }
    destruct (activeSleep_Some _ _ _ _ Hact) as (Hin & Hlo & Hmax).
    exists latest. do 3 (split; [done|]). split; [done|].
    unfold endSleep. simpl. split.
    + intros s' Hs' Hid.
      apply list_elem_of_In, elem_of_update in Hs' as (y & Hy & ->).
      destruct (String.eqb_spec (sl_id y) (sl_id latest)) as [_|Hne];
        [|done].
      simpl. split; [done|]. eexists. split; [done|].
      apply durationMinutes_round.
    + intros s' Hs' Hid. apply list_elem_of_In, elem_of_update.
      exists s'. split; [by apply list_elem_of_In|].
      by destruct (String.eqb_spec (sl_id s') (sl_id latest)).
Qed.

(** X20, run: of Charlotte's two open sessions the one begun at 300 is
    closed, after 45 minutes; the one begun at 100 stays open. *)
Lemma X20_waking_ends_the_latest_session_witness :
  sleepLogs (db (snd (VoiceLog.logSleepEnd Sample.rt Nursery.world 2700300
                        Nursery.charlotte "fam1")))
  = [Nursery.session "s1" 100;
     {| sl_id := "s2"; sl_babyId := "b1"; sl_familyId := "fam1";
        sl_caretakerId := Some "ct1"; sl_type := "NAP";
        sl_startTime := 300; sl_endTime := Some 2700300;
        sl_duration := Some 45 |}]
  /\ exists latest,
       sl_startTime latest = 300
       /\ In latest (sleepLogs (db Nursery.world)).
Proof.
  split; [reflexivity|].
  destruct (X20_waking_ends_the_latest_session Sample.rt Nursery.world
              2700300 Nursery.charlotte "fam1") as [_ Hwake].
  destruct (Hwake (Nursery.session "s2" 300))
    as (latest & Hin & _ & Hmax & _).
  - right. by left.
  - by repeat split.
  - exists latest. split; [|done].
    assert (300 <= sl_startTime latest) as Hlow.
    { apply (Hmax (Nursery.session "s2" 300)); [right; by left|].
      by repeat split. }
    destruct Hin as [<-|[<-|[]]]; [simpl in Hlow; lia | reflexivity].
Defined.

(** ** The device-token table along a run *)

Lemma update_identity where_ data_ rows :
  (forall t, tokenIdentity (data_ t) = tokenIdentity t) ->
  map tokenIdentity (Prisma.update where_ data_ rows)
  = map tokenIdentity rows.
Proof.
  intros Hsame. unfold Prisma.update. rewrite map_map. apply map_ext.
  intros t. destruct (where_ t); [apply Hsame | reflexivity].
Qed.

Lemma identity_step rows e :
  exists added,
    map tokenIdentity (tokenStep rows e)
    = (map tokenIdentity rows ++ added)%list.
Proof.
  destruct e as [id now|id now|row]; simpl.
  - exists []. by rewrite app_nil_r, update_identity.
  - exists []. by rewrite app_nil_r, update_identity.
  - destruct (_ && _).
    + exists [tokenIdentity row]. by rewrite map_app.
    + exists []. by rewrite app_nil_r.
Qed.

Lemma identity_tokenRun events rows :
  exists added,
    map tokenIdentity (tokenRun events rows)
    = (map tokenIdentity rows ++ added)%list.
Proof.
  revert rows. induction events as [|e events IH]; intros rows; simpl.
  - exists []. by rewrite app_nil_r.
  - destruct (IH (tokenStep rows e)) as [a2 ->].
    destruct (identity_step rows e) as [a1 ->].
    exists (a1 ++ a2)%list. by rewrite app_assoc.
Qed.

Lemma uniqueIds_step rows e :
  uniqueIds rows -> uniqueIds (tokenStep rows e).
Proof.
  unfold uniqueIds. intros H.
  assert (forall where_ data_,
             (forall t : DeviceToken, dt_id (data_ t) = dt_id t) ->
             map dt_id (Prisma.update where_ data_ rows) = map dt_id rows)
    as Hupd.
  { intros where_ data_ Hsame. unfold Prisma.update. rewrite map_map.
    apply map_ext. intros t. destruct (where_ t); [apply Hsame | done]. }
  destruct e as [id now|id now|row]; simpl.
  - by rewrite Hupd.
  - by rewrite Hupd.
  - destruct (_ && negb (existsb _ rows)) eqn:Hfresh; [|exact H].
    apply andb_true_iff in Hfresh as [_ Hfresh].
    apply negb_true_iff in Hfresh.
    rewrite map_app. simpl. apply NoDup_app. split; [exact H|]. split.
    + intros id Hin Hrow. apply list_elem_of_singleton in Hrow as ->.
      apply list_elem_of_In, in_map_iff in Hin as (t & Ht & Hin).
      assert (existsb (fun t => String.eqb (dt_id t) (dt_id row)) rows
              = true) as Habs; [|congruence].
      apply existsb_exists. exists t. split; [done|]. by apply String.eqb_eq.
    + apply NoDup_singleton.
Qed.

(** X21.  The constraints of the [DeviceToken] migration are invariants
    of the entry points, and the table only grows: after any sequence of
    timer ticks, invalidations, validations and requests to the five
    routes the tokens are still pairwise different if they were, so are
    the ids, every row still names a caretaker on record if every row
    did, and the rows that were there are there still, in their places,
    with the id, the token, the family and the caretaker they had. *)
Theorem X21_token_table_invariants :
  forall (rt : Runtime) (jwt : JwtLib) (env : Env) (calls : list Call)
         (w : World),
    let w' := run rt jwt env calls w in
    (uniqueTokens (deviceTokens (db w)) -> uniqueTokens (deviceTokens (db w')))
    /\ (uniqueIds (deviceTokens (db w)) -> uniqueIds (deviceTokens (db w')))
    /\ (caretakersPresent (db w) -> caretakersPresent (db w'))
    /\ exists added,
         map tokenIdentity (deviceTokens (db w'))
         = (map tokenIdentity (deviceTokens (db w)) ++ added)%list.
Proof.
  intros rt jwt env calls w w'. subst w'.
  split; [apply uniqueTokens_run|].
  split; [|split; [apply caretakersPresent_run|]].
  - intros H. destruct (run_tokens rt jwt env calls w) as [events ->].
    revert H. generalize (deviceTokens (db w)).
    induction events as [|e events IH]; intros rows H; [exact H|].
    simpl. by apply IH, uniqueIds_step.
  - destruct (run_tokens rt jwt env calls w) as [events ->].
    apply identity_tokenRun.
Qed.

(** X21, run: the administrator creates a token, the kiosk uses its
    own, the administrator revokes it; the ids are pairwise different
    and the kiosk's row is still the first. *)
Lemma X21_token_table_invariants_witness :
  uniqueIds
    (deviceTokens
       (db (run Sample.rt Sample.jwt Sample.saas
              [DeviceTokensCall MPost 500
                 (Sample.request (Some "Bearer admin.jwt") []
                    (JsonBody (JObj [("name", JStr "Hall")])));
               Validate 600 Sample.kioskToken;
               DeviceTokensCall MDelete 700
                 (Sample.request (Some "Bearer admin.jwt") [("id", "dt1")]
                    NoBody)]
              Sample.world)))
  /\ map dt_id
       (deviceTokens
          (db (run Sample.rt Sample.jwt Sample.saas
                 [DeviceTokensCall MPost 500
                    (Sample.request (Some "Bearer admin.jwt") []
                       (JsonBody (JObj [("name", JStr "Hall")])));
                  Validate 600 Sample.kioskToken;
                  DeviceTokensCall MDelete 700
                    (Sample.request (Some "Bearer admin.jwt") [("id", "dt1")]
                       NoBody)]
                 Sample.world)))
     = ["dt1"; "b-key"].
Proof.
  split; [|reflexivity].
  apply (X21_token_table_invariants Sample.rt Sample.jwt Sample.saas).
  apply NoDup_cons. split; [apply not_elem_of_nil | apply NoDup_nil_2].
Defined.

(** ** The helpers of the kiosk page *)

(** X22.  [timeAgo] in terms of the elapsed milliseconds: under a
    minute - and for an instant that lies ahead - it reads 'just now';
    under an hour it counts the full minutes; under a day the full
    hours and the full minutes beyond them, which it leaves out when
    there are none; from a day on the full days, a day being
    86 400 000 ms. *)
Theorem X22_timeAgo_counts_full_units :
  forall (now then_ : Z),
    let elapsed := now - then_ in
    (elapsed < 60000 -> KindlePage.timeAgo now then_ = "just now")
    /\ (60000 <= elapsed < 3600000 ->
        exists m,
          1 <= m < 60 /\ 60000 * m <= elapsed < 60000 * (m + 1)
          /\ KindlePage.timeAgo now then_ = KindlePage.showInt m ++ "m ago")
    /\ (3600000 <= elapsed < 86400000 ->
        exists h m,
          1 <= h < 24 /\ 0 <= m < 60
          /\ 60000 * (60 * h + m) <= elapsed < 60000 * (60 * h + m + 1)
          /\ KindlePage.timeAgo now then_
             = if m =? 0 then KindlePage.showInt h ++ "h ago"
               else KindlePage.showInt h ++ "h " ++ KindlePage.showInt m
                    ++ "m ago")
    /\ (86400000 <= elapsed ->
        exists d,
          1 <= d /\ 86400000 * d <= elapsed < 86400000 * (d + 1)
          /\ KindlePage.timeAgo now then_ = KindlePage.showInt d ++ "d ago").
Proof.
  intros now then_ elapsed. unfold KindlePage.timeAgo. fold elapsed.
  generalize elapsed. clear. intros e.
  repeat split.
  - intros H. destruct (Z.ltb_spec (e / 60000) 1) as [_|Hge]; [done|].
    exfalso. Z.to_euclidean_division_equations. lia.
  - intros H. exists (e / 60000).
    destruct (Z.ltb_spec (e / 60000) 1) as [Hlt|_];
      [exfalso; Z.to_euclidean_division_equations; lia|].
    destruct (Z.ltb_spec (e / 60000) 60) as [_|Hge];
      [|exfalso; Z.to_euclidean_division_equations; lia].
    repeat split; try done; Z.to_euclidean_division_equations; lia.
  - intros H. exists (e / 60000 / 60), (Z.rem (e / 60000) 60).
    destruct (Z.ltb_spec (e / 60000) 1) as [Hlt|_];
      [exfalso; Z.to_euclidean_division_equations; lia|].
    destruct (Z.ltb_spec (e / 60000) 60) as [Hlt|_];
      [exfalso; Z.to_euclidean_division_equations; lia|].
    destruct (Z.ltb_spec (e / 60000 / 60) 24) as [_|Hge];
      [|exfalso; Z.to_euclidean_division_equations; lia].
    assert (0 <= Z.rem (e / 60000) 60 < 60) as Hrem.
    { Z.to_euclidean_division_equations. lia. }
    split; [Z.to_euclidean_division_equations; lia|].
    split; [done|].
    split; [Z.to_euclidean_division_equations; lia|].
    destruct (Z.ltb_spec 0 (Z.rem (e / 60000) 60)),
      (Z.eqb_spec (Z.rem (e / 60000) 60) 0); try done; lia.
  - intros H. exists (e / 60000 / 60 / 24).
    destruct (Z.ltb_spec (e / 60000) 1) as [Hlt|_];
      [exfalso; Z.to_euclidean_division_equations; lia|].
    destruct (Z.ltb_spec (e / 60000) 60) as [Hlt|_];
      [exfalso; Z.to_euclidean_division_equations; lia|].
    destruct (Z.ltb_spec (e / 60000 / 60) 24) as [Hlt|_];
      [exfalso; Z.to_euclidean_division_equations; lia|].
    repeat split; try done; Z.to_euclidean_division_equations; lia.
Qed.

(** X22, run: two hours and a second read '2h ago', a second before
    three days '2d ago', and a feed that lies ahead 'just now'. *)
Lemma X22_timeAgo_counts_full_units_witness :
  KindlePage.timeAgo 7201000 0 = "2h ago"
  /\ KindlePage.timeAgo 259199000 0 = "2d ago"
  /\ KindlePage.timeAgo 0 5000 = "just now".
Proof.
  split; [reflexivity|]. split; [reflexivity|].
  apply (X22_timeAgo_counts_full_units 0 5000). simpl. lia.
Defined.

Lemma clockReadings_spec h m :
  0 <= h < 24 -> 0 <= m < 60 -> In (h, m) clockReadings.
Proof.
  intros Hh Hm. apply in_prod; apply in_map_iff.
  - exists (Z.to_nat h). split; [lia|]. apply in_seq. lia.
  - exists (Z.to_nat m). split; [lia|]. apply in_seq. lia.
Qed.

Lemma unambiguous_spec readings p q :
  unambiguous readings = true ->
  In p readings -> In q readings ->
  KindlePage.formatTime (fst p) (snd p) = KindlePage.formatTime (fst q) (snd q) ->
  p = q.
Proof.
  unfold unambiguous. cbv zeta. intros Hall Hp Hq Heq.
  assert (forall r, In r readings ->
                    In (KindlePage.formatTime (fst r) (snd r), r)
                      (map (fun p => (KindlePage.formatTime (fst p) (snd p), p))
                         readings)) as Hshown.
  { intros r Hr. apply in_map_iff. by exists r. }
  rewrite forallb_forall in Hall.
  specialize (Hall _ (Hshown p Hp)).
  rewrite forallb_forall in Hall.
  specialize (Hall _ (Hshown q Hq)).
  cbn [fst snd] in Hall. rewrite Heq, String.eqb_refl in Hall.
  apply andb_true_iff in Hall as [H1 H2].
  destruct p, q. simpl in *. f_equal; lia.
Qed.

Lemma clock_unambiguous : unambiguous clockReadings = true.
Proof. vm_compute. reflexivity. Qed.

(** X23.  [formatTime] is unambiguous: two instants of the day that are
    displayed alike have the same hour and the same minute, the hour
    read as [getHours()] in 0..23 and the minute as [getMinutes()] in
    0..59. *)
Theorem X23_formatTime_is_unambiguous :
  forall (h m h' m' : Z),
    0 <= h < 24 -> 0 <= m < 60 -> 0 <= h' < 24 -> 0 <= m' < 60 ->
    KindlePage.formatTime h m = KindlePage.formatTime h' m' ->
    h = h' /\ m = m'.
Proof.
  intros h m h' m' Hh Hm Hh' Hm' Heq.
  pose proof (unambiguous_spec clockReadings (h, m) (h', m')
                clock_unambiguous (clockReadings_spec h m Hh Hm)
                (clockReadings_spec h' m' Hh' Hm') Heq) as Hsame.
  by injection Hsame.
Qed.

(** X23, run: noon and midnight are told apart. *)
Lemma X23_formatTime_is_unambiguous_witness :
  KindlePage.formatTime 0 5 = "12:05 AM"
  /\ KindlePage.formatTime 12 5 = "12:05 PM"
  /\ (KindlePage.formatTime 0 5 = KindlePage.formatTime 12 5 -> False).
Proof.
  split; [reflexivity|]. split; [reflexivity|]. intros Heq.
  destruct (X23_formatTime_is_unambiguous 0 5 12 5) as [Hh _];
    [lia | lia | lia | lia | exact Heq | discriminate Hh].
Defined.

(** X24.  [currentBaby] is always one of the babies fetched: of a list
    that is not empty it picks an element, namely one with the selected
    id when there is any, and the first of the list when there is none
    or no id was selected. *)
Theorem X24_currentBaby_is_one_of_the_babies :
  forall (babies : list Baby) (selectedBabyId : option string),
    babies <> [] ->
    exists b,
      KindlePage.currentBaby babies selectedBabyId = Some b
      /\ In b babies
      /\ (forall b', In b' babies -> Some (baby_id b') = selectedBabyId ->
                     Some (baby_id b) = selectedBabyId)
      /\ ((forall b', In b' babies -> Some (baby_id b') <> selectedBabyId) ->
          Some b = head babies).
Proof.
  intros babies selectedBabyId Hne. unfold KindlePage.currentBaby.
  destruct (List.find _ babies) as [b|] eqn:Hfind.
  - apply find_some in Hfind as [Hin Hb].
    apply bool_decide_eq_true in Hb.
    exists b. repeat split; try done.
    intros Hnone. by destruct (Hnone b Hin).
  - destruct babies as [|first rest]; [done|].
    exists first. repeat split; try done; [by left|].
    intros b' Hin Hb'. exfalso.
    apply (find_none _ _ Hfind) in Hin.
    by apply bool_decide_eq_false in Hin.
Qed.

(** X24, run: an id that no baby of the family has falls back on the
    first baby. *)
Lemma X24_currentBaby_is_one_of_the_babies_witness :
  exists b,
    KindlePage.currentBaby (babies (db Sample.world)) (Some "b9") = Some b
    /\ baby_firstName b = "Charlotte".
Proof.
  destruct (X24_currentBaby_is_one_of_the_babies (babies (db Sample.world))
              (Some "b9") ltac:(discriminate))
    as (b & Hcur & Hin & _).
  exists b. split; [exact Hcur|].
  by destruct Hin as [<-|[]].
Defined.

(** ** The session of a magic link *)

Section SessionFacts.

Variable rt : Runtime.
Variable jwt : JwtLib.
Variable env : Env.

Lemma unlisted_exec w c token :
  expiryOf jwt token = None ->
  tokenBlacklist w !! token = None ->
  tokenBlacklist (exec rt jwt env w c) !! token = None.
Proof.
  intros Hexp Hbl. pose proof (evolves_exec rt jwt env w c) as Hc.
  destruct c as [now|t|now t|[] now req|now req|now req|now req].
  - simpl. change (tokenBlacklist (cleanupTick now w))
      with (cleanupBlacklist now (tokenBlacklist w)).
    by rewrite cleanup_lookup, Hbl.
  - simpl. rewrite invalidateToken_spec.
    destruct (expiryOf jwt t) as [ms|] eqn:Ht; [|exact Hbl].
    simpl. rewrite lookup_insert_ne; [exact Hbl|]. congruence.
  - destruct Hc as [Hsame _]. by rewrite Hsame.
  - destruct Hc as [Hsame _]. by rewrite Hsame.
  - destruct Hc as [Hsame _]. by rewrite Hsame.
  - destruct Hc as [Hsame _]. by rewrite Hsame.
  - destruct Hc as [Hsame _]. by rewrite Hsame.
  - destruct Hc as [Hsame _]. by rewrite Hsame.
  - destruct Hc as [Hsame _]. by rewrite Hsame.
Qed.

Lemma unlisted_run calls w token :
  expiryOf jwt token = None ->
  tokenBlacklist w !! token = None ->
  tokenBlacklist (run rt jwt env calls w) !! token = None.
Proof.
  intros Hexp. revert w.
  induction calls as [|c calls IH]; intros w Hbl; [exact Hbl|].
  simpl. by apply IH, unlisted_exec.
Qed.

Lemma magicLink_token w now req answer w' :
  MagicLink.POST jwt env w now req = (ok (Some answer), w') ->
  exists authResult caretaker,
    MagicLink.token answer
    = jwt_sign jwt (MagicLink.payload authResult caretaker) (getJwtSecret env).
Proof.
  unfold MagicLink.POST. intros Hpost.
  destruct (jsonBody req) as [body|]; [|discriminate].
  destruct (field body "token") as [[]|]; try discriminate.
  destruct (negb (Js.truthy _)); [discriminate|].
  destruct (validateDeviceToken w now _) as [authResult w1].
  destruct (_ || _); [discriminate|].
  injection Hpost as <- _. by eexists _, _.
Qed.

End SessionFacts.

(** X25.  The session of a magic link outlives everything the entry
    points can do.  The JWT that POST /api/auth/magic-link hands out
    has no [exp], [getAuthenticatedUser] never looks at the device
    token it was issued for, and [invalidateToken] cannot list it: so,
    for a JWT library whose [decode] shows no [exp] where none was
    signed, a request that bears the JWT is resolved after any sequence
    of timer ticks, invalidations, validations and requests - the
    revocation of the device token among them - exactly as it was
    resolved before. *)
Theorem X25_magic_link_session_outlives_its_device_token :
  forall (rt : Runtime) (jwt : JwtLib) (env : Env) (w w' : World) (now : Z)
         (req : Request) (answer : MagicLink.Data)
         (calls : list Call) (later : Z) (bearer : Request),
    (forall p secret decoded,
        jp_exp p = None ->
        jwt_decode jwt (jwt_sign jwt p secret) = Some decoded ->
        jp_exp decoded = None) ->
    MagicLink.POST jwt env w now req = (ok (Some answer), w') ->
    tokenBlacklist w' !! MagicLink.token answer = None ->
    req_Authorization bearer = Some ("Bearer " ++ MagicLink.token answer) ->
    getAuthenticatedUser jwt env (run rt jwt env calls w') later bearer
    = getAuthenticatedUser jwt env w' later bearer.
Proof.
  intros rt jwt env w w' now req answer calls later bearer
    Hlib Hpost Hbl Hbearer.
  assert (expiryOf jwt (MagicLink.token answer) = None) as Hexp.
  { destruct (magicLink_token jwt env _ _ _ _ _ Hpost)
      as (authResult & caretaker & ->).
    unfold expiryOf.
    destruct (jwt_decode jwt _) as [decoded|] eqn:Hdec; [|done].
    apply Hlib in Hdec; [|reflexivity]. by rewrite Hdec. }
  unfold getAuthenticatedUser. f_equal.
  apply resolve_keeps; [apply keeps_run|].
  intros token Htoken.
  rewrite (bearerToken_bearer _ _ Hbearer) in Htoken.
  injection Htoken as <-.
  by rewrite (unlisted_run rt jwt env calls w' _ Hexp Hbl), Hbl.
Qed.

(** X25, run: the kiosk's session revokes its own device token, is
    invalidated, and the timer fires; the device token is refused from
    then on, the session is not. *)
Lemma X25_magic_link_session_outlives_its_device_token_witness :
  authenticated
    (getAuthenticatedUser Kiosk.jwt Sample.saas
       (run Sample.rt Kiosk.jwt Sample.saas Session.calls Session.world)
       9000001 (Sample.bearer "kiosk.jwt")) = true
  /\ fst (validateDeviceToken
            (run Sample.rt Kiosk.jwt Sample.saas Session.calls Session.world)
            9000001 Sample.kioskToken)
     = rejected "Device token has been revoked".
Proof.
  split; [|reflexivity].
  destruct (MagicLink.POST Kiosk.jwt Sample.saas Sample.world 500
              Staff.linkRequest) as [response w'] eqn:Hpost.
  assert (exists answer, response = ok (Some answer)
                         /\ MagicLink.token answer = "kiosk.jwt")
    as (answer & -> & Htoken).
  { vm_compute in Hpost. injection Hpost as <- _. by eexists. }
  assert (Session.world = w') as Hworld.
  { unfold Session.world. by rewrite Hpost. }
  rewrite Hworld.
  rewrite (X25_magic_link_session_outlives_its_device_token Sample.rt
             Kiosk.jwt Sample.saas Sample.world w' 500 Staff.linkRequest
             answer Session.calls 9000001 (Sample.bearer "kiosk.jwt")).
  - by rewrite <- Hworld.
  - intros p secret decoded _. simpl. by intros [= <-].
  - exact Hpost.
  - rewrite Htoken, <- Hworld. reflexivity.
  - by rewrite Htoken.
Defined.

(** ** Sleep sessions of other families *)

Section SessionsKept.

Variable rt : Runtime.
Variable fid : string.

Lemma sessionsKept_refl w : sessionsKept fid w w.
Proof. by intros s Hs _. Qed.

Lemma sessionsKept_activity w w' row :
  createActivity rt w row = Some w' -> sessionsKept fid w w'.
Proof.
  unfold createActivity. destruct (acceptsActivity _ _ _); [|done].
  intros [= <-]. by intros s Hs _.
Qed.

Lemma sessionsKept_sleep w w' babyId f type_ cid now :
  createSleep rt w babyId f type_ cid now = Some w' -> sessionsKept fid w w'.
Proof.
  unfold createSleep. destruct (acceptsSleep _ _ _); [|done].
  intros [= <-] s Hs _. simpl. apply in_app_iff. by left.
Qed.

Lemma sessionsKept_endSleep w c now start :
  uniqueSleepIds (sleepLogs (db w)) ->
  In c (sleepLogs (db w)) -> sl_familyId c = fid ->
  sessionsKept fid w (endSleep w (sl_id c) now start).
Proof.
  unfold uniqueSleepIds. intros Huniq Hc Hfam s Hs Hother.
  unfold endSleep. simpl. apply list_elem_of_In, elem_of_update.
  exists s. split; [by apply list_elem_of_In|].
  destruct (String.eqb_spec (sl_id s) (sl_id c)) as [Hid|_]; [|done].
  exfalso. apply Hother. rewrite <- Hfam. f_equal.
  revert Huniq Hs Hc Hid. generalize (sleepLogs (db w)). clear.
  intros rows. induction rows as [|r rows IH]; simpl; [done|].
  intros Hnd. apply NoDup_cons in Hnd as [Hfresh Hnd].
  intros [<-|Hs] [<-|Hc] Hid; try done.
  - exfalso. apply Hfresh. rewrite Hid. apply list_elem_of_In, in_map, Hc.
  - exfalso. apply Hfresh. rewrite <- Hid. apply list_elem_of_In, in_map, Hs.
  - by apply IH.
Qed.

Lemma sessionsKept_after_validate w now token w' :
  sessionsKept fid (snd (validateDeviceToken w now token)) w' ->
  sessionsKept fid w w'.
Proof.
  assert (sleepLogs (db (snd (validateDeviceToken w now token)))
          = sleepLogs (db w)) as Hs.
  { unfold validateDeviceToken. by repeat case_match. }
  unfold sessionsKept. by rewrite Hs.
Qed.

Lemma sessionsKept_voice_dispatch w now body action baby cid :
  uniqueSleepIds (sleepLogs (db w)) ->
  sessionsKept fid w
    (snd (VoiceLog.dispatch rt w now body action baby fid cid)).
Proof.
  intros Huniq.
  unfold VoiceLog.dispatch, VoiceLog.logBottle, VoiceLog.logBreast,
    VoiceLog.logDiaper, VoiceLog.logSleepStart, VoiceLog.logSleepEnd,
    VoiceLog.logMedicine, VoiceLog.crashed, VoiceLog.succeed.
  repeat case_match; simpl;
    first [ apply sessionsKept_refl
          | by eapply sessionsKept_activity
          | by eapply sessionsKept_sleep
          | match goal with
            | H : VoiceLog.activeSleep _ _ _ = Some _ |- _ =>
                apply activeSleep_Some in H as (Hin & (_ & Hfam & _) & _);
                by apply sessionsKept_endSleep
            end ].
Qed.

Lemma sessionsKept_kindle_dispatch w now fields origin token babyId action
    cid out :
  uniqueSleepIds (sleepLogs (db w)) ->
  KindleLog.dispatch rt w now fields origin token babyId action fid cid
  = Some out ->
  sessionsKept fid w (snd out).
Proof.
  unfold KindleLog.dispatch. intros Huniq Hout.
  repeat case_match; simplify_option_eq;
    first [ apply sessionsKept_refl
          | by eapply sessionsKept_activity
          | by eapply sessionsKept_sleep
          | match goal with
            | H : Prisma.findFirst _ (sleepLogs _) = Some ?c |- _ =>
                apply find_some in H as [Hin Hc];
                apply andb_true_iff in Hc as [Hid Hfam];
                apply String.eqb_eq in Hid, Hfam;
                rewrite <- Hid; by apply sessionsKept_endSleep
            end ].
Qed.

End SessionsKept.

(** X26.  Neither logging route touches a sleep session of another
    family: with the ids of [SleepLog] pairwise different, every session
    that is on record for a family other than the device token's is on
    record unchanged after POST /api/voice/log and after
    POST /api/kindle/log, whatever the body names - a baby, a
    [sleepLogId] - and whatever the answer. *)
Theorem X26_sessions_of_other_families_are_left_alone :
  forall (rt : Runtime) (w : World) (now : Z) (req : Request),
    uniqueSleepIds (sleepLogs (db w)) ->
    (forall authHeader t,
        req_Authorization req = Some authHeader ->
        Prisma.deviceTokenByToken (db w) (Js.substringFrom 7 authHeader)
        = Some t ->
        sessionsKept (dt_familyId t) w (snd (VoiceLog.POST rt w now req)))
    /\ (forall fields token t,
           req_body req = FormBody fields ->
           KindleLog.formField fields "token" = Some token ->
           Prisma.deviceTokenByToken (db w) token = Some t ->
           sessionsKept (dt_familyId t) w (snd (KindleLog.POST rt w now req))).
Proof.
  intros rt w now req Huniq.
  assert (forall token,
             uniqueSleepIds
               (sleepLogs (db (snd (validateDeviceToken w now token)))))
    as Huniq'.
  { intros token.
    replace (sleepLogs (db (snd (validateDeviceToken w now token))))
      with (sleepLogs (db w)); [done|].
    unfold validateDeviceToken. by repeat case_match. }
  split.
  - intros authHeader t Hhdr Ht. unfold VoiceLog.POST. rewrite Hhdr.
    destruct (negb (Js.startsWith authHeader "Bearer "));
      [apply sessionsKept_refl|].
    apply (sessionsKept_after_validate _ w now
             (Js.substringFrom 7 authHeader)).
    specialize (Huniq' (Js.substringFrom 7 authHeader)).
    destruct (validateDeviceToken w now _) as [r w1] eqn:Hval.
    cbn [snd] in *.
    destruct (authenticated r) eqn:Hauth; [|apply sessionsKept_refl].
    destruct (validate_context _ _ _ _ _ Hval Hauth) as (t' & Ht' & Hf & Hc).
    rewrite Ht in Ht'. injection Ht' as <-. rewrite Hf, Hc.
    cbn [negb orb Js.truthyO default].
    repeat case_match;
      first [ apply sessionsKept_refl
            | by apply sessionsKept_voice_dispatch ].
  - intros fields token t Hbody Htoken Ht. unfold KindleLog.POST.
    rewrite Hbody, Htoken. cbn [Js.orElse].
    destruct (Js.truthy token) eqn:Htruthy; [|apply sessionsKept_refl].
    rewrite Htruthy. cbn [negb].
    apply (sessionsKept_after_validate _ w now token).
    specialize (Huniq' token).
    destruct (validateDeviceToken w now token) as [r w1] eqn:Hval.
    cbn [snd] in *.
    destruct (authenticated r) eqn:Hauth; [|apply sessionsKept_refl].
    destruct (validate_context _ _ _ _ _ Hval Hauth) as (t' & Ht' & Hf & Hc).
    rewrite Ht in Ht'. injection Ht' as <-. rewrite Hf, Hc.
    cbn [negb orb Js.truthyO default].
    repeat case_match; subst;
      first [ apply sessionsKept_refl
            | by eapply sessionsKept_kindle_dispatch ].
Qed.

(** X26, run: the kiosk of the sample family posts 'sleep-end' with the
    id of a session of another family; the session stays open. *)
Lemma X26_sessions_of_other_families_are_left_alone_witness :
  In Nursery.foreign
    (sleepLogs (db (snd (KindleLog.POST Sample.rt Nursery.shared 2700300
                           (Nursery.sleepEnd "s9")))))
  /\ map sl_endTime
       (sleepLogs (db (snd (KindleLog.POST Sample.rt Nursery.shared 2700300
                              (Nursery.sleepEnd "s1")))))
     = [Some 2700300; None].
Proof.
  split; [|reflexivity].
  destruct (X26_sessions_of_other_families_are_left_alone Sample.rt
              Nursery.shared 2700300 (Nursery.sleepEnd "s9"))
    as [_ Hkindle].
  - apply NoDup_cons. split.
    + intros Hin. apply list_elem_of_singleton in Hin. discriminate.
    + apply NoDup_singleton.
  - apply (Hkindle _ _ Sample.kiosk eq_refl eq_refl eq_refl).
    + right. by left.
    + discriminate.
Defined.

(** ** The order of the listing *)

Section ListingFacts.

#[local] Instance newestFirst_total : Total newestFirst.
Proof. intros a b. unfold newestFirst. lia. Qed.

#[local] Instance newestFirst_trans : Transitive newestFirst.
Proof. intros a b c. unfold newestFirst. lia. Qed.

Lemma masked_sorted d now rows entries :
  Forall2 (fun t e => DeviceTokens.maskToken d now t = Some e) rows entries ->
  StronglySorted newestFirst rows ->
  StronglySorted (fun a b => mt_createdAt b <= mt_createdAt a) entries
  /\ map mt_id entries = map dt_id rows
  /\ map mt_createdAt entries = map dt_createdAt rows.
Proof.
  assert (forall t e, DeviceTokens.maskToken d now t = Some e ->
                      mt_id e = dt_id t /\ mt_createdAt e = dt_createdAt t)
    as Hmask.
  { intros t e. unfold DeviceTokens.maskToken.
    destruct (Prisma.caretakerById _ _); [|done]. by intros [= <-]. }
  induction 1 as [|t e rows entries Hte Hrest IH]; intros Hsorted.
  - repeat split. constructor.
  - apply StronglySorted_inv in Hsorted as [Hsorted Hall].
    destruct (IH Hsorted) as (IHs & IHid & IHat).
    destruct (Hmask _ _ Hte) as [Hid Hat].
    split; [|simpl; by rewrite Hid, Hat, IHid, IHat].
    constructor; [exact IHs|].
    rewrite Hat. clear -Hall IHat. unfold newestFirst in Hall.
    revert rows Hall IHat.
    induction entries as [|e' entries IHe]; intros rows Hall Heq;
      [constructor|].
    destruct rows as [|t' rows]; [discriminate|].
    injection Heq as Hat' Heq. apply Forall_cons in Hall as [Ht' Hall].
    constructor; [by rewrite Hat'|]. by apply (IHe rows).
Qed.

Lemma newestFirst_sorted rows :
  StronglySorted newestFirst (merge_sort newestFirst rows).
Proof. apply (StronglySorted_merge_sort newestFirst). Qed.

End ListingFacts.

(** X27.  The listing is the caller's family, newest first: when
    [handleGet] answers with a listing, its entries are in the order of
    [createdAt], latest first, and their ids are, up to that order, the
    ids of the rows whose [familyId] is that of the context. *)
Theorem X27_listing_is_newest_first :
  forall (w : World) (now : Z) (req : Request) (ctx : AuthResult)
         (entries : list MaskedToken),
    fst (DeviceTokens.handleGet w now req ctx) = ok (Some (TokenList entries)) ->
    StronglySorted (fun a b => mt_createdAt b <= mt_createdAt a) entries
    /\ Permutation (map mt_id entries)
         (map dt_id
            (List.filter
               (fun t => bool_decide (Some (dt_familyId t) = familyId ctx))
               (deviceTokens (db w)))).
Proof.
  intros w now req ctx entries Hok. unfold DeviceTokens.handleGet in Hok.
  destruct (notAdmin ctx); [discriminate Hok|].
  destruct (negb (Js.truthyO (familyId ctx))); [discriminate Hok|].
  destruct (mapM _ _) as [masked|] eqn:Hmap; [|discriminate Hok].
  injection Hok as <-. apply mapM_Some_1 in Hmap.
  destruct (masked_sorted _ _ _ _ Hmap) as (Hsorted & Hids & _).
  { apply newestFirst_sorted. }
  split; [exact Hsorted|]. rewrite Hids.
  apply Permutation_map, merge_sort_Permutation.
Qed.

(** X27, run: the administrator lists after creating a second token;
    the new one comes first. *)
Lemma X27_listing_is_newest_first_witness :
  exists entries,
    fst (DeviceTokens.handleGet Staff.twoTokens 600
           (Sample.bearer "admin.jwt")
           (getAuthenticatedUser Sample.jwt Sample.saas Sample.world 600
              (Sample.bearer "admin.jwt")))
    = ok (Some (TokenList entries))
    /\ map mt_createdAt entries = [500; 100]
    /\ StronglySorted (fun a b => mt_createdAt b <= mt_createdAt a) entries.
Proof.
  assert (exists entries,
             fst (DeviceTokens.handleGet Staff.twoTokens 600
                    (Sample.bearer "admin.jwt")
                    (getAuthenticatedUser Sample.jwt Sample.saas Sample.world
                       600 (Sample.bearer "admin.jwt")))
             = ok (Some (TokenList entries))
             /\ map mt_createdAt entries = [500; 100])
    as (entries & Hok & Hat).
  { eexists. split; vm_compute; reflexivity. }
  exists entries. split; [exact Hok|]. split; [exact Hat|].
  exact (proj1 (X27_listing_is_newest_first _ _ _ _ _ Hok)).
Defined.
